(** * dbus-shelly: the meter channels of [meter.py]

    A shallow embedding of the three classes of [meter.py] ([SingleMeter],
    [ThreePhaseMeter], [PhysicalMeter]) and of its module-level helpers,
    together with the small part of the Python run time and of the
    aiovelib collaborators (published service, settings service, monitor)
    that their methods rely on, followed by the properties of the channel
    life cycle, the phase remapping and the telemetry routing, and by
    further properties of starting, restarting and updating channels. *)

From stdpp Require Import base gmap strings list.
From Stdlib Require Import Ascii DecimalString DecimalZ HexadecimalZ SpecFloat.

#[local] Set Warnings "-register-all,-clear-no-such-hyp".

Local Open Scope string_scope.
Local Open Scope Z_scope.

(** ** Exceptions and the state-and-exception monad *)

(** The exception classes that the modelled code can raise. *)
Inductive exn : Type :=
  | KeyError | TypeError | AttributeError | NameError
  | ValueError | IndexError | OverflowError.

(** Outcome of a Python call: a value, or a raised exception. *)
Inductive res (A : Type) : Type :=
  | Ok (a : A)
  | Raise (e : exn).
Arguments Ok {A} a.
Arguments Raise {A} e.

(** A method body: it reads and mutates the object state [S]; the
    mutations made before an exception is raised stay in place. *)
Definition M (S A : Type) : Type := S → res A * S.

Definition ret {S A} (a : A) : M S A := λ s, (Ok a, s).
Definition raise {S A} (e : exn) : M S A := λ s, (Raise e, s).
Definition bind {S A B} (m : M S A) (k : A → M S B) : M S B :=
  λ s, match m s with
       | (Ok a, s') => k a s'
       | (Raise e, s') => (Raise e, s')
       end.
Definition get {S} : M S S := λ s, (Ok s, s).
Definition put {S} (s : S) : M S unit := λ _, (Ok tt, s).
Definition modify {S} (f : S → S) : M S unit := λ s, (Ok tt, f s).
Definition lift {S A} (r : res A) : M S A := λ s, (r, s).

Notation "'do' x <- m ; k" := (bind m (λ x, k))
  (at level 10, x name, m at level 100, k at level 200,
   format "'[v' 'do'  x  <-  m ; '/' k ']'").
Notation "'do' ' p <- m ; k" := (bind m (λ x, match x with p => k end))
  (at level 10, p pattern, m at level 100, k at level 200,
   format "'[v' 'do'  ' p  <-  m ; '/' k ']'").
Notation "m ;; k" := (bind m (λ _, k))
  (at level 100, k at level 200, right associativity).

(** [try: body / except: pass] — the bare handler swallows everything. *)
Definition try_pass {S} (body : M S unit) : M S unit :=
  λ s, match body s with
       | (Ok _, s') => (Ok tt, s')
       | (Raise _, s') => (Ok tt, s')
       end.

(** [try: body / except KeyError: handler / else: cont]. *)
Definition try_KeyError {S A B} (body : M S A) (handler : M S B)
    (cont : A → M S B) : M S B :=
  λ s, match body s with
       | (Ok a, s') => cont a s'
       | (Raise KeyError, s') => handler s'
       | (Raise e, s') => (Raise e, s')
       end.

(** [try: body / except: handler / else: cont] with a bare handler. *)
Definition try_any {S A B} (body : M S A) (handler : M S B)
    (cont : A → M S B) : M S B :=
  λ s, match body s with
       | (Ok a, s') => cont a s'
       | (Raise _, s') => handler s'
       end.

(** Run a method of a component [T] of the state [S]. *)
Definition zoom {S T A} (proj : S → T) (upd : T → S → S) (m : M T A) : M S A :=
  λ s, let '(r, t') := m (proj s) in (r, upd t' s).

(** [for x in xs: body]. *)
Fixpoint for_each {S A} (xs : list A) (body : A → M S unit) : M S unit :=
  match xs with
  | [] => ret tt
  | x :: rest => body x ;; for_each rest body
  end.

(** A loop whose body may [return] from the enclosing function:
    [Some r] is that return value, [None] lets the loop go on. *)
Fixpoint for_return {S A R} (xs : list A) (body : A → M S (option R))
    : M S (option R) :=
  match xs with
  | [] => ret None
  | x :: rest =>
      do r <- body x;
      match r with
      | Some v => ret (Some v)
      | None => for_return rest body
      end
  end.

(** ** Python values *)

(** Python floats are kept abstract: the development only needs the
    operations that the meter code applies to readings. *)
Class PyFloat : Type := {
  float : Type;
  fadd : float → float → float;
  (** [float(n)]; [None] when the integer is too large (OverflowError) *)
  float_of_int : Z → option float;
  (** [x / 1000] on a float *)
  fdiv1000 : float → float;
  (** [n / 1000] on an int; [None] when the quotient overflows *)
  idiv1000 : Z → option float;
  (** [round(x, 1)] *)
  round1 : float → float
}.

Section values.
Context `{PyFloat}.

(** What [json.loads] produces, which is all that frames and settings
    hold. [bool] is a subclass of [int] in Python. *)
Inductive pyval : Type :=
  | VNone
  | VBool (b : bool)
  | VInt (z : Z)
  | VFloat (f : float)
  | VStr (s : string)
  | VList (l : list pyval)
  | VDict (d : list (string * pyval)).

(** A dict is given by its items in insertion order, each key once.
    [assoc] is the binding of a key. *)
Fixpoint assoc {A} (k : string) (d : list (string * A)) : option A :=
  match d with
  | [] => None
  | (k', v) :: rest => if String.eqb k k' then Some v else assoc k rest
  end.

(** [d[k] = v]: replace the binding in place, or append a new one. *)
Fixpoint assoc_set {A} (k : string) (v : A) (d : list (string * A))
    : list (string * A) :=
  match d with
  | [] => [(k, v)]
  | (k', v') :: rest =>
      if String.eqb k k' then (k, v) :: rest else (k', v') :: assoc_set k v rest
  end.

(** [v[k]] for a string key [k]. *)
Definition getitem (v : pyval) (k : string) : res pyval :=
  match v with
  | VDict d => match assoc k d with Some x => Ok x | None => Raise KeyError end
  | _ => Raise TypeError
  end.

(** [v.get(k)]. *)
Definition dict_get (v : pyval) (k : string) : res pyval :=
  match v with
  | VDict d => Ok (default VNone (assoc k d))
  | _ => Raise AttributeError
  end.

(** [v[k] = x] for a string key [k]. *)
Definition setitem (v : pyval) (k : string) (x : pyval) : res pyval :=
  match v with
  | VDict d => Ok (VDict (assoc_set k x d))
  | _ => Raise TypeError
  end.

(** [v.startswith(p)]. *)
Definition startswith (v : pyval) (p : string) : res bool :=
  match v with
  | VStr s => Ok (String.prefix p s)
  | _ => Raise AttributeError
  end.

(** [v == s] for a string literal [s]. *)
Definition eq_str (v : pyval) (s : string) : bool :=
  match v with
  | VStr s' => String.eqb s' s
  | _ => false
  end.

(** [v in [s1, s2, ...]] for a list of string literals. *)
Definition in_strs (v : pyval) (l : list string) : bool :=
  existsb (eq_str v) l.

Definition int_to_float (z : Z) : res float :=
  match float_of_int z with Some f => Ok f | None => Raise OverflowError end.

(** [a + b]. *)
Definition py_add (a b : pyval) : res pyval :=
  match a, b with
  | VInt x, VInt y => Ok (VInt (x + y))
  | VInt x, VBool y => Ok (VInt (x + Z.b2z y))
  | VBool x, VInt y => Ok (VInt (Z.b2z x + y))
  | VBool x, VBool y => Ok (VInt (Z.b2z x + Z.b2z y))
  | VFloat x, VFloat y => Ok (VFloat (fadd x y))
  | VFloat x, VInt y =>
      match int_to_float y with Ok f => Ok (VFloat (fadd x f)) | Raise e => Raise e end
  | VFloat x, VBool y =>
      match int_to_float (Z.b2z y) with Ok f => Ok (VFloat (fadd x f)) | Raise e => Raise e end
  | VInt x, VFloat y =>
      match int_to_float x with Ok f => Ok (VFloat (fadd f y)) | Raise e => Raise e end
  | VBool x, VFloat y =>
      match int_to_float (Z.b2z x) with Ok f => Ok (VFloat (fadd f y)) | Raise e => Raise e end
  | VStr x, VStr y => Ok (VStr (x ++ y))
  | VList x, VList y => Ok (VList (x ++ y))
  | _, _ => Raise TypeError
  end.

(** Sequencing of sub-expressions that may raise. *)
Definition res_bind {A B} (r : res A) (k : A → res B) : res B :=
  match r with
  | Ok a => k a
  | Raise e => Raise e
  end.

(** [round(v / 1000, 1)]. *)
Definition kwh (v : pyval) : res pyval :=
  match v with
  | VInt z =>
      match idiv1000 z with
      | Some f => Ok (VFloat (round1 f))
      | None => Raise OverflowError
      end
  | VBool b =>
      match idiv1000 (Z.b2z b) with
      | Some f => Ok (VFloat (round1 f))
      | None => Raise OverflowError
      end
  | VFloat f => Ok (VFloat (round1 (fdiv1000 f)))
  | _ => Raise TypeError
  end.

End values.

(** ** Strings: [str(int)], [int(str)], [str.split] *)

(** [str(n)] for an int. *)
Definition str_int (n : Z) : string := NilZero.string_of_int (Z.to_int n).

Definition is_space (a : ascii) : bool :=
  let n := nat_of_ascii a in
  (Nat.eqb n 32 || (Nat.leb 9 n && Nat.leb n 13))%bool.

Fixpoint lstrip (s : string) : string :=
  match s with
  | String a rest => if is_space a then lstrip rest else s
  | EmptyString => s
  end.

Fixpoint rstrip (s : string) : string :=
  match s with
  | EmptyString => EmptyString
  | String a rest =>
      match rstrip rest with
      | EmptyString => if is_space a then EmptyString else String a EmptyString
      | kept => String a kept
      end
  end.

(** [s.strip()]. *)
Definition strip (s : string) : string := rstrip (lstrip s).

(** Digit-group underscores: a single [_] is allowed between two digits. *)
Fixpoint drop_underscores (prev_digit : bool) (s : string) : option string :=
  match s with
  | EmptyString => if prev_digit then Some EmptyString else None
  | String "_" rest =>
      if prev_digit then drop_underscores false rest else None
  | String a rest => String a <$> drop_underscores true rest
  end.

(** [int] on text that is ASCII already: blanks around an optional sign
    and the digits in base ten; [None] stands for ValueError. *)
Definition int_ascii (s : string) : option Z :=
  match strip s with
  | String "+" rest =>
      d ← drop_underscores false rest;
      u ← NilZero.uint_of_string d;
      Some (Z.of_uint u)
  | String "-" rest =>
      d ← drop_underscores false rest;
      u ← NilZero.uint_of_string d;
      Some (- Z.of_uint u)
  | body =>
      d ← drop_underscores false body;
      u ← NilZero.uint_of_string d;
      Some (Z.of_uint u)
  end.

(** A Python string is given by its UTF-8 encoding; a string of bytes
    that is not UTF-8 stands for no Python string. *)
Definition byte_value (a : ascii) : Z := Z.of_N (N_of_ascii a).

(** The payload of a continuation byte. *)
Definition continuation (a : ascii) : option Z :=
  let n := byte_value a in
  if (128 <=? n) && (n <? 192) then Some (n - 128) else None.

(** The white space beyond ASCII ([str.isspace]). *)
Definition unicode_space (cp : Z) : bool :=
  existsb (Z.eqb cp) [133; 160; 5760; 8232; 8233; 8239; 8287; 12288]
  || ((8192 <=? cp) && (cp <=? 8202)).

(** The decimal digits beyond ASCII (category Nd of Unicode 14.0, which
    CPython 3.11 carries), as runs of code points: each run starts at a
    digit zero and holds whole decades. *)
Definition decimal_runs : list (Z * Z) :=
  [ (1632, 10); (1776, 10); (1984, 10); (2406, 10); (2534, 10); (2662, 10);
    (2790, 10); (2918, 10); (3046, 10); (3174, 10); (3302, 10); (3430, 10);
    (3558, 10); (3664, 10); (3792, 10); (3872, 10); (4160, 10); (4240, 10);
    (6112, 10); (6160, 10); (6470, 10); (6608, 10); (6784, 10); (6800, 10);
    (6992, 10); (7088, 10); (7232, 10); (7248, 10); (42528, 10);
    (43216, 10); (43264, 10); (43472, 10); (43504, 10); (43600, 10);
    (44016, 10); (65296, 10); (66720, 10); (68912, 10); (69734, 10);
    (69872, 10); (69942, 10); (70096, 10); (70384, 10); (70736, 10);
    (70864, 10); (71248, 10); (71360, 10); (71472, 10); (71904, 10);
    (72016, 10); (72784, 10); (73040, 10); (73120, 10); (92768, 10);
    (92864, 10); (93008, 10); (120782, 50); (123200, 10); (123632, 10);
    (125264, 10); (130032, 10) ].

Definition unicode_decimal (cp : Z) : option Z :=
  r ← find (λ r, (r.1 <=? cp) && (cp <? r.1 + r.2)) decimal_runs;
  Some ((cp - r.1) mod 10).

(** What [int] makes of a character beyond ASCII: a blank of white
    space, the ASCII digit of a decimal digit, and nothing of anything
    else. *)
Definition wide_to_ascii (cp : Z) : option ascii :=
  if unicode_space cp then Some " "%char
  else d ← unicode_decimal cp; Some (ascii_of_N (Z.to_N (48 + d))).

(** The first step of [int(s)] on a string: its characters beyond ASCII
    are turned into ASCII, the others are kept as they are; [None] when
    a character has no ASCII counterpart. *)
Fixpoint to_ascii_decimal (s : string) : option string :=
  match s with
  | EmptyString => Some EmptyString
  | String a rest =>
      let n := byte_value a in
      if n <? 128 then String a <$> to_ascii_decimal rest
      else if n <? 194 then None
      else if n <? 224 then
        match rest with
        | String b rest1 =>
            c1 ← continuation b;
            a' ← wide_to_ascii ((n - 192) * 64 + c1);
            String a' <$> to_ascii_decimal rest1
        | _ => None
        end
      else if n <? 240 then
        match rest with
        | String b (String c rest2) =>
            c1 ← continuation b;
            c2 ← continuation c;
            let cp := ((n - 224) * 64 + c1) * 64 + c2 in
            if cp <? 2048 then None
            else a' ← wide_to_ascii cp; String a' <$> to_ascii_decimal rest2
        | _ => None
        end
      else if n <? 245 then
        match rest with
        | String b (String c (String d rest3)) =>
            c1 ← continuation b;
            c2 ← continuation c;
            c3 ← continuation d;
            let cp := (((n - 240) * 64 + c1) * 64 + c2) * 64 + c3 in
            if cp <? 65536 then None
            else a' ← wide_to_ascii cp; String a' <$> to_ascii_decimal rest3
        | _ => None
        end
      else None
  end.

(** [int(s)] in base ten; [None] stands for ValueError. *)
Definition int_str (s : string) : option Z :=
  t ← to_ascii_decimal s; int_ascii t.

(** [s.split(c)]: the pieces between the occurrences of [c]. *)
Fixpoint split_on (c : ascii) (s : string) : list string :=
  match s with
  | EmptyString => [EmptyString]
  | String a rest =>
      if Ascii.eqb a c then EmptyString :: split_on c rest
      else match split_on c rest with
           | piece :: pieces => String a piece :: pieces
           | [] => [String a EmptyString]
           end
  end.

(** ** The module-level helpers *)

(** [alias_instance], [alias_position], [alias_phase]: the alias of a
    setting of the channel with index [v]. *)
Definition alias_instance (v : Z) : string := "instance_" ++ str_int v.
Definition alias_position (v : Z) : string := "position_" ++ str_int v.
Definition alias_phase (v : Z) : string := "phase_" ++ str_int v.

(** The digits of [format(n, 'X')]: upper-case hexadecimal. *)
Fixpoint hex_upper (d : Hexadecimal.uint) : string :=
  match d with
  | Hexadecimal.Nil => EmptyString
  | Hexadecimal.D0 d => String "0" (hex_upper d)
  | Hexadecimal.D1 d => String "1" (hex_upper d)
  | Hexadecimal.D2 d => String "2" (hex_upper d)
  | Hexadecimal.D3 d => String "3" (hex_upper d)
  | Hexadecimal.D4 d => String "4" (hex_upper d)
  | Hexadecimal.D5 d => String "5" (hex_upper d)
  | Hexadecimal.D6 d => String "6" (hex_upper d)
  | Hexadecimal.D7 d => String "7" (hex_upper d)
  | Hexadecimal.D8 d => String "8" (hex_upper d)
  | Hexadecimal.D9 d => String "9" (hex_upper d)
  | Hexadecimal.Da d => String "A" (hex_upper d)
  | Hexadecimal.Db d => String "B" (hex_upper d)
  | Hexadecimal.Dc d => String "C" (hex_upper d)
  | Hexadecimal.Dd d => String "D" (hex_upper d)
  | Hexadecimal.De d => String "E" (hex_upper d)
  | Hexadecimal.Df d => String "F" (hex_upper d)
  end.

(** ["{:X}".format(n)] for an int: a minus sign for a negative number,
    then the digits. *)
Definition format_X (n : Z) : string :=
  match Z.to_hex_int n with
  | Hexadecimal.Pos d => hex_upper d
  | Hexadecimal.Neg d => String "-" (hex_upper d)
  end.

Module Formatters.
Section defs.
Context `{PyFloat}.

(** [unit_productid = lambda v: "0x{:X}".format(v)]. The format code
    [X] is defined for ints ([bool] included) only. *)
Definition unit_productid (v : pyval) : res string :=
  match v with
  | VInt n => Ok ("0x" ++ format_X n)
  | VBool b => Ok ("0x" ++ format_X (Z.b2z b))
  | VFloat _ | VStr _ => Raise ValueError
  | VNone | VList _ | VDict _ => Raise TypeError
  end.

End defs.
End Formatters.

(** ** The collaborators from aiovelib

    [Service] (the published metric points), [SettingsService] (the handle
    on localsettings) and [Monitor] are not part of [meter.py]; they are
    modelled by the contract [meter.py] uses them under. *)

Section collaborators.
Context `{PyFloat}.

Inductive item_kind : Type := TextItem | IntegerItem | DoubleItem | TextArrayItem.

(** The module-level text formatters. *)
Inductive formatter : Type :=
  unit_watt | unit_volt | unit_amp | unit_kwh | unit_productid.

(** The bound methods handed to writeable items as [onchange]. *)
Inductive callback : Type := cb_role_changed | cb_phase_changed | cb_position_changed.

Record Item : Type := {
  kind : item_kind;
  value : pyval;
  text : option formatter;
  onchange : option callback      (* [writeable=True, onchange=...] *)
}.

Definition mk_item (k : item_kind) (v : pyval) : Item :=
  {| kind := k; value := v; text := None; onchange := None |}.
Definition mk_item_text (k : item_kind) (v : pyval) (f : formatter) : Item :=
  {| kind := k; value := v; text := Some f; onchange := None |}.
Definition mk_item_rw (k : item_kind) (v : pyval) (cb : callback) : Item :=
  {| kind := k; value := v; text := None; onchange := Some cb |}.

(** A published service: its bus name and its items by path. *)
Record Service : Type := {
  name : string;
  objects : gmap string Item
}.

(** [Service.create(bus, name)]. *)
Definition Service_create (n : string) : Service :=
  {| name := n; objects := ∅ |}.

(** [service.add_item(item)]. *)
Definition add_item (path : string) (it : Item) (svc : Service) : Service :=
  {| name := name svc; objects := <[path := it]> (objects svc) |}.

(** [s[path] = v] inside [with service as s]: the item registered under
    [path] takes the value; a path that was never added is a KeyError. *)
Definition set_value (path : string) (v : pyval) : M Service unit :=
  λ svc, match objects svc !! path with
         | Some it =>
             (Ok tt,
              {| name := name svc;
                 objects := <[path := {| kind := kind it; value := v;
                                         text := text it;
                                         onchange := onchange it |}]>
                              (objects svc) |})
         | None => (Raise KeyError, svc)
         end.

(** [s[path] = expr]: the right-hand side is evaluated first. *)
Definition assign (path : string) (expr : res pyval) : M Service unit :=
  do v <- lift expr; set_value path v.

(** The assignments of one [with] block, in source order. *)
Definition assign_all (ws : list (string * res pyval)) : M Service unit :=
  for_each ws (λ w, assign w.1 w.2).

(** The value published under a path. *)
Definition published (svc : Service) (path : string) : option pyval :=
  value <$> objects svc !! path.

(** [Setting(path, default, minimum, maximum, alias=...)]. *)
Record Setting : Type := {
  s_path : string;
  s_default : pyval;
  s_min : Z;
  s_max : Z;
  s_alias : string
}.

(** The handle on localsettings held by a monitor: the aliases that
    [add_settings] registered. The values live in localsettings itself. *)
Record SettingsService : Type := {
  aliases : gmap string string
}.

(** [Monitor]: the services it has seen; only localsettings matters. *)
Record Monitor : Type := {
  settings_service : option SettingsService
}.

(** What lies outside the process: whether localsettings shows up on the
    bus within the five-second bound, the values it stores, and the two
    constants imported from [__main__]. *)
Record Env : Type := {
  settings_up : bool;
  store : gmap string pyval;
  MAIN_FILE : string;
  VERSION : string
}.

Definition set_store (f : gmap string pyval → gmap string pyval) (e : Env) : Env :=
  {| settings_up := settings_up e; store := f (store e);
     MAIN_FILE := MAIN_FILE e; VERSION := VERSION e |}.

(** [settings.add_settings(...)]: each alias is recorded; localsettings
    creates the entry with its default unless it already holds a value. *)
Definition add_setting (st : Setting) (hs : SettingsService * gmap string pyval)
    : SettingsService * gmap string pyval :=
  let '(h, sto) := hs in
  ({| aliases := <[s_alias st := s_path st]> (aliases h) |},
   match sto !! s_path st with
   | Some _ => sto
   | None => <[s_path st := s_default st]> sto
   end).

Definition add_settings (sts : list Setting) (hs : SettingsService * gmap string pyval)
    : SettingsService * gmap string pyval :=
  foldl (λ acc st, add_setting st acc) hs sts.

(** [settings.alias(a)]: the path behind an alias, [None] if unknown. *)
Definition alias (h : SettingsService) (a : string) : option string :=
  aliases h !! a.

(** [settings.get_value(path)]; Python's [None] when there is no value. *)
Definition get_value (sto : gmap string pyval) (path : option string) : pyval :=
  match path with
  | Some p => default VNone (sto !! p)
  | None => VNone
  end.

(** [settings.set_value(path, v)]. *)
Definition store_set (path : option string) (v : pyval)
    (sto : gmap string pyval) : gmap string pyval :=
  match path with
  | Some p => <[p := v]> sto
  | None => sto
  end.

(** [role_instance]: [val = value.split(':')], then [val[0], int(val[1])]. *)
Definition role_instance (v : pyval) : res (string * Z) :=
  match v with
  | VStr s =>
      match split_on ":" s with
      | r :: i :: _ =>
          match int_str i with
          | Some n => Ok (r, n)
          | None => Raise ValueError
          end
      | _ => Raise IndexError
      end
  | _ => Raise AttributeError
  end.

(** The value of the phase setting, which [start] takes as it comes.
    The setting is added with the int default 1 and the int bounds 1 and
    3, and the channel state below keeps the phase as an int: the model
    follows [start] on a stored phase that is an int, and stops with
    TypeError on a stored value of any other type, where [start] itself
    would go on with that value. *)
Definition as_int (v : pyval) : res Z :=
  match v with
  | VInt z => Ok z
  | _ => Raise TypeError
  end.

(** String concatenation [a + b] where [a] is known to be a string. *)
Definition str_add (a : string) (b : pyval) : res string :=
  match b with
  | VStr s => Ok (a ++ s)
  | _ => Raise TypeError
  end.

Definition allowed_roles : list string := ["grid"; "pvinverter"; "genset"; "acload"].

(** The D-Bus bus a channel connects to. *)
Inductive BusType : Type := SESSION | SYSTEM.

End collaborators.

(** The steps shared by the two channel classes. *)
Section channel_steps.
Context `{PyFloat}.

(** Loading a name that is bound neither in the function nor in the
    module nor among the builtins. *)
Definition unbound_name {S A} (n : string) : M S A := raise NameError.

(** [data['result'][k]]. *)
Definition result_field (data : pyval) (k : string) : res pyval :=
  match getitem data "result" with
  | Ok r => getitem r k
  | Raise e => Raise e
  end.

(** The items that both [start] methods add before the meter paths.
    [nm] is the custom name ([None] when the handshake has none). *)
Definition identity_items (e : Env) (host : string) (port : Z)
    (role : string) (instance : Z) (nm fw : pyval) (phase : Z) (pos : pyval)
    : list (string * Item) :=
  [ ("/Mgmt/ProcessName", mk_item TextItem (VStr (MAIN_FILE e)));
    ("/Mgmt/ProcessVersion", mk_item TextItem (VStr (VERSION e)));
    ("/Mgmt/Connection",
       mk_item TextItem (VStr ("WebSocket " ++ host ++ ":" ++ str_int port)));
    ("/DeviceInstance", mk_item IntegerItem (VInt instance));
    ("/ProductId", mk_item_text IntegerItem (VInt 0xB034) unit_productid);
    ("/ProductName", mk_item TextItem (VStr "Shelly energy meter")) ]
  ++ match nm with
     | VNone => []
     | _ => [ ("/CustomName", mk_item TextItem nm) ]
     end
  ++ [ ("/FirmwareVersion", mk_item TextItem fw);
       ("/Connected", mk_item IntegerItem (VInt 1));
       ("/RefreshTime", mk_item IntegerItem (VInt 100));
       ("/AllowedRoles", mk_item TextArrayItem (VList (VStr <$> allowed_roles)));
       ("/Role", mk_item_rw TextItem (VStr role) cb_role_changed);
       ("/Phase", mk_item_rw TextItem (VInt phase) cb_phase_changed) ]
  ++ (if String.eqb role "pvinverter"
      then [ ("/Position", mk_item_rw IntegerItem pos cb_position_changed) ]
      else []).

Definition totals_items : list (string * Item) :=
  [ ("/Ac/Energy/Forward", mk_item_text DoubleItem VNone unit_kwh);
    ("/Ac/Energy/Reverse", mk_item_text DoubleItem VNone unit_kwh);
    ("/Ac/Power", mk_item_text DoubleItem VNone unit_watt) ].

(** The five points of one phase line. *)
Definition line_items (prefix : string) : list (string * Item) :=
  [ (prefix ++ "/Voltage", mk_item_text DoubleItem VNone unit_volt);
    (prefix ++ "/Current", mk_item_text DoubleItem VNone unit_amp);
    (prefix ++ "/Power", mk_item_text DoubleItem VNone unit_watt);
    (prefix ++ "/Energy/Forward", mk_item_text DoubleItem VNone unit_kwh);
    (prefix ++ "/Energy/Reverse", mk_item_text DoubleItem VNone unit_kwh) ].

(** [d[ka] + d[kb] + d[kc]], evaluated left to right. *)
Definition sum3 (d : pyval) (ka kb kc : string) : res pyval :=
  res_bind (getitem d ka) (λ a,
  res_bind (getitem d kb) (λ b,
  res_bind (py_add a b) (λ ab,
  res_bind (getitem d kc) (λ c, py_add ab c)))).

(** [l[i]] on a list; a negative index counts from the end. *)
Definition py_index {A} (l : list A) (i : Z) : res A :=
  let n := Z.of_nat (length l) in
  let j := if (i <? 0)%Z then i + n else i in
  if (j <? 0)%Z then Raise IndexError
  else match l !! Z.to_nat j with
       | Some x => Ok x
       | None => Raise IndexError
       end.

(** A run of [service.add_item] calls, in order. *)
Definition add_items (its : list (string * Item)) (svc : Service) : Service :=
  foldl (λ s pi, add_item pi.1 pi.2 s) svc its.

End channel_steps.

(** ** [class SingleMeter] *)

Module SingleMeter.
Section defs.
Context `{PyFloat}.

Record t : Type := {
  bus_type : BusType;
  monitor : option Monitor;
  service : option Service;
  position : pyval;
  destroyed : bool;
  meterid : Z;
  phaseposition : Z    (* which phase the EM is connected to *)
}.

(** [__init__]. *)
Definition init (bt : BusType) (mid : Z) : t :=
  {| bus_type := bt; monitor := None; service := None; position := VNone;
     destroyed := false; meterid := mid; phaseposition := 1 |}.

Definition set_monitor (m : option Monitor) (self : t) : t :=
  {| bus_type := bus_type self; monitor := m; service := service self;
     position := position self; destroyed := destroyed self;
     meterid := meterid self; phaseposition := phaseposition self |}.
Definition set_service (s : option Service) (self : t) : t :=
  {| bus_type := bus_type self; monitor := monitor self; service := s;
     position := position self; destroyed := destroyed self;
     meterid := meterid self; phaseposition := phaseposition self |}.
Definition set_destroyed (d : bool) (self : t) : t :=
  {| bus_type := bus_type self; monitor := monitor self; service := service self;
     position := position self; destroyed := d;
     meterid := meterid self; phaseposition := phaseposition self |}.
Definition set_phaseposition (p : Z) (self : t) : t :=
  {| bus_type := bus_type self; monitor := monitor self; service := service self;
     position := position self; destroyed := destroyed self;
     meterid := meterid self; phaseposition := p |}.

(** The methods that touch localsettings run on the pair of the outside
    world and the channel. *)
Definition on_self {A} (m : M t A) : M (Env * t) A :=
  zoom snd (λ self s, (s.1, self)) m.

(** [wait_for_settings]: the settings handle, or [None] after the
    five-second timeout. *)
Definition wait_for_settings : M (Env * t) (option SettingsService) :=
  do '(e, self) <- get;
  match monitor self with
  | None => raise AttributeError
  | Some mon =>
      if settings_up e then
        let h := default {| aliases := ∅ |} (settings_service mon) in
        put (e, set_monitor (Some {| settings_service := Some h |}) self) ;;
        ret (Some h)
      else ret None
  end.

(** [get_settings]: the settings handle if the monitor knows it. *)
Definition get_settings : M (Env * t) (option SettingsService) :=
  do '(_, self) <- get;
  match monitor self with
  | None => raise AttributeError
  | Some mon => ret (settings_service mon)
  end.

(** The [add_item] calls of [start], in source order. *)
Definition publish (e : Env) (host : string) (port : Z) (role : string)
    (instance : Z) (nm fw : pyval) (phase : Z) (pos : pyval)
    (svc : Service) : Service :=
  let prefix := "/Ac/L" ++ str_int phase in
  add_items (identity_items e host port role instance nm fw phase pos
             ++ totals_items ++ line_items prefix) svc.

Definition start (host : string) (port : Z) (data : pyval) : M (Env * t) bool :=
  try_KeyError
    (do mac <- lift (result_field data "mac");
     do fw <- lift (result_field data "fw_id");
     do model <- lift (result_field data "model");
     do app <- lift (result_field data "app");
     ret (mac, fw, model, app))
    (ret false)
    (λ '(mac, fw, model, app),
     do '(_, self0) <- get;
     do nm <- try_any
       (do n <- lift (result_field data "name");
        do n1 <- lift (py_add n (VStr "_"));
        lift (py_add n1 (VStr (str_int (meterid self0)))))
       (ret VNone) ret;
     (* Check model and usage *)
     if negb (eq_str model "SPEM-002CEBEU50" && eq_str app "ProEM") then ret false
     else
     (* Connect to dbus, localsettings *)
     on_self (modify (set_monitor (Some {| settings_service := None |}))) ;;
     do settings <- wait_for_settings;
     match settings with
     | None => ret false
     | Some h0 =>
         do p <- lift (str_add "/Settings/Devices/shelly_" mac);
         let settingprefix := p ++ "_" ++ str_int (meterid self0) in
         do '(e, self) <- get;
         let '(h, sto) :=
           add_settings
             [ {| s_path := settingprefix ++ "/ClassAndVrmInstance";
                  s_default := VStr "grid:40"; s_min := 0; s_max := 0;
                  s_alias := "instance" |};
               {| s_path := settingprefix ++ "/Position";
                  s_default := VInt 0; s_min := 0; s_max := 2;
                  s_alias := "position" |};
               {| s_path := settingprefix ++ "/Phase";
                  s_default := VInt 1; s_min := 1; s_max := 3;
                  s_alias := "phaseposition" |} ]
             (h0, store e) in
         put (set_store (λ _, sto) e,
              set_monitor (Some {| settings_service := Some h |}) self) ;;
         (* Determine role and instance *)
         do '(role, instance) <- lift (role_instance (get_value sto (alias h "instance")));
         (* Determine phase position *)
         do ph <- lift (as_int (get_value sto (alias h "phaseposition")));
         on_self (modify (set_phaseposition ph)) ;;
         (* Set up the service: the bus name is built from [str(meterid)],
            and [meterid] is not a name in scope (the attribute is
            [self.meterid]) *)
         do mid <- unbound_name "meterid";
         do n <- lift (str_add ("com.victronenergy." ++ role ++ ".shelly_") mac);
         let svc := Service_create (n ++ "_" ++ mid) in
         do '(e', _) <- get;
         on_self (modify (set_service (Some
           (publish e' host port role instance nm fw ph
              (get_value sto (alias h "position")) svc)))) ;;
         ret true
     end).

Definition destroy : M t unit :=
  (* [self.service.__del__()] takes the service off the bus *)
  modify (set_service None) ;;
  modify (set_destroyed true).

(** [with self.service as s: body]. *)
Definition with_service (body : M Service unit) : M t unit :=
  λ self, match service self with
          | None => (Raise AttributeError, self)
          | Some svc =>
              let '(r, svc') := body svc in (r, set_service (Some svc') self)
          end.

(** The four [with self.service as s] blocks of [update]. *)
Definition live_writes (prefix : string) (data : pyval) : list (string * res pyval) :=
  [ (prefix ++ "/Voltage", getitem data "voltage");
    (prefix ++ "/Current", getitem data "current");
    (prefix ++ "/Power", getitem data "act_power");
    ("/Ac/Power", getitem data "act_power") ].

Definition history_writes (prefix : string) (data : pyval) : list (string * res pyval) :=
  [ ("/Ac/Energy/Forward", res_bind (getitem data "total_act_energy") kwh);
    ("/Ac/Energy/Reverse", res_bind (getitem data "total_act_ret_energy") kwh);
    (prefix ++ "/Energy/Forward", res_bind (getitem data "total_act_energy") kwh);
    (prefix ++ "/Energy/Reverse", res_bind (getitem data "total_act_ret_energy") kwh) ].

Definition notify_live_writes (d : pyval) : list (string * res pyval) :=
  [ ("/Ac/L1/Voltage", getitem d "a_voltage");
    ("/Ac/L2/Voltage", getitem d "b_voltage");
    ("/Ac/L3/Voltage", getitem d "c_voltage");
    ("/Ac/L1/Current", getitem d "a_current");
    ("/Ac/L2/Current", getitem d "b_current");
    ("/Ac/L3/Current", getitem d "c_current");
    ("/Ac/L1/Power", getitem d "a_act_power");
    ("/Ac/L2/Power", getitem d "b_act_power");
    ("/Ac/L3/Power", getitem d "c_act_power");
    ("/Ac/Power", sum3 d "a_act_power" "b_act_power" "c_act_power") ].

Definition notify_history_writes (d : pyval) : list (string * res pyval) :=
  [ ("/Ac/Energy/Forward", res_bind (getitem d "total_act") kwh);
    ("/Ac/Energy/Reverse", res_bind (getitem d "total_act_ret") kwh);
    ("/Ac/L1/Energy/Forward", res_bind (getitem d "a_total_act_energy") kwh);
    ("/Ac/L1/Energy/Reverse", res_bind (getitem d "a_total_act_ret_energy") kwh);
    ("/Ac/L2/Energy/Forward", res_bind (getitem d "b_total_act_energy") kwh);
    ("/Ac/L2/Energy/Reverse", res_bind (getitem d "b_total_act_ret_energy") kwh);
    ("/Ac/L3/Energy/Forward", res_bind (getitem d "c_total_act_energy") kwh);
    ("/Ac/L3/Energy/Reverse", res_bind (getitem d "c_total_act_ret_energy") kwh) ].

(** The first half of [update], up to the [####] line: the block
    tagged by the router. *)
Definition update_keyed (data : pyval) : M t unit :=
  do self <- get;
  let prefix := "/Ac/L" ++ str_int (phaseposition self) in
  (* Check if incoming is history or live data *)
  try_pass
    (do helpertag <- lift (getitem data "helpertag");
     do live <- lift (startswith helpertag "em:");
     if live then
       try_pass (with_service (assign_all (live_writes prefix data)))
     else
       do hist <- lift (startswith helpertag "emdata:");
       if hist then
         try_pass (with_service (assign_all (history_writes prefix data)))
       else ret tt).

(** The second half of [update], after the [####] line: a whole
    [NotifyStatus] notification. *)
Definition update_notify (data : pyval) : M t unit :=
  do self <- get;
  (* [if self.service and data.get('method') == 'NotifyStatus'] *)
  match service self with
  | None => ret tt
  | Some _ =>
      do m <- lift (dict_get data "method");
      if eq_str m "NotifyStatus" then
        try_KeyError
          (do p <- lift (getitem data "params"); lift (getitem p "em:0"))
          (ret tt)
          (λ d, with_service (assign_all (notify_live_writes d))) ;;
        try_KeyError
          (do p <- lift (getitem data "params"); lift (getitem p "emdata:0"))
          (ret tt)
          (λ d, with_service (assign_all (notify_history_writes d)))
      else ret tt
  end.

Definition update (data : pyval) : M t unit :=
  update_keyed data ;; update_notify data.

(** [settings_changed(service, values)]: [values] holds the changed paths. *)
Definition settings_changed (h : SettingsService) (values : list string) : M t unit :=
  (* Kill service, driver will restart us soon *)
  match alias h "instance" with
  | Some p => if bool_decide (p ∈ values) then destroy else ret tt
  | None => ret tt
  end.

Definition role_changed (val : pyval) : M (Env * t) bool :=
  if negb (in_strs val allowed_roles) then ret false
  else
    do settings <- get_settings;
    match settings with
    | None => ret false
    | Some h =>
        let p := alias h "instance" in
        do '(e, _) <- get;
        do '(role, instance) <- lift (role_instance (get_value (store e) p));
        do v <- lift (str_add "" val);   (* [val] is one of the role strings *)
        modify (λ s, (set_store (store_set p (VStr (v ++ ":" ++ str_int instance))) s.1, s.2)) ;;
        on_self destroy ;;   (* restart *)
        ret true
    end.

Definition position_changed (val : Z) : M (Env * t) bool :=
  if negb ((0 <=? val)%Z && (val <=? 2)%Z) then ret false
  else
    do settings <- get_settings;
    match settings with
    | None => ret false
    | Some h =>
        modify (λ s, (set_store (store_set (alias h "position") (VInt val)) s.1, s.2)) ;;
        ret true
    end.

Definition phase_changed (val : Z) : M (Env * t) bool :=
  if negb ((1 <=? val)%Z && (val <=? 3)%Z) then ret false
  else
    do settings <- get_settings;
    match settings with
    | None => ret false
    | Some h =>
        modify (λ s, (set_store (store_set (alias h "phaseposition") (VInt val)) s.1, s.2)) ;;
        on_self (modify (set_phaseposition val)) ;;
        ret true
    end.

End defs.
End SingleMeter.

(** ** [class ThreePhaseMeter] *)

Module ThreePhaseMeter.
Section defs.
Context `{PyFloat}.

Record t : Type := {
  bus_type : BusType;
  monitor : option Monitor;
  service : option Service;
  position : pyval;
  destroyed : bool;
  phase1position : Z   (* which phase is presented as phase 1 *)
}.

(** [__init__]. *)
Definition init (bt : BusType) : t :=
  {| bus_type := bt; monitor := None; service := None; position := VNone;
     destroyed := false; phase1position := 1 |}.

Definition set_monitor (m : option Monitor) (self : t) : t :=
  {| bus_type := bus_type self; monitor := m; service := service self;
     position := position self; destroyed := destroyed self;
     phase1position := phase1position self |}.
Definition set_service (s : option Service) (self : t) : t :=
  {| bus_type := bus_type self; monitor := monitor self; service := s;
     position := position self; destroyed := destroyed self;
     phase1position := phase1position self |}.
Definition set_destroyed (d : bool) (self : t) : t :=
  {| bus_type := bus_type self; monitor := monitor self; service := service self;
     position := position self; destroyed := d;
     phase1position := phase1position self |}.
Definition set_phase1position (p : Z) (self : t) : t :=
  {| bus_type := bus_type self; monitor := monitor self; service := service self;
     position := position self; destroyed := destroyed self;
     phase1position := p |}.

Definition on_self {A} (m : M t A) : M (Env * t) A :=
  zoom snd (λ self s, (s.1, self)) m.

Definition wait_for_settings : M (Env * t) (option SettingsService) :=
  do '(e, self) <- get;
  match monitor self with
  | None => raise AttributeError
  | Some mon =>
      if settings_up e then
        let h := default {| aliases := ∅ |} (settings_service mon) in
        put (e, set_monitor (Some {| settings_service := Some h |}) self) ;;
        ret (Some h)
      else ret None
  end.

Definition get_settings : M (Env * t) (option SettingsService) :=
  do '(_, self) <- get;
  match monitor self with
  | None => raise AttributeError
  | Some mon => ret (settings_service mon)
  end.

(** The [add_item] calls of [start], in source order. *)
Definition publish (e : Env) (host : string) (port : Z) (role : string)
    (instance : Z) (nm fw : pyval) (phase : Z) (pos : pyval)
    (svc : Service) : Service :=
  add_items (identity_items e host port role instance nm fw phase pos
             ++ totals_items
             ++ line_items "/Ac/L1" ++ line_items "/Ac/L2" ++ line_items "/Ac/L3") svc.

Definition start (host : string) (port : Z) (data : pyval) : M (Env * t) bool :=
  try_KeyError
    (do mac <- lift (result_field data "mac");
     do fw <- lift (result_field data "fw_id");
     do model <- lift (result_field data "model");
     do app <- lift (result_field data "app");
     ret (mac, fw, model, app))
    (ret false)
    (λ '(mac, fw, model, app),
     do nm <- try_any (lift (result_field data "name")) (ret VNone) ret;
     (* Check model and usage *)
     if eq_str model "SPEM-003CEBEU" && eq_str app "Pro3EM" then
     (* Connect to dbus, localsettings *)
     on_self (modify (set_monitor (Some {| settings_service := None |}))) ;;
     do settings <- wait_for_settings;
     match settings with
     | None => ret false
     | Some h0 =>
         do settingprefix <- lift (str_add "/Settings/Devices/shelly_" mac);
         do '(e, self) <- get;
         let '(h, sto) :=
           add_settings
             [ {| s_path := settingprefix ++ "/ClassAndVrmInstance";
                  s_default := VStr "grid:40"; s_min := 0; s_max := 0;
                  s_alias := "instance" |};
               {| s_path := settingprefix ++ "/Position";
                  s_default := VInt 0; s_min := 0; s_max := 2;
                  s_alias := "position" |};
               {| s_path := settingprefix ++ "/Phase1Position";
                  s_default := VInt 1; s_min := 1; s_max := 3;
                  s_alias := "phase1position" |} ]
             (h0, store e) in
         put (set_store (λ _, sto) e,
              set_monitor (Some {| settings_service := Some h |}) self) ;;
         (* Determine role and instance *)
         do '(role, instance) <- lift (role_instance (get_value sto (alias h "instance")));
         (* Determine phase 1 position *)
         do ph <- lift (as_int (get_value sto (alias h "phase1position")));
         on_self (modify (set_phase1position ph)) ;;
         (* Set up the service *)
         do n <- lift (str_add ("com.victronenergy." ++ role ++ ".shelly_") mac);
         let svc := Service_create n in
         do '(e', _) <- get;
         on_self (modify (set_service (Some
           (publish e' host port role instance nm fw ph
              (get_value sto (alias h "position")) svc)))) ;;
         ret true
     end
     else ret false (* Unsupported model connected *)).

Definition destroy : M t unit :=
  modify (set_service None) ;;
  modify (set_destroyed true).

Definition with_service (body : M Service unit) : M t unit :=
  λ self, match service self with
          | None => (Raise AttributeError, self)
          | Some svc =>
              let '(r, svc') := body svc in (r, set_service (Some svc') self)
          end.

(** Shift phases according to setup. *)
Definition phaseorder : list string := [""; "a"; "b"; "c"; "a"; "b"].

(** [data[phaseorder[i] + suffix]]. *)
Definition phase_field (data : pyval) (i : Z) (suffix : string) : res pyval :=
  res_bind (py_index phaseorder i) (λ ph, getitem data (ph ++ suffix)).

(** The two [with self.service as s] blocks of [update]. *)
Definition live_writes (p : Z) (data : pyval) : list (string * res pyval) :=
  [ ("/Ac/L1/Voltage", phase_field data p "_voltage");
    ("/Ac/L2/Voltage", phase_field data (p + 1) "_voltage");
    ("/Ac/L3/Voltage", phase_field data (p + 2) "_voltage");
    ("/Ac/L1/Current", phase_field data p "_current");
    ("/Ac/L2/Current", phase_field data (p + 1) "_current");
    ("/Ac/L3/Current", phase_field data (p + 2) "_current");
    ("/Ac/L1/Power", phase_field data p "_act_power");
    ("/Ac/L2/Power", phase_field data (p + 1) "_act_power");
    ("/Ac/L3/Power", phase_field data (p + 2) "_act_power");
    ("/Ac/Power", sum3 data "a_act_power" "b_act_power" "c_act_power") ].

Definition history_writes (p : Z) (data : pyval) : list (string * res pyval) :=
  [ ("/Ac/Energy/Forward", res_bind (getitem data "total_act") kwh);
    ("/Ac/Energy/Reverse", res_bind (getitem data "total_act_ret") kwh);
    ("/Ac/L1/Energy/Forward", res_bind (phase_field data p "_total_act_energy") kwh);
    ("/Ac/L1/Energy/Reverse", res_bind (phase_field data p "_total_act_ret_energy") kwh);
    ("/Ac/L2/Energy/Forward", res_bind (phase_field data (p + 1) "_total_act_energy") kwh);
    ("/Ac/L2/Energy/Reverse", res_bind (phase_field data (p + 1) "_total_act_ret_energy") kwh);
    ("/Ac/L3/Energy/Forward", res_bind (phase_field data (p + 2) "_total_act_energy") kwh);
    ("/Ac/L3/Energy/Reverse", res_bind (phase_field data (p + 2) "_total_act_ret_energy") kwh) ].

Definition update (data : pyval) : M t unit :=
  do self <- get;
  let p := phase1position self in
  (* Check if incoming is history or live data *)
  try_pass
    (do helpertag <- lift (getitem data "helpertag");
     do live <- lift (startswith helpertag "em:");
     if live then
       try_pass (with_service (assign_all (live_writes p data)))
     else
       do hist <- lift (startswith helpertag "emdata:");
       if hist then
         try_pass (with_service (assign_all (history_writes p data)))
       else ret tt).

Definition settings_changed (h : SettingsService) (values : list string) : M t unit :=
  match alias h "instance" with
  | Some p => if bool_decide (p ∈ values) then destroy else ret tt
  | None => ret tt
  end.

Definition role_changed (val : pyval) : M (Env * t) bool :=
  if negb (in_strs val allowed_roles) then ret false
  else
    do settings <- get_settings;
    match settings with
    | None => ret false
    | Some h =>
        let p := alias h "instance" in
        do '(e, _) <- get;
        do '(role, instance) <- lift (role_instance (get_value (store e) p));
        do v <- lift (str_add "" val);   (* [val] is one of the role strings *)
        modify (λ s, (set_store (store_set p (VStr (v ++ ":" ++ str_int instance))) s.1, s.2)) ;;
        on_self destroy ;;   (* restart *)
        ret true
    end.

Definition position_changed (val : Z) : M (Env * t) bool :=
  if negb ((0 <=? val)%Z && (val <=? 2)%Z) then ret false
  else
    do settings <- get_settings;
    match settings with
    | None => ret false
    | Some h =>
        modify (λ s, (set_store (store_set (alias h "position") (VInt val)) s.1, s.2)) ;;
        ret true
    end.

Definition phase_changed (val : Z) : M (Env * t) bool :=
  if negb ((1 <=? val)%Z && (val <=? 3)%Z) then ret false
  else
    do settings <- get_settings;
    match settings with
    | None => ret false
    | Some h =>
        modify (λ s, (set_store (store_set (alias h "phase1position") (VInt val)) s.1, s.2)) ;;
        on_self (modify (set_phase1position val)) ;;
        ret true
    end.

End defs.
End ThreePhaseMeter.

(** ** [class PhysicalMeter] *)

Module PhysicalMeter.
Section defs.
Context `{PyFloat}.

(** The objects stored in [localmeters]. *)
Inductive channel : Type :=
  | Single (m : SingleMeter.t)
  | Three (m : ThreePhaseMeter.t).

Definition channel_destroyed (c : channel) : bool :=
  match c with
  | Single m => SingleMeter.destroyed m
  | Three m => ThreePhaseMeter.destroyed m
  end.


(** [m.start(host, port, data)], dispatched on the class of [m]. *)
Definition channel_start (host : string) (port : Z) (data : pyval)
    : M (Env * channel) bool :=
  λ '(e, c),
    match c with
    | Single m =>
        let '(r, (e', m')) := SingleMeter.start host port data (e, m) in
        (r, (e', Single m'))
    | Three m =>
        let '(r, (e', m')) := ThreePhaseMeter.start host port data (e, m) in
        (r, (e', Three m'))
    end.

(** [m.update(data)], dispatched on the class of [m]. *)
Definition channel_update (data : pyval) : M channel unit :=
  λ c,
    match c with
    | Single m => let '(r, m') := SingleMeter.update data m in (r, Single m')
    | Three m => let '(r, m') := ThreePhaseMeter.update data m in (r, Three m')
    end.

(** Dicts with int keys, in insertion order. *)
Fixpoint dict_lookup {A} (k : Z) (d : list (Z * A)) : option A :=
  match d with
  | [] => None
  | (k', v) :: rest => if (k =? k')%Z then Some v else dict_lookup k rest
  end.

Fixpoint dict_store {A} (k : Z) (v : A) (d : list (Z * A)) : list (Z * A) :=
  match d with
  | [] => [(k, v)]
  | (k', v') :: rest =>
      if (k =? k')%Z then (k, v) :: rest else (k', v') :: dict_store k v rest
  end.

(** [for x in d] walks the keys of a dict. *)
Definition dict_keys {A} (d : list (Z * A)) : list Z := fst <$> d.

Record t : Type := {
  bus_type : BusType;
  destroyed : bool;
  localmeters : list (Z * channel);
  localmeterskeys : list (Z * list string)
}.

(** [__init__]. *)
Definition init (bt : BusType) : t :=
  {| bus_type := bt; destroyed := false; localmeters := []; localmeterskeys := [] |}.

Definition set_destroyed (d : bool) (self : t) : t :=
  {| bus_type := bus_type self; destroyed := d;
     localmeters := localmeters self; localmeterskeys := localmeterskeys self |}.
Definition set_localmeters (l : list (Z * channel)) (self : t) : t :=
  {| bus_type := bus_type self; destroyed := destroyed self;
     localmeters := l; localmeterskeys := localmeterskeys self |}.
Definition set_localmeterskeys (l : list (Z * list string)) (self : t) : t :=
  {| bus_type := bus_type self; destroyed := destroyed self;
     localmeters := localmeters self; localmeterskeys := l |}.

Definition on_self {A} (m : M t A) : M (Env * t) A :=
  zoom snd (λ self s, (s.1, self)) m.

(** A method call on the channel object held in [localmeters[meter]]. *)
Definition at_meter {A} (meter : Z) (m : M (Env * channel) A) : M (Env * t) A :=
  λ '(e, self),
    match dict_lookup meter (localmeters self) with
    | None => (Raise KeyError, (e, self))
    | Some c =>
        let '(r, (e', c')) := m (e, c) in
        (r, (e', set_localmeters (dict_store meter c' (localmeters self)) self))
    end.

(** [self.localmeters[meter].update(emdata)]. *)
Definition update_meter (meter : Z) (emdata : pyval) : M t unit :=
  λ self,
    match dict_lookup meter (localmeters self) with
    | None => (Raise KeyError, self)
    | Some c =>
        let '(r, c') := channel_update emdata c in
        (r, set_localmeters (dict_store meter c' (localmeters self)) self)
    end.

(** [range(n)]. *)
Definition py_range (n : nat) : list Z := Z.of_nat <$> seq 0 n.

(** The body of the two [for meter in range(...)] loops of [start]:
    [Some False] is the early [return False]. *)
Definition start_single (host : string) (port : Z) (data : pyval) (meter : Z)
    : M (Env * t) (option pyval) :=
  on_self (modify (λ self,
    set_localmeterskeys
      (dict_store meter ["em1:" ++ str_int meter; "em1data:" ++ str_int meter]
         (localmeterskeys self))
      (set_localmeters
         (dict_store meter (Single (SingleMeter.init (bus_type self) meter))
            (localmeters self)) self))) ;;
  do ok <- at_meter meter (channel_start host port data);
  if negb ok then ret (Some (VBool false))   (* Something failed on startup *)
  else ret None.

(** [start] has no [return True]: when every channel has started the
    function falls off its end and yields [None]. *)
Definition start (host : string) (port : Z) (data : pyval) : M (Env * t) pyval :=
  try_KeyError
    (do model <- lift (result_field data "model");
     do app <- lift (result_field data "app");
     ret (model, app))
    (ret (VBool false))
    (λ '(model, app),
     do nm <- try_any (lift (result_field data "name")) (ret VNone) ret;
     (* Check model and usage *)
     if eq_str model "SPEM-002CEBEU50" && eq_str app "ProEM" then
       do r <- for_return (py_range 2) (start_single host port data);
       match r with Some v => ret v | None => ret VNone end
     else if eq_str model "SPEM-003CEBEU" && eq_str app "Pro3EM" then
       try_KeyError (lift (result_field data "profile")) (ret (VBool false))
         (λ profile,
          if eq_str profile "monophase" then
            do r <- for_return (py_range 3) (start_single host port data);
            match r with Some v => ret v | None => ret VNone end
          else
            on_self (modify (λ self,
              set_localmeterskeys
                (dict_store 0 ["em:0"; "emdata:0"] (localmeterskeys self))
                (set_localmeters
                   (dict_store 0 (Three (ThreePhaseMeter.init (bus_type self)))
                      (localmeters self)) self))) ;;
            do ok <- at_meter 0 (channel_start host port data);
            if negb ok then ret (VBool false)   (* Something failed on startup *)
            else ret VNone)
     else ret (VBool false) (* Unsupported model connected *)).

(** Attribute access on an int: [for meter in self.localmeters] binds
    [meter] to a key of the dict, and an int has neither a [destroyed]
    attribute nor a [destroy] method. *)
Definition int_attr {A} (n : Z) (attr : string) : res A := Raise AttributeError.

Definition destroy : M t unit :=
  do self <- get;
  for_each (dict_keys (localmeters self)) (λ meter,
    do d <- lift (int_attr (A:=bool) meter "destroyed");
    if negb d then
      do _ <- lift (int_attr (A:=unit) meter "destroy"); ret tt
    else ret tt) ;;
  modify (set_destroyed true).

Definition update (data : pyval) : M t unit :=
  (* Check if meters maybe killed themselves to enforce restart *)
  do self <- get;
  for_each (dict_keys (localmeters self)) (λ meter,
    do d <- lift (int_attr (A:=bool) meter "destroyed");
    if d then destroy   (* We kill ourselfs if one of the submeters needs a restart *)
    else ret tt) ;;
  (* NotifyStatus has power, current, voltage and energy values *)
  try_pass
    (do m <- lift (dict_get data "method");
     if eq_str m "NotifyStatus" then
       (* Forward data to the meters *)
       try_KeyError (lift (getitem data "params")) (ret tt)
         (λ d,
          do self <- get;
          (* See which data came in and pass it *)
          for_each (dict_keys (localmeters self)) (λ meter,
            do keys <- lift (match dict_lookup meter (localmeterskeys self) with
                             | Some ks => Ok ks
                             | None => Raise KeyError
                             end);
            for_each keys (λ key,
              try_KeyError (lift (getitem d key)) (ret tt)
                (λ emdata,
                 (* Tag to be identifyable *)
                 do tagged <- lift (setitem emdata "helpertag" (VStr key));
                 update_meter meter tagged))))
     else ret tt).

End defs.
End PhysicalMeter.

(** ** An instance for concrete runs: binary64 floats *)

(** CPython's [float] is the IEEE 754 binary64 format, with rounding to
    the nearest value and ties to the even one. [SpecFloat] of the
    standard library gives the values of the format and its correctly
    rounded operations. *)
Module Binary64.

Definition prec : Z := 53.
Definition emax : Z := 1024.

(** Where an operation on ints would yield an infinity, Python raises
    OverflowError instead: [None]. *)
Definition finite (f : spec_float) : option spec_float :=
  match f with
  | S754_infinity _ => None
  | _ => Some f
  end.

(** The float nearest to the quotient [n / d] of two ints. *)
Definition of_ratio (n : Z) (d : positive) : spec_float :=
  match n with
  | Z0 => S754_zero false
  | Zpos m => SFdiv prec emax (S754_finite false m 0) (S754_finite false d 0)
  | Zneg m => SFdiv prec emax (S754_finite true m 0) (S754_finite false d 0)
  end.

(** [x + y] on floats. *)
Definition add : spec_float → spec_float → spec_float := SFadd prec emax.

(** [float(n)]: the float nearest to the int. *)
Definition of_int (n : Z) : option spec_float :=
  finite (binary_normalize prec emax n 0 false).

(** [x / 1000] on a float: the int is converted first, exactly. *)
Definition div1000 (x : spec_float) : spec_float :=
  SFdiv prec emax x (binary_normalize prec emax 1000 0 false).

(** [n / 1000] on an int: true division rounds the exact quotient
    once. *)
Definition int_div1000 (n : Z) : option spec_float := finite (of_ratio n 1000).

(** The integer nearest to ten times [m * 2 ^ e], ties to the even
    one. *)
Definition tenths (m : positive) (e : Z) : Z :=
  let n := 10 * Zpos m in
  match e with
  | Zneg p =>
      let d := 2 ^ Zpos p in
      let q := n / d in
      match Z.compare (2 * (n mod d)) d with
      | Lt => q
      | Eq => if Z.even q then q else q + 1
      | Gt => q + 1
      end
  | _ => n * 2 ^ e
  end.

(** [round(x, 1)]: the decimal with one fractional digit nearest to the
    exact value of [x], ties to the even digit, and then the float
    nearest to that decimal; the sign of a zero is kept, infinities and
    NaN are returned as they are. *)
Definition round1 (x : spec_float) : spec_float :=
  match x with
  | S754_finite s m e =>
      match tenths m e with
      | Z0 => S754_zero s
      | k => of_ratio (if s then - k else k) 10
      end
  | _ => x
  end.

End Binary64.

(** The operations are sealed: running a channel on a concrete frame
    then leaves them folded inside every value instead of unfolding the
    float arithmetic there; their equations give them back. *)
Definition fadd64_aux : seal (@Binary64.add).
Proof. by eexists. Qed.
Definition fadd64 : spec_float → spec_float → spec_float := unseal fadd64_aux.
Definition fadd64_unseal : fadd64 = Binary64.add := seal_eq fadd64_aux.

Definition float64_of_int_aux : seal (@Binary64.of_int).
Proof. by eexists. Qed.
Definition float64_of_int : Z → option spec_float := unseal float64_of_int_aux.
Definition float64_of_int_unseal : float64_of_int = Binary64.of_int :=
  seal_eq float64_of_int_aux.

Definition fdiv64_aux : seal (@Binary64.div1000).
Proof. by eexists. Qed.
Definition fdiv64 : spec_float → spec_float := unseal fdiv64_aux.
Definition fdiv64_unseal : fdiv64 = Binary64.div1000 := seal_eq fdiv64_aux.

Definition idiv64_aux : seal (@Binary64.int_div1000).
Proof. by eexists. Qed.
Definition idiv64 : Z → option spec_float := unseal idiv64_aux.
Definition idiv64_unseal : idiv64 = Binary64.int_div1000 := seal_eq idiv64_aux.

Definition round64_aux : seal (@Binary64.round1).
Proof. by eexists. Qed.
Definition round64 : spec_float → spec_float := unseal round64_aux.
Definition round64_unseal : round64 = Binary64.round1 := seal_eq round64_aux.

#[export] Instance Float64 : PyFloat := {|
  float := spec_float;
  fadd := fadd64;
  float_of_int := float64_of_int;
  fdiv1000 := fdiv64;
  idiv1000 := idiv64;
  round1 := round64
|}.

(** * The vocabulary of the properties

    Definitions that the statements below use: views of the channel
    state, the blocks of assignments that [update] runs, the branches of
    the classifier, and a predicate transformer for method bodies. *)

(** The outcome and final state of a method body, as a predicate
    transformer; its rules follow the monad operations. *)
Definition wp {S A} (m : M S A) (Q : res A → S → Prop) (s : S) : Prop :=
  Q (m s).1 (m s).2.

(** Strings made of the decimal digits, as [str] prints an int. *)
Definition is_digit (a : ascii) : bool :=
  let n := nat_of_ascii a in (Nat.leb 48 n && Nat.leb n 57)%bool.

Fixpoint digits_only (s : string) : bool :=
  match s with
  | EmptyString => true
  | String a rest => is_digit a && digits_only rest
  end.

(** Strings of ASCII characters. *)
Fixpoint ascii_only (s : string) : bool :=
  match s with
  | EmptyString => true
  | String a rest => (byte_value a <? 128) && ascii_only rest
  end.

Section vocabulary.
Context `{PyFloat}.

(** The physical phase letters read for the logical lines L1, L2, L3
    when the phase-1 position is [p]: [phaseorder[p]], [phaseorder[p + 1]],
    [phaseorder[p + 2]], as [update] indexes the table. *)
Definition rotation (p : Z) : res (list string) :=
  res_bind (py_index ThreePhaseMeter.phaseorder p) (λ l1,
  res_bind (py_index ThreePhaseMeter.phaseorder (p + 1)) (λ l2,
  res_bind (py_index ThreePhaseMeter.phaseorder (p + 2)) (λ l3, Ok [l1; l2; l3]))).

(** The monitor of a channel knows localsettings through the handle
    [h]. *)
Definition knows_settings (mon : option Monitor) (h : SettingsService) : Prop :=
  mon = Some {| settings_service := Some h |}.

(** The block of assignments that a frame selects by its [helpertag]:
    the live block for a tag starting with [em:], the history block for a
    tag starting with [emdata:], nothing otherwise. *)
Definition select_block (data : pyval) (live hist : list (string * res pyval))
    : list (string * res pyval) :=
  match getitem data "helpertag" with
  | Ok tag =>
      match startswith tag "em:" with
      | Ok true => live
      | Ok false =>
          match startswith tag "emdata:" with
          | Ok true => hist
          | _ => []
          end
      | Raise _ => []
      end
  | Raise _ => []
  end.

Definition three_block (self : ThreePhaseMeter.t) (data : pyval) :=
  select_block data
    (ThreePhaseMeter.live_writes (ThreePhaseMeter.phase1position self) data)
    (ThreePhaseMeter.history_writes (ThreePhaseMeter.phase1position self) data).

Definition single_block (self : SingleMeter.t) (data : pyval) :=
  let prefix := "/Ac/L" ++ str_int (SingleMeter.phaseposition self) in
  select_block data (SingleMeter.live_writes prefix data)
    (SingleMeter.history_writes prefix data).

(** The channel after a block has run on its service. *)
Definition three_run (ws : list (string * res pyval)) (self : ThreePhaseMeter.t)
    : ThreePhaseMeter.t :=
  (ThreePhaseMeter.with_service (assign_all ws) self).2.

Definition single_run (ws : list (string * res pyval)) (self : SingleMeter.t)
    : SingleMeter.t :=
  (SingleMeter.with_service (assign_all ws) self).2.

(** The value a channel publishes under a path. *)
Definition three_published (self : ThreePhaseMeter.t) (q : string) : option pyval :=
  svc ← ThreePhaseMeter.service self; published svc q.
Definition single_published (self : SingleMeter.t) (q : string) : option pyval :=
  svc ← SingleMeter.service self; published svc q.

(** The frames on which the leftover [NotifyStatus] part of
    [SingleMeter.update] does not run: the channel has no service, or the
    frame is a dict whose [method] is not [NotifyStatus]. *)
Definition keyed_frame (self : SingleMeter.t) (data : pyval) : Prop :=
  SingleMeter.service self = None
  ∨ ∃ m, dict_get data "method" = Ok m ∧ eq_str m "NotifyStatus" = false.

(** The fields of a live block of the three-line device. *)
Definition live_fields : list string :=
  [ "a_voltage"; "b_voltage"; "c_voltage";
    "a_current"; "b_current"; "c_current";
    "a_act_power"; "b_act_power"; "c_act_power" ].

(** The points that the live block of a three-phase channel writes. *)
Definition live_paths : list string :=
  [ "/Ac/L1/Voltage"; "/Ac/L2/Voltage"; "/Ac/L3/Voltage";
    "/Ac/L1/Current"; "/Ac/L2/Current"; "/Ac/L3/Current";
    "/Ac/L1/Power"; "/Ac/L2/Power"; "/Ac/L3/Power"; "/Ac/Power" ].

(** Two channel states that differ at most in the values of the
    published points. *)
Definition three_same_points (self self' : ThreePhaseMeter.t) : Prop :=
  ThreePhaseMeter.bus_type self' = ThreePhaseMeter.bus_type self
  ∧ ThreePhaseMeter.monitor self' = ThreePhaseMeter.monitor self
  ∧ ThreePhaseMeter.position self' = ThreePhaseMeter.position self
  ∧ ThreePhaseMeter.destroyed self' = ThreePhaseMeter.destroyed self
  ∧ ThreePhaseMeter.phase1position self' = ThreePhaseMeter.phase1position self
  ∧ ∀ q, is_Some (three_published self' q) ↔ is_Some (three_published self q).

Definition single_same_points (self self' : SingleMeter.t) : Prop :=
  SingleMeter.bus_type self' = SingleMeter.bus_type self
  ∧ SingleMeter.monitor self' = SingleMeter.monitor self
  ∧ SingleMeter.position self' = SingleMeter.position self
  ∧ SingleMeter.destroyed self' = SingleMeter.destroyed self
  ∧ SingleMeter.meterid self' = SingleMeter.meterid self
  ∧ SingleMeter.phaseposition self' = SingleMeter.phaseposition self
  ∧ ∀ q, is_Some (single_published self' q) ↔ is_Some (single_published self q).



(** The branch that [start] takes on a handshake. *)
Inductive branch : Type :=
  | Rejected                (* [return False] before any channel is created *)
  | SingleLoop (n : nat)    (* [for meter in range(n)] over single-phase channels *)
  | ThreeOne.               (* one three-phase channel *)

Definition classify (data : pyval) : res branch :=
  match result_field data "model" with
  | Ok model =>
      match result_field data "app" with
      | Ok app =>
          if eq_str model "SPEM-002CEBEU50" && eq_str app "ProEM" then Ok (SingleLoop 2)
          else if eq_str model "SPEM-003CEBEU" && eq_str app "Pro3EM" then
            match result_field data "profile" with
            | Ok profile =>
                if eq_str profile "monophase" then Ok (SingleLoop 3) else Ok ThreeOne
            | Raise KeyError => Ok Rejected
            | Raise err => Raise err
            end
          else Ok Rejected
      | Raise KeyError => Ok Rejected
      | Raise err => Raise err
      end
  | Raise KeyError => Ok Rejected
  | Raise err => Raise err
  end.

(** No channel was created. *)
Definition none_post (e : Env) (bt : BusType) (r : res pyval)
    (s : Env * PhysicalMeter.t) : Prop :=
  s = (e, PhysicalMeter.init bt) ∧ r = Ok (VBool false).

(** The single-phase loop stopped at channel 0. *)
Definition single_post (r : res pyval) (s : Env * PhysicalMeter.t) : Prop :=
  (∃ m, PhysicalMeter.localmeters s.2 = [(0, PhysicalMeter.Single m)]
        ∧ SingleMeter.destroyed m = false
        ∧ SingleMeter.service m = None
        ∧ SingleMeter.meterid m = 0)
  ∧ PhysicalMeter.localmeterskeys s.2 = [(0, ["em1:0"; "em1data:0"])]
  ∧ PhysicalMeter.destroyed s.2 = false
  ∧ (r = Ok (VBool false) ∨ ∃ err, r = Raise err).

(** One three-phase channel was created and started. *)
Definition three_post (r : res pyval) (s : Env * PhysicalMeter.t) : Prop :=
  (∃ m, PhysicalMeter.localmeters s.2 = [(0, PhysicalMeter.Three m)]
        ∧ ThreePhaseMeter.destroyed m = false
        ∧ ((r = Ok VNone ∧ is_Some (ThreePhaseMeter.service m))
           ∨ (r = Ok (VBool false) ∧ ThreePhaseMeter.service m = None)
           ∨ ∃ err, r = Raise err))
  ∧ PhysicalMeter.localmeterskeys s.2 = [(0, ["em:0"; "emdata:0"])]
  ∧ PhysicalMeter.destroyed s.2 = false.




End vocabulary.

(** The character [c] does not occur in [s]. *)
Fixpoint lacks (c : ascii) (s : string) : bool :=
  match s with
  | EmptyString => true
  | String a rest => negb (Ascii.eqb a c) && lacks c rest
  end.

(** The number that a string of upper-case hexadecimal digits denotes. *)
Fixpoint hex_digits (s : string) : option Hexadecimal.uint :=
  match s with
  | EmptyString => Some Hexadecimal.Nil
  | String a rest =>
      d ← hex_digits rest;
      match a with
      | "0" => Some (Hexadecimal.D0 d)
      | "1" => Some (Hexadecimal.D1 d)
      | "2" => Some (Hexadecimal.D2 d)
      | "3" => Some (Hexadecimal.D3 d)
      | "4" => Some (Hexadecimal.D4 d)
      | "5" => Some (Hexadecimal.D5 d)
      | "6" => Some (Hexadecimal.D6 d)
      | "7" => Some (Hexadecimal.D7 d)
      | "8" => Some (Hexadecimal.D8 d)
      | "9" => Some (Hexadecimal.D9 d)
      | "A" => Some (Hexadecimal.Da d)
      | "B" => Some (Hexadecimal.Db d)
      | "C" => Some (Hexadecimal.Dc d)
      | "D" => Some (Hexadecimal.Dd d)
      | "E" => Some (Hexadecimal.De d)
      | "F" => Some (Hexadecimal.Df d)
      | _ => None
      end%char
  end.

Definition hex_value (s : string) : option Z := Z.of_hex_uint <$> hex_digits s.

Section vocabulary_start.
Context `{PyFloat}.

(** What localsettings holds under [path] once [add_settings] has offered
    the default [dflt]: the value it had, or else the default. *)
Definition stored_or (dflt : pyval) (sto : gmap string pyval) (path : string) : pyval :=
  default dflt (sto !! path).

(** The custom name that [ThreePhaseMeter.start] takes from a handshake:
    None when reading [data['result']['name']] fails. *)
Definition handshake_name (data : pyval) : pyval :=
  match result_field data "name" with
  | Ok n => n
  | Raise _ => VNone
  end.

(** [v] unless it is None. *)
Definition non_null (v : pyval) : option pyval :=
  match v with
  | VNone => None
  | _ => Some v
  end.

(** The item that a run of [add_item] calls leaves under a path: the one
    added last. *)
Fixpoint last_item (k : string) (its : list (string * Item)) : option Item :=
  match its with
  | [] => None
  | (k', it) :: rest =>
      match last_item k rest with
      | Some x => Some x
      | None => if String.eqb k k' then Some it else None
      end
  end.

(** The settings of a three-phase channel of the device [mac], as
    [ThreePhaseMeter.start] adds them, and those of the single-phase
    channel [meterid]. *)
Definition three_settings (mac : string) : list Setting :=
  let settingprefix := "/Settings/Devices/shelly_" ++ mac in
  [ {| s_path := settingprefix ++ "/ClassAndVrmInstance";
       s_default := VStr "grid:40"; s_min := 0; s_max := 0;
       s_alias := "instance" |};
    {| s_path := settingprefix ++ "/Position";
       s_default := VInt 0; s_min := 0; s_max := 2;
       s_alias := "position" |};
    {| s_path := settingprefix ++ "/Phase1Position";
       s_default := VInt 1; s_min := 1; s_max := 3;
       s_alias := "phase1position" |} ].

Definition single_settings (mac : string) (meterid : Z) : list Setting :=
  let settingprefix := ("/Settings/Devices/shelly_" ++ mac) ++ "_" ++ str_int meterid in
  [ {| s_path := settingprefix ++ "/ClassAndVrmInstance";
       s_default := VStr "grid:40"; s_min := 0; s_max := 0;
       s_alias := "instance" |};
    {| s_path := settingprefix ++ "/Position";
       s_default := VInt 0; s_min := 0; s_max := 2;
       s_alias := "position" |};
    {| s_path := settingprefix ++ "/Phase";
       s_default := VInt 1; s_min := 1; s_max := 3;
       s_alias := "phaseposition" |} ].

End vocabulary_start.

(** The default that a run of [add_settings] offers for a path: that of
    the first setting with this path. *)
Fixpoint offered_default `{PyFloat} (path : string) (sts : list Setting) : option pyval :=
  match sts with
  | [] => None
  | st :: rest =>
      if bool_decide (s_path st = path) then Some (s_default st)
      else offered_default path rest
  end.

Section vocabulary_handshake.
Context `{PyFloat}.

(** A handshake of the three-line device with the MAC address [mac] and
    the firmware id [fw]. *)
Definition three_line_handshake (data : pyval) (mac : string) (fw : pyval) : Prop :=
  result_field data "mac" = Ok (VStr mac)
  ∧ result_field data "fw_id" = Ok fw
  ∧ result_field data "model" = Ok (VStr "SPEM-003CEBEU")
  ∧ result_field data "app" = Ok (VStr "Pro3EM").

(** localsettings is reachable, and what it holds for the three-phase
    channel of [mac] (or the defaults, where it holds nothing) reads as
    the role [role], the device instance [inst] and the phase-1 position
    [p]. *)
Definition three_stored (e : Env) (mac role : string) (inst p : Z) : Prop :=
  let prefix := "/Settings/Devices/shelly_" ++ mac in
  settings_up e = true
  ∧ role_instance (stored_or (VStr "grid:40") (store e) (prefix ++ "/ClassAndVrmInstance"))
    = Ok (role, inst)
  ∧ as_int (stored_or (VInt 1) (store e) (prefix ++ "/Phase1Position")) = Ok p.

(** The measurement points of a three-phase channel. *)
Definition three_measurement_paths : list string :=
  (totals_items ++ line_items "/Ac/L1" ++ line_items "/Ac/L2"
   ++ line_items "/Ac/L3")%list.*1.

End vocabulary_handshake.

Section vocabulary_two_channel.
Context `{PyFloat}.

(** A handshake of the two-channel device with the MAC address [mac]. *)
Definition two_channel_handshake (data : pyval) (mac : string) : Prop :=
  result_field data "mac" = Ok (VStr mac)
  ∧ (∃ fw, result_field data "fw_id" = Ok fw)
  ∧ result_field data "model" = Ok (VStr "SPEM-002CEBEU50")
  ∧ result_field data "app" = Ok (VStr "ProEM").

(** localsettings is reachable, and what it holds for the single-phase
    channel [meterid] of [mac] (or the defaults) reads as the role
    [role], the device instance [inst] and the phase [p]. *)
Definition single_stored (e : Env) (mac : string) (meterid : Z)
    (role : string) (inst p : Z) : Prop :=
  let prefix := ("/Settings/Devices/shelly_" ++ mac) ++ "_" ++ str_int meterid in
  settings_up e = true
  ∧ role_instance (stored_or (VStr "grid:40") (store e) (prefix ++ "/ClassAndVrmInstance"))
    = Ok (role, inst)
  ∧ as_int (stored_or (VInt 1) (store e) (prefix ++ "/Phase")) = Ok p.

End vocabulary_two_channel.

Section vocabulary_blocks.
Context `{PyFloat}.

(** The value of an expression that may raise, if it has one. *)
Definition read (r : res pyval) : option pyval :=
  match r with
  | Ok v => Some v
  | Raise _ => None
  end.

(** The fields of a history block of the three-line device. *)
Definition history_fields : list string :=
  [ "total_act"; "total_act_ret";
    "a_total_act_energy"; "a_total_act_ret_energy";
    "b_total_act_energy"; "b_total_act_ret_energy";
    "c_total_act_energy"; "c_total_act_ret_energy" ].

(** The points that the history block of a three-phase channel writes. *)
Definition history_paths : list string :=
  [ "/Ac/Energy/Forward"; "/Ac/Energy/Reverse";
    "/Ac/L1/Energy/Forward"; "/Ac/L1/Energy/Reverse";
    "/Ac/L2/Energy/Forward"; "/Ac/L2/Energy/Reverse";
    "/Ac/L3/Energy/Forward"; "/Ac/L3/Energy/Reverse" ].

End vocabulary_blocks.

Section vocabulary_writes.
Context `{PyFloat}.

(** An item with another value. *)
Definition with_value (v : pyval) (it : Item) : Item :=
  {| kind := kind it; value := v; text := text it; onchange := onchange it |}.

(** The value that a block of assignments leaves on the point [q] of a
    service whose registered points are given by [reg]: the one assigned
    last before the block ends, [None] when the block does not reach an
    assignment to [q]. The block ends at the first right-hand side that
    raises and at the first point that is not registered. *)
Fixpoint last_done (reg : string → bool) (q : string) (ws : list (string * res pyval))
    : option pyval :=
  match ws with
  | [] => None
  | (k, Ok v) :: rest =>
      if reg k then
        match last_done reg q rest with
        | Some x => Some x
        | None => if String.eqb q k then Some v else None
        end
      else None
  | (_, Raise _) :: _ => None
  end.

(** The points that a service has. *)
Definition registered (svc : Service) (k : string) : bool :=
  bool_decide (is_Some (objects svc !! k)).

End vocabulary_writes.

(** ** Concrete frames and channel states *)

Module Examples.

(** localsettings is on the bus and holds no entry yet. *)
Definition env_up : Env :=
  {| settings_up := true; store := ∅;
     MAIN_FILE := "dbus_shelly.py"; VERSION := "0.8" |}.

(** localsettings does not show up within the bound. *)
Definition env_down : Env :=
  {| settings_up := false; store := ∅;
     MAIN_FILE := "dbus_shelly.py"; VERSION := "0.8" |}.

(** The reply to [Shelly.GetDeviceInfo]. *)
Definition identity (model app : string) (extra : list (string * pyval)) : pyval :=
  VDict [ ("id", VInt 1);
          ("result",
            VDict ([ ("mac", VStr "A8032AB6C1D4"); ("fw_id", VStr "20240625-122905");
                     ("model", VStr model); ("app", VStr app) ] ++ extra)) ].

(** Handshakes of the two-channel device and of the three-line device. *)
Definition handshake_two : pyval := identity "SPEM-002CEBEU50" "ProEM" [].
Definition handshake_three : pyval :=
  identity "SPEM-003CEBEU" "Pro3EM" [ ("profile", VStr "triphase") ].
Definition handshake_three_mono : pyval :=
  identity "SPEM-003CEBEU" "Pro3EM" [ ("profile", VStr "monophase") ].
Definition handshake_three_noprofile : pyval :=
  identity "SPEM-003CEBEU" "Pro3EM" [].

(** A three-phase channel after its [start] on [handshake_three]. *)
Definition three_started : Env * ThreePhaseMeter.t :=
  (ThreePhaseMeter.start "192.168.1.20" 80 handshake_three
     (env_up, ThreePhaseMeter.init SYSTEM)).2.

(** The same channel once localsettings has left the bus. *)
Definition three_lost : Env * ThreePhaseMeter.t :=
  (three_started.1,
   ThreePhaseMeter.set_monitor (Some {| settings_service := None |}) three_started.2).

(** The aliases that [SingleMeter.start] registers for channel 0, and the
    store with the defaults behind them. *)
Definition single_paths : SettingsService :=
  {| aliases :=
       <["phaseposition" := "/Settings/Devices/shelly_A8032AB6C1D4_0/Phase"]>
       (<["position" := "/Settings/Devices/shelly_A8032AB6C1D4_0/Position"]>
       (<["instance" := "/Settings/Devices/shelly_A8032AB6C1D4_0/ClassAndVrmInstance"]> ∅)) |}.

Definition single_env (p : Z) : Env :=
  {| settings_up := true;
     store :=
       <["/Settings/Devices/shelly_A8032AB6C1D4_0/Phase" := VInt p]>
       (<["/Settings/Devices/shelly_A8032AB6C1D4_0/Position" := VInt 0]>
       (<["/Settings/Devices/shelly_A8032AB6C1D4_0/ClassAndVrmInstance" := VStr "grid:40"]> ∅));
     MAIN_FILE := "dbus_shelly.py"; VERSION := "0.8" |}.

(** A single-phase channel as the registration code of [start] sets it up
    on phase [p]: monitor with the three aliases, service with the
    published points. *)
Definition single_registered (p : Z) : SingleMeter.t :=
  {| SingleMeter.bus_type := SYSTEM;
     SingleMeter.monitor := Some {| settings_service := Some single_paths |};
     SingleMeter.service :=
       Some (SingleMeter.publish (single_env p) "192.168.1.20" 80 "grid" 40
               VNone (VStr "20240625-122905") p (VInt 0)
               (Service_create "com.victronenergy.grid.shelly_A8032AB6C1D4_0"));
     SingleMeter.position := VNone;
     SingleMeter.destroyed := false;
     SingleMeter.meterid := 0;
     SingleMeter.phaseposition := p |}.

(** The service and the aliases of a three-phase channel as [start]
    leaves them, on phase-1 position [p]. *)
Definition three_service (p : Z) : Service :=
  ThreePhaseMeter.publish env_up "192.168.1.20" 80 "grid" 40
    VNone (VStr "20240625-122905") p (VInt 0)
    (Service_create "com.victronenergy.grid.shelly_A8032AB6C1D4").

Definition three_paths : SettingsService :=
  {| aliases :=
       <["phase1position" := "/Settings/Devices/shelly_A8032AB6C1D4/Phase1Position"]>
       (<["position" := "/Settings/Devices/shelly_A8032AB6C1D4/Position"]>
       (<["instance" := "/Settings/Devices/shelly_A8032AB6C1D4/ClassAndVrmInstance"]> ∅)) |}.

(** A three-phase channel as [start] leaves it. *)
Definition three_registered (p : Z) : ThreePhaseMeter.t :=
  {| ThreePhaseMeter.bus_type := SYSTEM;
     ThreePhaseMeter.monitor := Some {| settings_service := Some three_paths |};
     ThreePhaseMeter.service := Some (three_service p);
     ThreePhaseMeter.position := VNone;
     ThreePhaseMeter.destroyed := false;
     ThreePhaseMeter.phase1position := p |}.

(** The live block of Scenario C, tagged by the router. *)
Definition live_block : pyval :=
  VDict [ ("id", VInt 0);
          ("a_voltage", VInt 230); ("b_voltage", VInt 231); ("c_voltage", VInt 229);
          ("a_current", VInt 1); ("b_current", VInt 1); ("c_current", VInt 1);
          ("a_act_power", VInt 230); ("b_act_power", VInt 231); ("c_act_power", VInt 229);
          ("helpertag", VStr "em:0") ].

(** A live block of the three-line device without [a_voltage]. *)
Definition live_block_no_a_voltage : pyval :=
  VDict [ ("id", VInt 0);
          ("b_voltage", VInt 231); ("c_voltage", VInt 229);
          ("a_current", VInt 5); ("b_current", VInt 1); ("c_current", VInt 1);
          ("a_act_power", VInt 230); ("b_act_power", VInt 231); ("c_act_power", VInt 229);
          ("helpertag", VStr "em:0") ].

(** A later live block of the same device, again without [a_voltage]:
    the loads have been switched off. *)
Definition live_block_low_power : pyval :=
  VDict [ ("id", VInt 0);
          ("b_voltage", VInt 231); ("c_voltage", VInt 229);
          ("a_current", VInt 0); ("b_current", VInt 0); ("c_current", VInt 0);
          ("a_act_power", VInt 1); ("b_act_power", VInt 2); ("c_act_power", VInt 3);
          ("helpertag", VStr "em:0") ].

(** A [NotifyStatus] notification whose [em:0] block is empty. *)
Definition notify_empty_block : pyval :=
  VDict [ ("method", VStr "NotifyStatus");
          ("params", VDict [ ("em:0", VDict []) ]) ].

(** A live block of channel 0, as the device sends it and as the router
    tags it. *)
Definition single_live_block (tag : string) : pyval :=
  VDict [ ("id", VInt 0); ("voltage", VInt 230); ("current", VInt 1);
          ("act_power", VInt 230); ("helpertag", VStr tag) ].

(** Channel 0 after an accepted role change, next to a healthy
    channel 1. *)
Definition destroyed_channel : SingleMeter.t :=
  SingleMeter.set_destroyed true (SingleMeter.set_service None (single_registered 1)).

(** Channel 1, running on phase 2. *)
Definition healthy_channel : SingleMeter.t :=
  {| SingleMeter.bus_type := SYSTEM;
     SingleMeter.monitor := Some {| settings_service := Some single_paths |};
     SingleMeter.service := SingleMeter.service (single_registered 2);
     SingleMeter.position := VNone;
     SingleMeter.destroyed := false;
     SingleMeter.meterid := 1;
     SingleMeter.phaseposition := 2 |}.

(** The group of a two-channel device that holds both. *)
Definition group_with_destroyed_channel : PhysicalMeter.t :=
  {| PhysicalMeter.bus_type := SYSTEM;
     PhysicalMeter.destroyed := false;
     PhysicalMeter.localmeters :=
       [ (0, PhysicalMeter.Single destroyed_channel);
         (1, PhysicalMeter.Single healthy_channel) ];
     PhysicalMeter.localmeterskeys :=
       [ (0, ["em1:0"; "em1data:0"]); (1, ["em1:1"; "em1data:1"]) ] |}.

(** A notification with the live block of channel 1. *)
Definition notify_channel_1 : pyval :=
  VDict [ ("method", VStr "NotifyStatus");
          ("params",
            VDict [ ("ts", VInt 1719316800);
                    ("em1:1", VDict [ ("id", VInt 1); ("voltage", VInt 230);
                                      ("current", VInt 1); ("act_power", VInt 230) ]) ]) ].

(** localsettings already holds the settings of the three-phase channel:
    a PV inverter with device instance 31, on position 1, shown with
    phase b as L1. *)
Definition env_pv : Env :=
  {| settings_up := true;
     store :=
       <["/Settings/Devices/shelly_A8032AB6C1D4/Phase1Position" := VInt 2]>
       (<["/Settings/Devices/shelly_A8032AB6C1D4/Position" := VInt 1]>
       (<["/Settings/Devices/shelly_A8032AB6C1D4/ClassAndVrmInstance"
          := VStr "pvinverter:31"]> ∅));
     MAIN_FILE := "dbus_shelly.py"; VERSION := "0.8" |}.

(** The three-line handshake of a device that carries a custom name. *)
Definition handshake_three_named : pyval :=
  identity "SPEM-003CEBEU" "Pro3EM"
    [ ("profile", VStr "triphase"); ("name", VStr "Garage") ].

(** A history block of the three-line device, tagged by the router. *)
Definition history_block : pyval :=
  VDict [ ("id", VInt 0);
          ("a_total_act_energy", VInt 1234567); ("a_total_act_ret_energy", VInt 50);
          ("b_total_act_energy", VInt 2345678); ("b_total_act_ret_energy", VInt 150);
          ("c_total_act_energy", VInt 3456789); ("c_total_act_ret_energy", VInt 1050);
          ("total_act", VInt 7037034); ("total_act_ret", VInt 1250);
          ("helpertag", VStr "emdata:0") ].

(** The float with the mantissa [m] and the exponent [e]: [m * 2 ^ e]. *)
Definition binary64 (m : positive) (e : Z) : pyval := VFloat (S754_finite false m e).

(** The no-break space U+00A0. *)
Definition no_break_space : string :=
  String (ascii_of_N 194) (String (ascii_of_N 160) EmptyString).

(** localsettings holds a role without an instance for channel 0. *)
Definition env_malformed_role : Env :=
  set_store
    (<["/Settings/Devices/shelly_A8032AB6C1D4_0/ClassAndVrmInstance" := VStr "grid"]>)
    (single_env 1).

(** The handshake of a device that this driver does not serve. *)
Definition handshake_foreign : pyval := identity "SNSW-001X16EU" "Plus1" [].

(** A reply that carries an error instead of a result. *)
Definition handshake_error : pyval :=
  VDict [ ("id", VInt 1);
          ("error", VDict [ ("code", VInt 401); ("message", VStr "Unauthorized") ]) ].

End Examples.

(** * Properties *)

Import Examples.

(** Unfolds the monad operations in a goal, leaving the calls of the
    Python primitives and of the collaborators in place. *)
Ltac run_monad :=
  cbv [bind ret raise get put modify lift try_pass try_KeyError try_any zoom
       SingleMeter.on_self ThreePhaseMeter.on_self PhysicalMeter.on_self
       SingleMeter.get_settings ThreePhaseMeter.get_settings
       negb andb orb fst snd].

Lemma in_range_true (lo hi v : Z) :
  lo ≤ v ≤ hi → ((lo <=? v) && (v <=? hi))%bool = true.
Proof. intros. apply andb_true_iff. lia. Qed.

Lemma in_range_false (lo hi v : Z) :
  ¬ (lo ≤ v ≤ hi) → ((lo <=? v) && (v <=? hi))%bool = false.
Proof. intros. apply andb_false_iff. lia. Qed.

(** ** The phase rotation table *)

Lemma rotation_cases (p : Z) :
  1 ≤ p ≤ 3 → p = 1 ∨ p = 2 ∨ p = 3.
Proof. lia. Qed.

(** [update] reads the fields of the live block under the prefixes that
    [rotation] gives. *)
Lemma live_writes_by_rotation `{PyFloat} (p : Z) (data : pyval) l1 l2 l3 :
  rotation p = Ok [l1; l2; l3] →
  ThreePhaseMeter.live_writes p data =
    [ ("/Ac/L1/Voltage", getitem data (l1 ++ "_voltage"));
      ("/Ac/L2/Voltage", getitem data (l2 ++ "_voltage"));
      ("/Ac/L3/Voltage", getitem data (l3 ++ "_voltage"));
      ("/Ac/L1/Current", getitem data (l1 ++ "_current"));
      ("/Ac/L2/Current", getitem data (l2 ++ "_current"));
      ("/Ac/L3/Current", getitem data (l3 ++ "_current"));
      ("/Ac/L1/Power", getitem data (l1 ++ "_act_power"));
      ("/Ac/L2/Power", getitem data (l2 ++ "_act_power"));
      ("/Ac/L3/Power", getitem data (l3 ++ "_act_power"));
      ("/Ac/Power", sum3 data "a_act_power" "b_act_power" "c_act_power") ].
Proof.
  unfold rotation, ThreePhaseMeter.live_writes, ThreePhaseMeter.phase_field.
  destruct (py_index _ p) as [x1|]; [| discriminate].
  destruct (py_index _ (p + 1)) as [x2|]; [| discriminate].
  destruct (py_index _ (p + 2)) as [x3|]; [| discriminate].
  cbn. intros [= -> -> ->]. reflexivity.
Qed.

(** ** The writeable-point callbacks *)

Section callbacks.
Context `{PyFloat}.

Lemma single_position_changed v e self mon :
  SingleMeter.monitor self = Some mon →
  SingleMeter.position_changed v (e, self) =
    match settings_service mon with
    | Some h =>
        if bool_decide (0 ≤ v ≤ 2)
        then (Ok true, (set_store (store_set (alias h "position") (VInt v)) e, self))
        else (Ok false, (e, self))
    | None => (Ok false, (e, self))
    end.
Proof.
  intros Hm. unfold SingleMeter.position_changed.
  destruct (decide (0 ≤ v ≤ 2)) as [Hv | Hv].
  - rewrite (in_range_true _ _ _ Hv), (bool_decide_eq_true_2 _ Hv).
    run_monad. rewrite Hm. by destruct (settings_service mon).
  - rewrite (in_range_false _ _ _ Hv), (bool_decide_eq_false_2 _ Hv).
    by destruct (settings_service mon).
Qed.

Lemma three_position_changed v e self mon :
  ThreePhaseMeter.monitor self = Some mon →
  ThreePhaseMeter.position_changed v (e, self) =
    match settings_service mon with
    | Some h =>
        if bool_decide (0 ≤ v ≤ 2)
        then (Ok true, (set_store (store_set (alias h "position") (VInt v)) e, self))
        else (Ok false, (e, self))
    | None => (Ok false, (e, self))
    end.
Proof.
  intros Hm. unfold ThreePhaseMeter.position_changed.
  destruct (decide (0 ≤ v ≤ 2)) as [Hv | Hv].
  - rewrite (in_range_true _ _ _ Hv), (bool_decide_eq_true_2 _ Hv).
    run_monad. rewrite Hm. by destruct (settings_service mon).
  - rewrite (in_range_false _ _ _ Hv), (bool_decide_eq_false_2 _ Hv).
    by destruct (settings_service mon).
Qed.

Lemma single_phase_changed v e self mon :
  SingleMeter.monitor self = Some mon →
  SingleMeter.phase_changed v (e, self) =
    match settings_service mon with
    | Some h =>
        if bool_decide (1 ≤ v ≤ 3)
        then (Ok true, (set_store (store_set (alias h "phaseposition") (VInt v)) e,
                        SingleMeter.set_phaseposition v self))
        else (Ok false, (e, self))
    | None => (Ok false, (e, self))
    end.
Proof.
  intros Hm. unfold SingleMeter.phase_changed.
  destruct (decide (1 ≤ v ≤ 3)) as [Hv | Hv].
  - rewrite (in_range_true _ _ _ Hv), (bool_decide_eq_true_2 _ Hv).
    run_monad. rewrite Hm. by destruct (settings_service mon).
  - rewrite (in_range_false _ _ _ Hv), (bool_decide_eq_false_2 _ Hv).
    by destruct (settings_service mon).
Qed.

Lemma three_phase_changed v e self mon :
  ThreePhaseMeter.monitor self = Some mon →
  ThreePhaseMeter.phase_changed v (e, self) =
    match settings_service mon with
    | Some h =>
        if bool_decide (1 ≤ v ≤ 3)
        then (Ok true, (set_store (store_set (alias h "phase1position") (VInt v)) e,
                        ThreePhaseMeter.set_phase1position v self))
        else (Ok false, (e, self))
    | None => (Ok false, (e, self))
    end.
Proof.
  intros Hm. unfold ThreePhaseMeter.phase_changed.
  destruct (decide (1 ≤ v ≤ 3)) as [Hv | Hv].
  - rewrite (in_range_true _ _ _ Hv), (bool_decide_eq_true_2 _ Hv).
    run_monad. rewrite Hm. by destruct (settings_service mon).
  - rewrite (in_range_false _ _ _ Hv), (bool_decide_eq_false_2 _ Hv).
    by destruct (settings_service mon).
Qed.

End callbacks.

Section write_boundaries.

Example three_started_ok :
  (ThreePhaseMeter.start "192.168.1.20" 80 handshake_three
     (env_up, ThreePhaseMeter.init SYSTEM)).1 = Ok true.
Proof. vm_compute. reflexivity. Qed.

(** C7 (amended): on a channel whose monitor is set, [position_changed]
    accepts exactly the values 0, 1, 2 and [phase_changed] exactly the
    values 1, 2, 3, provided the monitor knows the settings service; a
    rejected write leaves the settings store and the channel unchanged; an
    accepted position write stores the value, an accepted phase write
    stores it and becomes the channel's phase assignment. When the monitor
    does not know the settings service every write is rejected and nothing
    changes. This holds for both channel classes. *)
Theorem write_boundaries_with_settings `{PyFloat} (v : Z) (e : Env)
    (s1 : SingleMeter.t) (s3 : ThreePhaseMeter.t) (mon1 mon3 : Monitor) :
  SingleMeter.monitor s1 = Some mon1 →
  ThreePhaseMeter.monitor s3 = Some mon3 →
  SingleMeter.position_changed v (e, s1) =
    match settings_service mon1 with
    | Some h =>
        if bool_decide (0 ≤ v ≤ 2)
        then (Ok true, (set_store (store_set (alias h "position") (VInt v)) e, s1))
        else (Ok false, (e, s1))
    | None => (Ok false, (e, s1))
    end
  ∧ ThreePhaseMeter.position_changed v (e, s3) =
    match settings_service mon3 with
    | Some h =>
        if bool_decide (0 ≤ v ≤ 2)
        then (Ok true, (set_store (store_set (alias h "position") (VInt v)) e, s3))
        else (Ok false, (e, s3))
    | None => (Ok false, (e, s3))
    end
  ∧ SingleMeter.phase_changed v (e, s1) =
    match settings_service mon1 with
    | Some h =>
        if bool_decide (1 ≤ v ≤ 3)
        then (Ok true, (set_store (store_set (alias h "phaseposition") (VInt v)) e,
                        SingleMeter.set_phaseposition v s1))
        else (Ok false, (e, s1))
    | None => (Ok false, (e, s1))
    end
  ∧ ThreePhaseMeter.phase_changed v (e, s3) =
    match settings_service mon3 with
    | Some h =>
        if bool_decide (1 ≤ v ≤ 3)
        then (Ok true, (set_store (store_set (alias h "phase1position") (VInt v)) e,
                        ThreePhaseMeter.set_phase1position v s3))
        else (Ok false, (e, s3))
    | None => (Ok false, (e, s3))
    end.
Proof.
  intros H1 H3. repeat split.
  - by apply single_position_changed.
  - by apply three_position_changed.
  - by apply single_phase_changed.
  - by apply three_phase_changed.
Qed.

(** Phase 2 written to a single-phase channel on phase 1 and to a
    three-phase channel, both with a monitor that knows localsettings. *)
Lemma write_boundaries_with_settings_at_2 :
  let s1 := single_registered 1 in
  let s3 := ThreePhaseMeter.set_monitor (Some {| settings_service := Some single_paths |})
              (ThreePhaseMeter.init SYSTEM) in
  (SingleMeter.phase_changed 2 (single_env 1, s1)).1 = Ok true
  ∧ SingleMeter.phaseposition (SingleMeter.phase_changed 2 (single_env 1, s1)).2.2 = 2
  ∧ (ThreePhaseMeter.phase_changed 2 (single_env 1, s3)).1 = Ok true.
Proof.
  intros s1 s3.
  pose proof (write_boundaries_with_settings 2 (single_env 1) s1 s3
                {| settings_service := Some single_paths |}
                {| settings_service := Some single_paths |} eq_refl eq_refl)
    as (_ & _ & H1 & H3).
  rewrite H1, H3. vm_compute. repeat split.
Defined.

(** C7 as stated fails: value 1 is in range, but the channel whose
    monitor has lost localsettings rejects it. *)
Lemma position_write_rejected_without_settings :
  0 ≤ 1 ≤ 2
  ∧ (ThreePhaseMeter.position_changed 1 three_lost).1 = Ok false.
Proof. split; [lia | vm_compute; reflexivity]. Qed.

End write_boundaries.

Section strings.

Lemma is_digit_cases a :
  is_digit a = true →
  a ∈ ["0"; "1"; "2"; "3"; "4"; "5"; "6"; "7"; "8"; "9"]%char.
Proof.
  destruct a as [[] [] [] [] [] [] [] []]; cbn; intros; try discriminate;
    set_solver.
Qed.

Lemma string_of_uint_digits d : digits_only (NilEmpty.string_of_uint d) = true.
Proof. induction d; cbn; auto. Qed.

Lemma digits_lstrip s : digits_only s = true → lstrip s = s.
Proof.
  destruct s as [| a s]; [done |]. cbn. intros [Ha _]%andb_true_iff.
  apply is_digit_cases in Ha. set_unfold. by destruct_or!; subst.
Qed.

Lemma digits_rstrip s : digits_only s = true → rstrip s = s.
Proof.
  induction s as [| a s IH]; [done |]. cbn. intros [Ha Hs]%andb_true_iff.
  rewrite (IH Hs). destruct s; [| done].
  apply is_digit_cases in Ha. set_unfold. by destruct_or!; subst.
Qed.

Lemma digits_drop_underscores s b :
  digits_only s = true → s ≠ EmptyString ∨ b = true →
  drop_underscores b s = Some s.
Proof.
  revert b. induction s as [| a s IH]; intros b Hd Hne.
  - destruct Hne as [? | ->]; done.
  - cbn in Hd. apply andb_true_iff in Hd as [Ha Hs].
    assert (drop_underscores b (String a s) = String a <$> drop_underscores true s) as ->.
    { apply is_digit_cases in Ha. set_unfold. by destruct_or!; subst. }
    rewrite IH; auto.
Qed.

Lemma digits_split_colon s : digits_only s = true → split_on ":" s = [s].
Proof.
  induction s as [| a s IH]; [done |]. cbn -[Ascii.eqb]. intros [Ha Hs]%andb_true_iff.
  rewrite (IH Hs).
  apply is_digit_cases in Ha. set_unfold. by destruct_or!; subst.
Qed.

(** [int] keeps ASCII text as it is. *)
Lemma to_ascii_decimal_ascii s : ascii_only s = true → to_ascii_decimal s = Some s.
Proof.
  induction s as [| a s IH]; [done |]. cbn [ascii_only to_ascii_decimal].
  intros [Ha Hs]%andb_true_iff. by rewrite Ha, (IH Hs).
Qed.

Lemma int_str_ascii s : ascii_only s = true → int_str s = int_ascii s.
Proof. intros Hs. unfold int_str. by rewrite to_ascii_decimal_ascii. Qed.

Lemma digits_ascii s : digits_only s = true → ascii_only s = true.
Proof.
  induction s as [| a s IH]; [done |]. cbn [digits_only ascii_only].
  intros [Ha Hs]%andb_true_iff. rewrite (IH Hs), andb_true_r.
  apply is_digit_cases in Ha. set_unfold. by destruct_or!; subst.
Qed.

Lemma int_str_digits s :
  digits_only s = true → s ≠ EmptyString →
  int_str s = Z.of_uint <$> NilEmpty.uint_of_string s.
Proof.
  intros Hd Hne. rewrite int_str_ascii by by apply digits_ascii.
  unfold int_ascii, strip. rewrite digits_lstrip, digits_rstrip by done.
  destruct s as [| a s]; [done |].
  pose proof Hd as Hd'. cbn in Hd. apply andb_true_iff in Hd as [Ha Hs].
  assert (match String a s with
          | String "+" rest => 
              d ← drop_underscores false rest;
              u ← NilZero.uint_of_string d;
              Some (Z.of_uint u)
          | String "-" rest =>
              d ← drop_underscores false rest;
              u ← NilZero.uint_of_string d;
              Some (- Z.of_uint u)
          | body =>
              d ← drop_underscores false body;
              u ← NilZero.uint_of_string d;
              Some (Z.of_uint u)
          end = (d ← drop_underscores false (String a s);
              u ← NilZero.uint_of_string d;
              Some (Z.of_uint u))) as ->.
  { apply is_digit_cases in Ha. set_unfold. by destruct_or!; subst. }
  rewrite digits_drop_underscores by auto. cbn -[NilEmpty.uint_of_string].
  by destruct (NilEmpty.uint_of_string (String a s)).
Qed.

Lemma nilzero_nonnil d :
  d ≠ Decimal.Nil → NilZero.string_of_uint d = NilEmpty.string_of_uint d.
Proof. by destruct d. Qed.

Lemma string_of_uint_nonempty d :
  d ≠ Decimal.Nil → NilEmpty.string_of_uint d ≠ EmptyString.
Proof. by destruct d. Qed.

Lemma int_str_str_int n : int_str (str_int n) = Some n.
Proof.
  unfold str_int. rewrite <- (DecimalZ.of_to n) at 2.
  destruct n as [| p | p]; [done | |]; cbn [Z.to_int NilZero.string_of_int Z.of_int];
    pose proof (DecimalPos.Unsigned.to_uint_nonnil p) as Hnn;
    pose proof (string_of_uint_digits (Pos.to_uint p)) as Hd;
    pose proof (string_of_uint_nonempty _ Hnn) as Hne;
    rewrite (nilzero_nonnil _ Hnn).
  - by rewrite int_str_digits, NilEmpty.usu.
  - pose proof (NilEmpty.usu (Pos.to_uint p)) as Hu.
    rewrite int_str_ascii by (cbn [ascii_only]; by rewrite digits_ascii).
    unfold int_ascii, strip.
    change (lstrip (String "-" ?s)) with (String "-" s).
    cbn [rstrip]. rewrite digits_rstrip by done.
    destruct (NilEmpty.string_of_uint (Pos.to_uint p)) as [| a s] eqn:Hs; [done |].
    rewrite digits_drop_underscores by auto.
    cbn -[NilEmpty.uint_of_string]. by rewrite Hu.
Qed.

Lemma str_int_no_colon n : split_on ":" (str_int n) = [str_int n].
Proof.
  unfold str_int.
  destruct n as [| p | p]; [done | |]; cbn [Z.to_int NilZero.string_of_int];
    pose proof (DecimalPos.Unsigned.to_uint_nonnil p) as Hnn;
    rewrite (nilzero_nonnil _ Hnn).
  - apply digits_split_colon, string_of_uint_digits.
  - cbn. by rewrite digits_split_colon by apply string_of_uint_digits.
Qed.
End strings.

Lemma role_instance_written `{PyFloat} r n :
  r ∈ allowed_roles →
  role_instance (VStr (r ++ ":" ++ str_int n)) = Ok (r, n).
Proof.
  intros Hr. unfold role_instance, allowed_roles in *.
  assert (split_on ":" (r ++ ":" ++ str_int n) = [r; str_int n]) as ->.
  { set_unfold. destruct_or!; subst; cbv [String.append]; cbn -[str_int]; by rewrite str_int_no_colon. }
  by rewrite int_str_str_int.
Qed.

(** [int] reads the decimal digits and the white space of Unicode:
    Arabic-Indic and full-width digits, a no-break space around the
    number; a superscript digit is no decimal digit. *)
Example int_beyond_ascii :
  int_str "٤٠" = Some 40
  ∧ int_str "-４０" = Some (-40)
  ∧ int_str (no_break_space ++ "4_0" ++ no_break_space) = Some 40
  ∧ int_str "4²" = None
  ∧ role_instance (VStr "grid:٤٠") = Ok ("grid", 40).
Proof. vm_compute. repeat split. Qed.

(** ** Readings in kWh on binary64 floats *)

(** [round(n / 1000, 1)] on an int counter. *)
Lemma kwh_counter (n : Z) (x f : spec_float) :
  Binary64.int_div1000 n = Some x → Binary64.round1 x = f →
  kwh (VInt n) = Ok (VFloat f).
Proof.
  intros Hx Hf. cbn [kwh idiv1000 round1 Float64].
  by rewrite idiv64_unseal, round64_unseal, Hx, Hf.
Qed.

Lemma published_kwh (data : pyval) (field : string) (n : Z) (x f : spec_float) :
  getitem data field = Ok (VInt n) →
  Binary64.int_div1000 n = Some x → Binary64.round1 x = f →
  read (res_bind (getitem data field) kwh) = Some (VFloat f).
Proof. intros -> Hx Hf. cbn [res_bind]. by rewrite (kwh_counter n x f Hx Hf). Qed.

(** The counters 50 and 150 both give 0.1 and 1050 gives 1.1, since
    0.05, 0.15 and 1.05 are no binary64 values and the nearest ones lie
    above 0.05, below 0.15 and above 1.05; 1250 gives 1.2, the tie 1.25
    going to the even digit; [10 ** 400 / 1000] is an OverflowError. The
    float 150.0 gives 0.1 as well; [0.1 + 0.2] is 0.30000000000000004;
    [2 ** 1024 + 0.1] is an OverflowError. *)
Example kwh_on_binary64 :
  kwh (VInt 50) = Ok (binary64 7205759403792794 (-56))
  ∧ kwh (VInt 150) = Ok (binary64 7205759403792794 (-56))
  ∧ kwh (VInt 1050) = Ok (binary64 4953959590107546 (-52))
  ∧ kwh (VInt 1250) = Ok (binary64 5404319552844595 (-52))
  ∧ kwh (VInt (10 ^ 400)) = Raise OverflowError
  ∧ kwh (binary64 5277655813324800 (-45)) = Ok (binary64 7205759403792794 (-56))
  ∧ py_add (binary64 7205759403792794 (-56)) (binary64 7205759403792794 (-55))
    = Ok (binary64 5404319552844596 (-54))
  ∧ py_add (VInt (2 ^ 1024)) (binary64 7205759403792794 (-56)) = Raise OverflowError.
Proof.
  repeat apply conj.
  - eapply kwh_counter; [vm_compute; reflexivity ..].
  - eapply kwh_counter; [vm_compute; reflexivity ..].
  - eapply kwh_counter; [vm_compute; reflexivity ..].
  - eapply kwh_counter; [vm_compute; reflexivity ..].
  - cbn [kwh idiv1000 Float64]. rewrite idiv64_unseal. vm_compute. reflexivity.
  - unfold binary64. cbn [kwh fdiv1000 round1 Float64].
    rewrite fdiv64_unseal, round64_unseal. vm_compute. reflexivity.
  - unfold binary64. cbn [py_add fadd Float64]. rewrite fadd64_unseal.
    vm_compute. reflexivity.
  - unfold binary64, py_add, int_to_float. cbn [float_of_int Float64].
    rewrite float64_of_int_unseal. vm_compute. reflexivity.
Qed.

(** ** Role changes *)

Section role_change.
Context `{PyFloat}.

Lemma in_strs_true (val : pyval) (l : list string) :
  in_strs val l = true ↔ ∃ r, val = VStr r ∧ r ∈ l.
Proof.
  unfold in_strs. rewrite existsb_exists. split.
  - intros (r & Hin & Heq). destruct val; try discriminate.
    cbn in Heq. apply String.eqb_eq in Heq as ->.
    exists r. split; [done | by apply list_elem_of_In].
  - intros (r & -> & Hin). exists r. split; [by apply list_elem_of_In |].
    cbn. apply String.eqb_refl.
Qed.

Lemma in_strs_false (val : pyval) (l : list string) :
  (∀ r, r ∈ l → val ≠ VStr r) → in_strs val l = false.
Proof.
  intros Hno. apply not_true_is_false. intros (r & -> & Hr)%in_strs_true.
  by apply (Hno r).
Qed.

Lemma single_role_rejected val e self :
  in_strs val allowed_roles = false →
  SingleMeter.role_changed val (e, self) = (Ok false, (e, self)).
Proof. intros Hv. unfold SingleMeter.role_changed. by rewrite Hv. Qed.

Lemma three_role_rejected val e self :
  in_strs val allowed_roles = false →
  ThreePhaseMeter.role_changed val (e, self) = (Ok false, (e, self)).
Proof. intros Hv. unfold ThreePhaseMeter.role_changed. by rewrite Hv. Qed.

Lemma single_role_accepted r e self h r0 inst :
  r ∈ allowed_roles →
  knows_settings (SingleMeter.monitor self) h →
  role_instance (get_value (store e) (alias h "instance")) = Ok (r0, inst) →
  SingleMeter.role_changed (VStr r) (e, self) =
    (Ok true,
     (set_store (store_set (alias h "instance") (VStr (r ++ ":" ++ str_int inst))) e,
      SingleMeter.set_destroyed true (SingleMeter.set_service None self))).
Proof.
  intros Hr Hm Hri. unfold SingleMeter.role_changed.
  assert (in_strs (VStr r) allowed_roles = true) as ->
    by (apply in_strs_true; eauto).
  run_monad. rewrite Hm. cbv [settings_service]. rewrite Hri.
  reflexivity.
Qed.

Lemma three_role_accepted r e self h r0 inst :
  r ∈ allowed_roles →
  knows_settings (ThreePhaseMeter.monitor self) h →
  role_instance (get_value (store e) (alias h "instance")) = Ok (r0, inst) →
  ThreePhaseMeter.role_changed (VStr r) (e, self) =
    (Ok true,
     (set_store (store_set (alias h "instance") (VStr (r ++ ":" ++ str_int inst))) e,
      ThreePhaseMeter.set_destroyed true (ThreePhaseMeter.set_service None self))).
Proof.
  intros Hr Hm Hri. unfold ThreePhaseMeter.role_changed.
  assert (in_strs (VStr r) allowed_roles = true) as ->
    by (apply in_strs_true; eauto).
  run_monad. rewrite Hm. cbv [settings_service]. rewrite Hri.
  reflexivity.
Qed.

(** The value read back from the store after a write. *)
Lemma get_value_store_set (sto : gmap string pyval) path v :
  get_value (store_set (Some path) v sto) (Some path) = v.
Proof. cbn. by rewrite lookup_insert_eq. Qed.

End role_change.

(** C6: [role_changed] called with a value outside grid, pvinverter,
    genset, acload returns False and changes neither the settings store nor
    the channel. Called with one of the four roles on a channel whose
    monitor knows the settings service, where the stored combined value
    reads as some role and the instance [inst], it returns True, stores
    ["<newrole>:<inst>"] under the instance alias (so that the store reads
    back as the new role with the same instance), and leaves the channel
    with its [destroyed] flag set. This holds for both channel classes. *)
Theorem role_change_rejects_or_restarts `{PyFloat} (val : pyval) (e : Env)
    (s1 : SingleMeter.t) (s3 : ThreePhaseMeter.t) :
  ((∀ r, r ∈ allowed_roles → val ≠ VStr r) →
     SingleMeter.role_changed val (e, s1) = (Ok false, (e, s1))
     ∧ ThreePhaseMeter.role_changed val (e, s3) = (Ok false, (e, s3)))
  ∧ (∀ r h1 h3 path1 path3 old1 inst1 old3 inst3,
       val = VStr r → r ∈ allowed_roles →
       knows_settings (SingleMeter.monitor s1) h1 →
       knows_settings (ThreePhaseMeter.monitor s3) h3 →
       alias h1 "instance" = Some path1 →
       alias h3 "instance" = Some path3 →
       role_instance (get_value (store e) (Some path1)) = Ok (old1, inst1) →
       role_instance (get_value (store e) (Some path3)) = Ok (old3, inst3) →
       let out1 := SingleMeter.role_changed val (e, s1) in
       let out3 := ThreePhaseMeter.role_changed val (e, s3) in
       out1.1 = Ok true
       ∧ store out1.2.1 !! path1 = Some (VStr (r ++ ":" ++ str_int inst1))
       ∧ role_instance (get_value (store out1.2.1) (Some path1)) = Ok (r, inst1)
       ∧ SingleMeter.destroyed out1.2.2 = true
       ∧ out3.1 = Ok true
       ∧ store out3.2.1 !! path3 = Some (VStr (r ++ ":" ++ str_int inst3))
       ∧ role_instance (get_value (store out3.2.1) (Some path3)) = Ok (r, inst3)
       ∧ ThreePhaseMeter.destroyed out3.2.2 = true).
Proof.
  split.
  - intros Hno. apply in_strs_false in Hno.
    split; [by apply single_role_rejected | by apply three_role_rejected].
  - intros r h1 h3 path1 path3 old1 inst1 old3 inst3 -> Hr Hm1 Hm3 Ha1 Ha3 Hi1 Hi3.
    rewrite <- Ha1 in Hi1. rewrite <- Ha3 in Hi3.
    rewrite (single_role_accepted r e s1 h1 old1 inst1 Hr Hm1 Hi1).
    rewrite (three_role_accepted r e s3 h3 old3 inst3 Hr Hm3 Hi3).
    rewrite Ha1, Ha3. cbn [fst snd set_store store].
    rewrite !get_value_store_set. cbn [store_set]. rewrite !lookup_insert_eq.
    rewrite !role_instance_written by done.
    repeat split.
Qed.

(** The role pvinverter written to a single-phase and to a three-phase
    channel whose store holds ["grid:40"]. *)
Lemma role_change_rejects_or_restarts_pvinverter :
  let path := "/Settings/Devices/shelly_A8032AB6C1D4_0/ClassAndVrmInstance" in
  let e := Examples.single_env 1 in
  let s1 := Examples.single_registered 1 in
  let s3 := ThreePhaseMeter.set_monitor
              (Some {| settings_service := Some Examples.single_paths |})
              (ThreePhaseMeter.init SYSTEM) in
  let out1 := SingleMeter.role_changed (VStr "pvinverter") (e, s1) in
  let out3 := ThreePhaseMeter.role_changed (VStr "pvinverter") (e, s3) in
  out1.1 = Ok true
  ∧ store out1.2.1 !! path = Some (VStr ("pvinverter" ++ ":" ++ str_int 40))
  ∧ role_instance (get_value (store out1.2.1) (Some path)) = Ok ("pvinverter", 40)
  ∧ SingleMeter.destroyed out1.2.2 = true
  ∧ out3.1 = Ok true
  ∧ store out3.2.1 !! path = Some (VStr ("pvinverter" ++ ":" ++ str_int 40))
  ∧ role_instance (get_value (store out3.2.1) (Some path)) = Ok ("pvinverter", 40)
  ∧ ThreePhaseMeter.destroyed out3.2.2 = true.
Proof.
  intros path e s1 s3.
  apply (proj2 (role_change_rejects_or_restarts (VStr "pvinverter") e s1 s3)
           "pvinverter" Examples.single_paths Examples.single_paths
           path path "grid" 40 "grid" 40).
  - reflexivity.
  - unfold allowed_roles. set_solver.
  - reflexivity.
  - reflexivity.
  - vm_compute. reflexivity.
  - vm_compute. reflexivity.
  - vm_compute. reflexivity.
  - vm_compute. reflexivity.
Defined.
(** ** Writes to a published service *)

Section service_writes.
Context `{PyFloat}.

Lemma set_value_registered path v svc it :
  objects svc !! path = Some it →
  set_value path v svc =
    (Ok tt, {| name := name svc;
               objects := <[path := {| kind := kind it; value := v; text := text it;
                                       onchange := onchange it |}]> (objects svc) |}).
Proof. intros Hit. unfold set_value. by rewrite Hit. Qed.

Lemma set_value_unregistered path v svc :
  objects svc !! path = None → set_value path v svc = (Raise KeyError, svc).
Proof. intros Hit. unfold set_value. by rewrite Hit. Qed.

(** An assignment that raises leaves the service as it was. *)
Lemma assign_raise_unchanged path expr svc e :
  (assign path expr svc).1 = Raise e → (assign path expr svc).2 = svc.
Proof.
  unfold assign. run_monad. destruct expr as [v | e']; [| done].
  unfold set_value. by destruct (objects svc !! path).
Qed.

Lemma assign_of_raise path e svc :
  assign path (Raise e) svc = (Raise e, svc).
Proof. reflexivity. Qed.

(** An assignment touches no other path. *)
Lemma assign_frame path expr svc q :
  q ≠ path → published (assign path expr svc).2 q = published svc q.
Proof.
  intros Hq. unfold assign. run_monad. destruct expr as [v | e]; [| done].
  unfold set_value, published. destruct (objects svc !! path); [| done].
  cbn. by rewrite lookup_insert_ne.
Qed.

(** An assignment neither adds nor removes a point. *)
Lemma assign_registered path expr svc q :
  is_Some (objects (assign path expr svc).2 !! q) ↔ is_Some (objects svc !! q).
Proof.
  unfold assign. run_monad. destruct expr as [v | e]; [| done].
  unfold set_value. destruct (objects svc !! path) as [it |] eqn:Hit; [| done].
  cbn. destruct (decide (path = q)) as [<- | Hne].
  - rewrite lookup_insert_eq, Hit. split; eauto.
  - by rewrite lookup_insert_ne.
Qed.

Lemma assign_name path expr svc : name (assign path expr svc).2 = name svc.
Proof.
  unfold assign. run_monad. destruct expr as [v | e]; [| done].
  unfold set_value. by destruct (objects svc !! path).
Qed.

(** A successful assignment publishes the value. *)
Lemma assign_ok path v svc :
  is_Some (objects svc !! path) →
  (assign path (Ok v) svc).1 = Ok tt
  ∧ published (assign path (Ok v) svc).2 path = Some v.
Proof.
  intros [it Hit]. unfold assign. run_monad.
  rewrite (set_value_registered _ _ _ _ Hit). unfold published. cbn.
  by rewrite lookup_insert_eq.
Qed.

(** The value found on a path after an assignment is the old one or the
    assigned one. *)
Lemma assign_published path expr svc q :
  published (assign path expr svc).2 q = published svc q
  ∨ (q = path ∧ ∃ v, expr = Ok v ∧ published (assign path expr svc).2 q = Some v).
Proof.
  destruct (decide (q = path)) as [-> | Hne]; [| left; by apply assign_frame].
  destruct expr as [v | e]; [| by left].
  destruct (objects svc !! path) as [it |] eqn:Hit.
  - right. split; [done |]. exists v. split; [done |].
    apply assign_ok. eauto.
  - left. unfold assign. run_monad. by rewrite set_value_unregistered.
Qed.

Lemma assign_all_nil svc : assign_all [] svc = (Ok tt, svc).
Proof. reflexivity. Qed.

Lemma assign_all_cons w ws svc :
  assign_all (w :: ws) svc =
    match assign w.1 w.2 svc with
    | (Ok _, svc') => assign_all ws svc'
    | (Raise e, svc') => (Raise e, svc')
    end.
Proof. reflexivity. Qed.

Lemma assign_all_app ws1 ws2 svc :
  assign_all (ws1 ++ ws2) svc =
    match assign_all ws1 svc with
    | (Ok _, svc') => assign_all ws2 svc'
    | (Raise e, svc') => (Raise e, svc')
    end.
Proof.
  revert svc. induction ws1 as [| w ws1 IH]; intros svc; [done |].
  rewrite <- app_comm_cons, !assign_all_cons.
  destruct (assign w.1 w.2 svc) as [[[] | e] svc']; [apply IH | done].
Qed.

(** A block touches only the paths it names. *)
Lemma assign_all_frame ws svc q :
  q ∉ ws.*1 → published (assign_all ws svc).2 q = published svc q.
Proof.
  revert svc. induction ws as [| w ws IH]; intros svc Hq; [done |].
  rewrite assign_all_cons. rewrite fmap_cons, not_elem_of_cons in Hq.
  destruct Hq as [Hq1 Hq2].
  pose proof (assign_frame w.1 w.2 svc q Hq1) as Hf.
  destruct (assign w.1 w.2 svc) as [[[] | e] svc']; cbn in *.
  - by rewrite IH.
  - done.
Qed.

Lemma assign_all_registered ws svc q :
  is_Some (objects (assign_all ws svc).2 !! q) ↔ is_Some (objects svc !! q).
Proof.
  revert svc. induction ws as [| w ws IH]; intros svc; [done |].
  rewrite assign_all_cons.
  pose proof (assign_registered w.1 w.2 svc q) as Hr.
  destruct (assign w.1 w.2 svc) as [[[] | e] svc']; cbn in *.
  - by rewrite IH.
  - done.
Qed.

Lemma assign_all_name ws svc : name (assign_all ws svc).2 = name svc.
Proof.
  revert svc. induction ws as [| w ws IH]; intros svc; [done |].
  rewrite assign_all_cons.
  pose proof (assign_name w.1 w.2 svc) as Hr.
  destruct (assign w.1 w.2 svc) as [[[] | e] svc']; cbn in *.
  - by rewrite IH.
  - done.
Qed.

(** A block whose points are all registered and whose right-hand sides
    all evaluate runs to its end. *)
Lemma assign_all_ok ws svc :
  Forall (λ w, is_Some (objects svc !! w.1) ∧ ∃ v, w.2 = Ok v) ws →
  (assign_all ws svc).1 = Ok tt.
Proof.
  revert svc. induction ws as [| w ws IH]; intros svc Hall; [done |].
  rewrite assign_all_cons. apply Forall_cons in Hall as [[Hreg [v Hv]] Hall].
  pose proof (assign_ok w.1 v svc Hreg) as [Hok _]. rewrite <- Hv in Hok.
  destruct (assign w.1 w.2 svc) as [[[] | e] svc'] eqn:Ha; [| done].
  apply IH. eapply Forall_impl; [exact Hall |].
  intros w' [Hreg' Hv']. split; [| done].
  replace svc' with (assign w.1 w.2 svc).2 by (by rewrite Ha).
  by apply assign_registered.
Qed.

(** A block stops at the first right-hand side that raises: the writes
    that follow it are not performed. *)
Lemma assign_all_cut ws1 w ws2 svc e :
  w.2 = Raise e →
  (assign_all (ws1 ++ w :: ws2) svc).2 = (assign_all ws1 svc).2.
Proof.
  intros Hw. rewrite assign_all_app.
  destruct (assign_all ws1 svc) as [[[] | e'] svc']; [| done].
  rewrite assign_all_cons, Hw, assign_of_raise. done.
Qed.

(** The value found on a path after a block is the old one or one that
    the block assigns to that path. *)
Lemma assign_all_published ws svc q :
  published (assign_all ws svc).2 q = published svc q
  ∨ ∃ v, (q, Ok v) ∈ ws ∧ published (assign_all ws svc).2 q = Some v.
Proof.
  revert svc. induction ws as [| w ws IH]; intros svc; [by left |].
  rewrite assign_all_cons.
  pose proof (assign_published w.1 w.2 svc q) as Hp.
  destruct (assign w.1 w.2 svc) as [[[] | e] svc'] eqn:Ha; cbn in *.
  - destruct (IH svc') as [Hsame | (v & Hin & Hv)].
    + rewrite Hsame. destruct Hp as [Hp | (-> & v & Hv & Hp)]; [by left |].
      right. exists v. split; [| done]. destruct w; cbn in *; subst. set_solver.
    + right. exists v. split; [set_solver | done].
  - destruct Hp as [Hp | (-> & v & Hv & Hp)]; [by left |].
    right. exists v. split; [| done]. destruct w; cbn in *; subst. set_solver.
Qed.

End service_writes.

(** ** What [update] does to a channel *)

Section update_blocks.
Context `{PyFloat}.

Lemma three_run_nil self : three_run [] self = self.
Proof.
  unfold three_run, ThreePhaseMeter.with_service.
  destruct self as [? ? [svc |] ? ? ?]; reflexivity.
Qed.

Lemma single_run_nil self : single_run [] self = self.
Proof.
  unfold single_run, SingleMeter.with_service.
  destruct self as [? ? [svc |] ? ? ? ?]; reflexivity.
Qed.

Lemma three_update_block data self :
  ThreePhaseMeter.update data self = (Ok tt, three_run (three_block self data) self).
Proof.
  unfold ThreePhaseMeter.update, three_block, select_block.
  run_monad.
  destruct (getitem data "helpertag") as [tag |]; [| by rewrite three_run_nil].
  destruct (startswith tag "em:") as [[] |]; [| | by rewrite three_run_nil].
  - unfold three_run.
    by destruct (ThreePhaseMeter.with_service _ self) as [[[] | e] self'].
  - destruct (startswith tag "emdata:") as [[] |]; [| by rewrite three_run_nil ..].
    unfold three_run.
    by destruct (ThreePhaseMeter.with_service _ self) as [[[] | e] self'].
Qed.

Lemma single_run_service_None ws self :
  SingleMeter.service self = None → single_run ws self = self.
Proof.
  intros Hs. unfold single_run, SingleMeter.with_service. by rewrite Hs.
Qed.

Lemma single_run_service ws self :
  SingleMeter.service (single_run ws self) =
    (λ svc, (assign_all ws svc).2) <$> SingleMeter.service self.
Proof.
  unfold single_run, SingleMeter.with_service.
  destruct (SingleMeter.service self) as [svc |] eqn:Hs; [| exact Hs].
  cbn. by destruct (assign_all ws svc).
Qed.

Lemma three_run_service ws self :
  ThreePhaseMeter.service (three_run ws self) =
    (λ svc, (assign_all ws svc).2) <$> ThreePhaseMeter.service self.
Proof.
  unfold three_run, ThreePhaseMeter.with_service.
  destruct (ThreePhaseMeter.service self) as [svc |] eqn:Hs; [| exact Hs].
  cbn. by destruct (assign_all ws svc).
Qed.

Lemma single_update_keyed data self :
  SingleMeter.update_keyed data self =
    (Ok tt, single_run (single_block self data) self).
Proof.
  unfold SingleMeter.update_keyed, single_block, select_block.
  run_monad.
  destruct (getitem data "helpertag") as [tag |]; [| by rewrite single_run_nil].
  destruct (startswith tag "em:") as [[] |]; [| | by rewrite single_run_nil].
  - unfold single_run.
    by destruct (SingleMeter.with_service _ self) as [[[] | e] self'].
  - destruct (startswith tag "emdata:") as [[] |]; [| by rewrite single_run_nil ..].
    unfold single_run.
    by destruct (SingleMeter.with_service _ self) as [[[] | e] self'].
Qed.

Lemma single_update_notify_skipped data self self' :
  keyed_frame self data →
  (SingleMeter.service self = None → SingleMeter.service self' = None) →
  SingleMeter.update_notify data self' = (Ok tt, self').
Proof.
  intros [Hnone | (m & Hm & Hns)] Hs; unfold SingleMeter.update_notify; run_monad.
  - by rewrite (Hs Hnone).
  - destruct (SingleMeter.service self'); [| done]. by rewrite Hm, Hns.
Qed.

Lemma single_update_block data self :
  keyed_frame self data →
  SingleMeter.update data self = (Ok tt, single_run (single_block self data) self).
Proof.
  intros Hk. unfold SingleMeter.update, bind.
  rewrite single_update_keyed.
  apply (single_update_notify_skipped data self); [done |].
  intros Hnone. by rewrite single_run_service_None.
Qed.

End update_blocks.

(** ** The phase rotation, as [update] applies it *)

Section phase_remapping.
Context `{PyFloat}.

Lemma history_writes_by_rotation (p : Z) (data : pyval) l1 l2 l3 :
  rotation p = Ok [l1; l2; l3] →
  ThreePhaseMeter.history_writes p data =
    [ ("/Ac/Energy/Forward", res_bind (getitem data "total_act") kwh);
      ("/Ac/Energy/Reverse", res_bind (getitem data "total_act_ret") kwh);
      ("/Ac/L1/Energy/Forward", res_bind (getitem data (l1 ++ "_total_act_energy")) kwh);
      ("/Ac/L1/Energy/Reverse", res_bind (getitem data (l1 ++ "_total_act_ret_energy")) kwh);
      ("/Ac/L2/Energy/Forward", res_bind (getitem data (l2 ++ "_total_act_energy")) kwh);
      ("/Ac/L2/Energy/Reverse", res_bind (getitem data (l2 ++ "_total_act_ret_energy")) kwh);
      ("/Ac/L3/Energy/Forward", res_bind (getitem data (l3 ++ "_total_act_energy")) kwh);
      ("/Ac/L3/Energy/Reverse", res_bind (getitem data (l3 ++ "_total_act_ret_energy")) kwh) ].
Proof.
  unfold rotation, ThreePhaseMeter.history_writes, ThreePhaseMeter.phase_field.
  destruct (py_index _ p) as [x1|]; [| discriminate].
  destruct (py_index _ (p + 1)) as [x2|]; [| discriminate].
  destruct (py_index _ (p + 2)) as [x3|]; [| discriminate].
  cbn. intros [= -> -> ->]. reflexivity.
Qed.

Lemma rotation_values p l1 l2 l3 :
  1 ≤ p ≤ 3 → rotation p = Ok [l1; l2; l3] →
  (l1 = "a" ∧ l2 = "b" ∧ l3 = "c")
  ∨ (l1 = "b" ∧ l2 = "c" ∧ l3 = "a")
  ∨ (l1 = "c" ∧ l2 = "a" ∧ l3 = "b").
Proof.
  intros Hp. destruct (rotation_cases p Hp) as [-> | [-> | ->]];
    intros [= <- <- <-]; auto.
Qed.

(** The block that a frame tagged [em:...] selects, and the one that a
    frame tagged [emdata:...] selects. *)
Lemma three_block_live self data tag :
  getitem data "helpertag" = Ok (VStr tag) →
  String.prefix "em:" tag = true →
  three_block self data
    = ThreePhaseMeter.live_writes (ThreePhaseMeter.phase1position self) data.
Proof.
  intros Htag Hlive. unfold three_block, select_block.
  by rewrite Htag; cbn [startswith]; rewrite Hlive.
Qed.

Lemma emdata_not_em tag :
  String.prefix "emdata:" tag = true → String.prefix "em:" tag = false.
Proof.
  intros Hp.
  destruct tag as [| a1 tag]; [discriminate |]. cbn -[ascii_dec] in Hp.
  destruct (ascii_dec "e" a1) as [<- |]; [| discriminate].
  destruct tag as [| a2 tag]; [discriminate |]. cbn -[ascii_dec] in Hp.
  destruct (ascii_dec "m" a2) as [<- |]; [| discriminate].
  destruct tag as [| a3 tag]; [discriminate |]. cbn -[ascii_dec] in Hp.
  destruct (ascii_dec "d" a3) as [<- |]; [| discriminate].
  reflexivity.
Qed.

Lemma three_block_history self data tag :
  getitem data "helpertag" = Ok (VStr tag) →
  String.prefix "emdata:" tag = true →
  three_block self data
    = ThreePhaseMeter.history_writes (ThreePhaseMeter.phase1position self) data.
Proof.
  intros Htag Hhist. unfold three_block, select_block.
  rewrite Htag; cbn [startswith]. by rewrite (emdata_not_em tag Hhist), Hhist.
Qed.

(** C5: for every phase-1 position [p] in {1,2,3} the entries
    [phaseorder[p]], [phaseorder[p + 1]], [phaseorder[p + 2]] of the table
    exist and are the letters [l1], [l2], [l3] that [update] reads for
    the lines L1, L2, L3: on a frame tagged [em:...] it runs the live
    block with the fields of [l1] on L1, of [l2] on L2 and of [l3] on L3,
    on a frame tagged [emdata:...] the history block with the same
    letters. The three letters are a permutation of the physical phases
    a, b, c, each once, and a function of [p] alone: position 1 reads
    a,b,c, position 2 reads b,c,a and position 3 reads c,a,b. *)
Theorem update_reads_lines_by_permutation (p : Z) :
  1 ≤ p ≤ 3 →
  ∃ l1 l2 l3 : string,
    py_index ThreePhaseMeter.phaseorder p = Ok l1
    ∧ py_index ThreePhaseMeter.phaseorder (p + 1) = Ok l2
    ∧ py_index ThreePhaseMeter.phaseorder (p + 2) = Ok l3
    ∧ [l1; l2; l3] ≡ₚ ["a"; "b"; "c"]
    ∧ NoDup [l1; l2; l3]
    ∧ [l1; l2; l3] = match p with
                     | 1 => ["a"; "b"; "c"]
                     | 2 => ["b"; "c"; "a"]
                     | _ => ["c"; "a"; "b"]
                     end
    ∧ ∀ (self : ThreePhaseMeter.t) (data : pyval) (tag : string),
        ThreePhaseMeter.phase1position self = p →
        getitem data "helpertag" = Ok (VStr tag) →
        (String.prefix "em:" tag = true →
         ThreePhaseMeter.update data self =
           (Ok tt,
            three_run
              [ ("/Ac/L1/Voltage", getitem data (l1 ++ "_voltage"));
                ("/Ac/L2/Voltage", getitem data (l2 ++ "_voltage"));
                ("/Ac/L3/Voltage", getitem data (l3 ++ "_voltage"));
                ("/Ac/L1/Current", getitem data (l1 ++ "_current"));
                ("/Ac/L2/Current", getitem data (l2 ++ "_current"));
                ("/Ac/L3/Current", getitem data (l3 ++ "_current"));
                ("/Ac/L1/Power", getitem data (l1 ++ "_act_power"));
                ("/Ac/L2/Power", getitem data (l2 ++ "_act_power"));
                ("/Ac/L3/Power", getitem data (l3 ++ "_act_power"));
                ("/Ac/Power", sum3 data "a_act_power" "b_act_power" "c_act_power") ]
              self))
        ∧ (String.prefix "emdata:" tag = true →
           ThreePhaseMeter.update data self =
             (Ok tt,
              three_run
                [ ("/Ac/Energy/Forward", res_bind (getitem data "total_act") kwh);
                  ("/Ac/Energy/Reverse", res_bind (getitem data "total_act_ret") kwh);
                  ("/Ac/L1/Energy/Forward",
                     res_bind (getitem data (l1 ++ "_total_act_energy")) kwh);
                  ("/Ac/L1/Energy/Reverse",
                     res_bind (getitem data (l1 ++ "_total_act_ret_energy")) kwh);
                  ("/Ac/L2/Energy/Forward",
                     res_bind (getitem data (l2 ++ "_total_act_energy")) kwh);
                  ("/Ac/L2/Energy/Reverse",
                     res_bind (getitem data (l2 ++ "_total_act_ret_energy")) kwh);
                  ("/Ac/L3/Energy/Forward",
                     res_bind (getitem data (l3 ++ "_total_act_energy")) kwh);
                  ("/Ac/L3/Energy/Reverse",
                     res_bind (getitem data (l3 ++ "_total_act_ret_energy")) kwh) ]
                self)).
Proof.
  intros Hp.
  assert (∃ l1 l2 l3, rotation p = Ok [l1; l2; l3]
            ∧ [l1; l2; l3] = match p with
                             | 1 => ["a"; "b"; "c"]
                             | 2 => ["b"; "c"; "a"]
                             | _ => ["c"; "a"; "b"]
                             end) as (l1 & l2 & l3 & Hrot & Hl).
  { destruct (rotation_cases p Hp) as [-> | [-> | ->]]; by do 3 eexists. }
  exists l1, l2, l3.
  assert (py_index ThreePhaseMeter.phaseorder p = Ok l1
          ∧ py_index ThreePhaseMeter.phaseorder (p + 1) = Ok l2
          ∧ py_index ThreePhaseMeter.phaseorder (p + 2) = Ok l3) as (H1 & H2 & H3).
  { unfold rotation in Hrot.
    destruct (py_index _ p) as [x1 |]; [| discriminate].
    destruct (py_index _ (p + 1)) as [x2 |]; [| discriminate].
    destruct (py_index _ (p + 2)) as [x3 |]; [| discriminate].
    cbn in Hrot. by injection Hrot as -> -> ->. }
  do 3 (split; [assumption |]).
  split; [| split; [| split; [exact Hl |]]].
  - rewrite Hl. destruct (rotation_cases p Hp) as [-> | [-> | ->]].
    + reflexivity.
    + change ["b"; "c"; "a"] with (["b"; "c"] ++ ["a"])%list.
      by rewrite Permutation_app_comm.
    + change ["c"; "a"; "b"] with (["c"] ++ ["a"; "b"])%list.
      by rewrite Permutation_app_comm.
  - rewrite Hl. destruct (rotation_cases p Hp) as [-> | [-> | ->]];
      apply NoDup_ListNoDup; repeat constructor; cbn; intuition discriminate.
  - intros self data tag Hself Htag. rewrite three_update_block. split.
    + intros Hlive. rewrite (three_block_live self data tag Htag Hlive), Hself.
      by rewrite (live_writes_by_rotation p data l1 l2 l3 Hrot).
    + intros Hhist. rewrite (three_block_history self data tag Htag Hhist), Hself.
      by rewrite (history_writes_by_rotation p data l1 l2 l3 Hrot).
Qed.

End phase_remapping.

(** The live block of Scenario C on phase-1 position 2: L1 reads phase b,
    L2 phase c and L3 phase a. *)
Lemma update_reads_lines_by_permutation_position_2 :
  ThreePhaseMeter.update live_block (three_registered 2) =
    (Ok tt,
     three_run
       [ ("/Ac/L1/Voltage", getitem live_block "b_voltage");
         ("/Ac/L2/Voltage", getitem live_block "c_voltage");
         ("/Ac/L3/Voltage", getitem live_block "a_voltage");
         ("/Ac/L1/Current", getitem live_block "b_current");
         ("/Ac/L2/Current", getitem live_block "c_current");
         ("/Ac/L3/Current", getitem live_block "a_current");
         ("/Ac/L1/Power", getitem live_block "b_act_power");
         ("/Ac/L2/Power", getitem live_block "c_act_power");
         ("/Ac/L3/Power", getitem live_block "a_act_power");
         ("/Ac/Power", sum3 live_block "a_act_power" "b_act_power" "c_act_power") ]
       (three_registered 2)).
Proof.
  destruct (update_reads_lines_by_permutation 2 ltac:(lia))
    as (l1 & l2 & l3 & _ & _ & _ & _ & _ & Hl & Hupd).
  injection Hl as -> -> ->.
  exact (proj1 (Hupd (three_registered 2) live_block "em:0" eq_refl eq_refl) eq_refl).
Defined.

(** ** The aggregate power of a three-phase channel *)

Section aggregate_power.
Context `{PyFloat}.

Lemma three_published_run ws self q :
  three_published (three_run ws self) q =
    svc ← ThreePhaseMeter.service self; published (assign_all ws svc).2 q.
Proof.
  unfold three_published. rewrite three_run_service.
  by destruct (ThreePhaseMeter.service self).
Qed.

Lemma single_published_run ws self q :
  single_published (single_run ws self) q =
    svc ← SingleMeter.service self; published (assign_all ws svc).2 q.
Proof.
  unfold single_published. rewrite single_run_service.
  by destruct (SingleMeter.service self).
Qed.

(** The last assignment of a block that runs to its end. *)
Lemma assign_all_last ws q v svc :
  Forall (λ w, is_Some (objects svc !! w.1) ∧ ∃ x, w.2 = Ok x) ws →
  is_Some (objects svc !! q) →
  published (assign_all (ws ++ [(q, Ok v)])%list svc).2 q = Some v.
Proof.
  intros Hall Hq. rewrite assign_all_app.
  pose proof (assign_all_ok ws svc Hall) as Hok.
  pose proof (assign_all_registered ws svc q) as Hreg.
  destruct (assign_all ws svc) as [[[] | e] svc']; [| done]. cbn in Hreg.
  rewrite assign_all_cons. cbn [fst snd].
  destruct (assign_ok q v svc') as [Hr Hp]; [by apply Hreg |].
  destruct (assign q (Ok v) svc') as [[[] | e] svc'']; [| done].
  exact Hp.
Qed.

Lemma live_writes_paths p data : (ThreePhaseMeter.live_writes p data).*1 = live_paths.
Proof. reflexivity. Qed.

Lemma sum3_power data a b c :
  getitem data "a_act_power" = Ok a →
  getitem data "b_act_power" = Ok b →
  getitem data "c_act_power" = Ok c →
  sum3 data "a_act_power" "b_act_power" "c_act_power" =
    res_bind (py_add a b) (λ ab, py_add ab c).
Proof. intros Ha Hb Hc. unfold sum3. by rewrite Ha, Hb, Hc. Qed.

Lemma live_block_complete p data :
  1 ≤ p ≤ 3 →
  (∀ f, f ∈ live_fields → ∃ x, getitem data f = Ok x) →
  ∃ ws,
    ThreePhaseMeter.live_writes p data =
      (ws ++ [("/Ac/Power", sum3 data "a_act_power" "b_act_power" "c_act_power")])%list
    ∧ ws.*1 = [ "/Ac/L1/Voltage"; "/Ac/L2/Voltage"; "/Ac/L3/Voltage";
                "/Ac/L1/Current"; "/Ac/L2/Current"; "/Ac/L3/Current";
                "/Ac/L1/Power"; "/Ac/L2/Power"; "/Ac/L3/Power" ]
    ∧ Forall (λ w, ∃ x, w.2 = Ok x) ws.
Proof.
  intros Hp Hf.
  destruct (rotation_cases p Hp) as [-> | [-> | ->]];
    [ rewrite (live_writes_by_rotation 1 data "a" "b" "c" eq_refl)
    | rewrite (live_writes_by_rotation 2 data "b" "c" "a" eq_refl)
    | rewrite (live_writes_by_rotation 3 data "c" "a" "b" eq_refl) ];
    (eexists (_ :: _ :: _ :: _ :: _ :: _ :: _ :: _ :: [_]);
     split; [reflexivity |]; split; [reflexivity |]);
    repeat constructor; cbn [snd]; cbv [String.append];
    apply Hf; unfold live_fields; set_solver.
Qed.

End aggregate_power.

Lemma three_service_live_paths p q :
  q ∈ live_paths → is_Some (objects (three_service p) !! q).
Proof.
  unfold live_paths. intros Hq.
  repeat (apply elem_of_cons in Hq as [-> | Hq]; [by eexists |]).
  by apply elem_of_nil in Hq.
Qed.

Lemma live_block_fields f :
  f ∈ live_fields → ∃ x, getitem live_block f = Ok x.
Proof.
  unfold live_fields. intros Hf.
  repeat (apply elem_of_cons in Hf as [-> | Hf]; [by eexists |]).
  by apply elem_of_nil in Hf.
Qed.

(** Scenario C: the live block on phase-1 position 1, and the same block
    with the rotation of position 2. *)
Example scenario_C_position_1 :
  let self' := (ThreePhaseMeter.update live_block (three_registered 1)).2 in
  three_published self' "/Ac/L1/Voltage" = Some (VInt 230)
  ∧ three_published self' "/Ac/L2/Voltage" = Some (VInt 231)
  ∧ three_published self' "/Ac/L3/Voltage" = Some (VInt 229)
  ∧ three_published self' "/Ac/Power" = Some (VInt 690).
Proof. vm_compute. repeat split. Qed.

Example scenario_C_position_2 :
  let self' := (ThreePhaseMeter.update live_block (three_registered 2)).2 in
  three_published self' "/Ac/L1/Voltage" = Some (VInt 231)
  ∧ three_published self' "/Ac/L2/Voltage" = Some (VInt 229)
  ∧ three_published self' "/Ac/L3/Voltage" = Some (VInt 230)
  ∧ three_published self' "/Ac/Power" = Some (VInt 690).
Proof. vm_compute. repeat split. Qed.

Example started_is_registered :
  ThreePhaseMeter.phase1position three_started.2 = 1
  ∧ ThreePhaseMeter.destroyed three_started.2 = false
  ∧ (λ s, map_to_list ((λ it, (kind it, text it, onchange it)) <$> objects s)) <$> ThreePhaseMeter.service three_started.2
    = Some (map_to_list ((λ it, (kind it, text it, onchange it)) <$> objects (three_service 1))).
Proof. vm_compute. repeat split. Qed.

(** ** Frames with missing or malformed fields *)

Section malformed_frames.
Context `{PyFloat}.

Lemma published_is_Some svc q :
  is_Some (published svc q) ↔ is_Some (objects svc !! q).
Proof. unfold published. by rewrite fmap_is_Some. Qed.

Lemma three_run_eq ws self :
  three_run ws self =
    match ThreePhaseMeter.service self with
    | Some svc => ThreePhaseMeter.set_service (Some (assign_all ws svc).2) self
    | None => self
    end.
Proof.
  unfold three_run, ThreePhaseMeter.with_service.
  destruct (ThreePhaseMeter.service self) as [svc |]; [| done].
  by destruct (assign_all ws svc).
Qed.

Lemma single_run_eq ws self :
  single_run ws self =
    match SingleMeter.service self with
    | Some svc => SingleMeter.set_service (Some (assign_all ws svc).2) self
    | None => self
    end.
Proof.
  unfold single_run, SingleMeter.with_service.
  destruct (SingleMeter.service self) as [svc |]; [| done].
  by destruct (assign_all ws svc).
Qed.

Lemma three_run_same_points ws self : three_same_points self (three_run ws self).
Proof.
  rewrite three_run_eq. unfold three_same_points, three_published.
  destruct (ThreePhaseMeter.service self) as [svc |] eqn:Hs; [| rewrite ?Hs; by repeat split].
  repeat split; try done; cbn; rewrite !published_is_Some;
    by apply assign_all_registered.
Qed.

Lemma single_run_same_points ws self : single_same_points self (single_run ws self).
Proof.
  rewrite single_run_eq. unfold single_same_points, single_published.
  destruct (SingleMeter.service self) as [svc |] eqn:Hs; [| rewrite ?Hs; by repeat split].
  repeat split; try done; cbn; rewrite !published_is_Some;
    by apply assign_all_registered.
Qed.

Lemma three_run_cut ws1 w ws2 e self q :
  w.2 = Raise e → q ∉ ws1.*1 →
  three_published (three_run (ws1 ++ w :: ws2) self) q = three_published self q.
Proof.
  intros Hw Hq. rewrite three_published_run. unfold three_published.
  destruct (ThreePhaseMeter.service self) as [svc |]; [| done]. cbn.
  rewrite (assign_all_cut _ _ _ _ _ Hw). by apply assign_all_frame.
Qed.

Lemma single_run_cut ws1 w ws2 e self q :
  w.2 = Raise e → q ∉ ws1.*1 →
  single_published (single_run (ws1 ++ w :: ws2) self) q = single_published self q.
Proof.
  intros Hw Hq. rewrite single_published_run. unfold single_published.
  destruct (SingleMeter.service self) as [svc |]; [| done]. cbn.
  rewrite (assign_all_cut _ _ _ _ _ Hw). by apply assign_all_frame.
Qed.

(** C3 (amended): [ThreePhaseMeter.update] never raises, on any frame and
    in any channel state, destroyed or not; [SingleMeter.update] never
    raises on a keyed frame (the channel has no service, or the frame is a
    dict whose [method] is not [NotifyStatus]). The update runs the one
    block that the frame's [helpertag] selects and changes nothing but the
    values of points of the service, so later frames are taken as before.
    A field that is missing or malformed ends its block: when the
    right-hand side of an assignment of the block raises, every point that
    the block has not assigned before it keeps its value. *)
Theorem update_swallows_malformed_fields (data : pyval)
    (s3 : ThreePhaseMeter.t) (s1 : SingleMeter.t) :
  ThreePhaseMeter.update data s3 = (Ok tt, three_run (three_block s3 data) s3)
  ∧ (keyed_frame s1 data →
     SingleMeter.update data s1 = (Ok tt, single_run (single_block s1 data) s1))
  ∧ three_same_points s3 (three_run (three_block s3 data) s3)
  ∧ single_same_points s1 (single_run (single_block s1 data) s1)
  ∧ (∀ ws1 w ws2 e q,
       three_block s3 data = (ws1 ++ w :: ws2)%list → w.2 = Raise e → q ∉ ws1.*1 →
       three_published (three_run (three_block s3 data) s3) q = three_published s3 q)
  ∧ (∀ ws1 w ws2 e q,
       single_block s1 data = (ws1 ++ w :: ws2)%list → w.2 = Raise e → q ∉ ws1.*1 →
       single_published (single_run (single_block s1 data) s1) q = single_published s1 q).
Proof.
  split; [apply three_update_block |].
  split; [apply single_update_block |].
  split; [apply three_run_same_points |].
  split; [apply single_run_same_points |].
  split.
  - intros ws1 w ws2 e q -> Hw Hq. by eapply three_run_cut.
  - intros ws1 w ws2 e q -> Hw Hq. by eapply single_run_cut.
Qed.

End malformed_frames.

(** The frame without [a_voltage] on the channel with phase-1 position 1:
    the block stops at its first assignment, and the current, which the
    frame does carry, is not published. *)
Lemma update_swallows_malformed_fields_no_a_voltage :
  (ThreePhaseMeter.update live_block_no_a_voltage (three_registered 1)).1 = Ok tt
  ∧ three_published
      (ThreePhaseMeter.update live_block_no_a_voltage (three_registered 1)).2
      "/Ac/L1/Current"
    = three_published (three_registered 1) "/Ac/L1/Current".
Proof.
  destruct (update_swallows_malformed_fields live_block_no_a_voltage
              (three_registered 1) (single_registered 1))
    as (Hupd & _ & _ & _ & Hcut & _).
  rewrite Hupd. split; [reflexivity |].
  apply (Hcut [] ("/Ac/L1/Voltage", Raise KeyError)
           (tail (ThreePhaseMeter.live_writes 1 live_block_no_a_voltage)) KeyError).
  - reflexivity.
  - reflexivity.
  - apply not_elem_of_nil.
Defined.

(** C3 as stated fails: the frame carries [a_current] = 5 and lacks only
    [a_voltage], yet after the update the point [/Ac/L1/Current] still
    holds its initial [None]: the fields after the missing one are not
    processed. *)
Lemma missing_field_drops_rest_of_block :
  getitem live_block_no_a_voltage "a_voltage" = Raise KeyError
  ∧ getitem live_block_no_a_voltage "a_current" = Ok (VInt 5)
  ∧ ThreePhaseMeter.phase1position (three_registered 1) = 1
  ∧ three_published
      (ThreePhaseMeter.update live_block_no_a_voltage (three_registered 1)).2
      "/Ac/L1/Current" = Some VNone.
Proof. repeat split; vm_compute; reflexivity. Qed.

(** ** The aggregate power, as published *)

Section published_power.
Context `{PyFloat}.

(** A block in which a right-hand side raises does not reach the
    assignment that follows it. *)
Lemma three_run_stops ws q r self :
  Exists (λ w, ∃ e, w.2 = Raise e) ws → q ∉ ws.*1 →
  three_published (three_run (ws ++ [(q, r)]) self) q = three_published self q.
Proof.
  intros (w & Hin & e & Hw)%Exists_exists Hq.
  apply list_elem_of_split in Hin as (l1 & l2 & ->).
  rewrite <- app_assoc. cbn [app].
  apply (three_run_cut l1 w (l2 ++ [(q, r)]) e self q Hw).
  rewrite fmap_app in Hq. set_solver.
Qed.

(** C4 (amended): on a frame tagged [em:...], for every phase-1 position
    [p] in {1,2,3}. When the channel's service has the ten points of the
    live block, the frame carries all nine live fields, and the sum
    [a_act_power + b_act_power + c_act_power] of the physical fields,
    taken in that order, has a value, then that value is what
    [/Ac/Power] publishes after the update: nothing rotated enters it.
    When one of the nine live fields is missing, the update does not
    reach the assignment to [/Ac/Power], which keeps the value it had,
    also when the three power fields are all present. *)
Theorem complete_block_publishes_power_sum (p : Z) (self : ThreePhaseMeter.t)
    (data : pyval) (tag : string) :
  1 ≤ p ≤ 3 →
  ThreePhaseMeter.phase1position self = p →
  getitem data "helpertag" = Ok (VStr tag) →
  String.prefix "em:" tag = true →
  let self' := (ThreePhaseMeter.update data self).2 in
  (∀ svc a b c ab v,
     ThreePhaseMeter.service self = Some svc →
     (∀ q, q ∈ live_paths → is_Some (objects svc !! q)) →
     (∀ f, f ∈ live_fields → ∃ x, getitem data f = Ok x) →
     getitem data "a_act_power" = Ok a →
     getitem data "b_act_power" = Ok b →
     getitem data "c_act_power" = Ok c →
     py_add a b = Ok ab → py_add ab c = Ok v →
     three_published self' "/Ac/Power" = Some v)
  ∧ (∀ f, f ∈ live_fields → getitem data f = Raise KeyError →
     three_published self' "/Ac/Power" = three_published self "/Ac/Power").
Proof.
  intros Hp Hself Htag Hlive self'. subst self'.
  rewrite three_update_block. cbn [snd].
  rewrite (three_block_live self data tag Htag Hlive), Hself.
  split.
  - intros svc a b c ab v Hsvc Hreg Hfields Ha Hb Hc Hab Habc.
    rewrite three_published_run, Hsvc. cbn [mbind option_bind].
    destruct (live_block_complete p data Hp Hfields) as (ws & -> & Hpaths & Hok).
    rewrite (sum3_power _ _ _ _ Ha Hb Hc), Hab. cbn [res_bind]. rewrite Habc.
    apply assign_all_last.
    + apply Forall_forall. intros w Hw. split.
      * apply Hreg. unfold live_paths.
        assert (w.1 ∈ ws.*1) as Hin by (apply list_elem_of_fmap; eauto).
        rewrite Hpaths in Hin. set_solver.
      * by apply (proj1 (Forall_forall _ _) Hok).
    + apply Hreg. unfold live_paths. set_solver.
  - intros f Hf Hmiss.
    assert (∃ l1 l2 l3, rotation p = Ok [l1; l2; l3]) as (l1 & l2 & l3 & Hrot)
      by (destruct (rotation_cases p Hp) as [-> | [-> | ->]]; by do 3 eexists).
    rewrite (live_writes_by_rotation p data l1 l2 l3 Hrot).
    match goal with
    | |- context [three_run (?w1 :: ?w2 :: ?w3 :: ?w4 :: ?w5 :: ?w6 :: ?w7 :: ?w8 :: ?w9 :: [?w10])] =>
        change (w1 :: w2 :: w3 :: w4 :: w5 :: w6 :: w7 :: w8 :: w9 :: [w10])
          with ((w1 :: w2 :: w3 :: w4 :: w5 :: w6 :: w7 :: w8 :: [w9]) ++ [w10])%list
    end.
    apply three_run_stops; [| cbn; set_solver].
    unfold live_fields in Hf.
    destruct (rotation_values p l1 l2 l3 Hp Hrot)
      as [(-> & -> & ->) | [(-> & -> & ->) | (-> & -> & ->)]];
      cbv [String.append];
      repeat (apply elem_of_cons in Hf as [-> | Hf];
              [repeat first [ solve [apply Exists_cons_hd; eexists; exact Hmiss]
                            | apply Exists_cons_tl ] |]);
      by apply elem_of_nil in Hf.
Qed.

End published_power.

(** Scenario C on phase-1 position 2 publishes 690; the frame without
    [a_voltage] leaves [/Ac/Power] as it was. *)
Lemma complete_block_publishes_power_sum_scenario :
  three_published (ThreePhaseMeter.update live_block (three_registered 2)).2 "/Ac/Power"
    = Some (VInt 690)
  ∧ three_published
      (ThreePhaseMeter.update live_block_no_a_voltage (three_registered 2)).2 "/Ac/Power"
    = three_published (three_registered 2) "/Ac/Power".
Proof.
  split.
  - apply (proj1 (complete_block_publishes_power_sum 2 (three_registered 2) live_block
                    "em:0" ltac:(lia) eq_refl eq_refl eq_refl)
             (three_service 2) (VInt 230) (VInt 231) (VInt 229) (VInt 461) (VInt 690)).
    + reflexivity.
    + apply three_service_live_paths.
    + apply live_block_fields.
    + reflexivity.
    + reflexivity.
    + reflexivity.
    + reflexivity.
    + reflexivity.
  - apply (proj2 (complete_block_publishes_power_sum 2 (three_registered 2)
                    live_block_no_a_voltage "em:0" ltac:(lia) eq_refl eq_refl eq_refl)
             "a_voltage").
    + unfold live_fields. apply list_elem_of_here.
    + reflexivity.
Defined.

(** C4 as stated fails: a frame carries the three power fields 1, 2 and
    3 but not [a_voltage]; on a channel that published 690 before,
    [/Ac/Power] still reads 690 after the update, not 6. *)
Lemma stale_power_after_incomplete_block :
  let running := (ThreePhaseMeter.update live_block (three_registered 2)).2 in
  let self' := (ThreePhaseMeter.update live_block_low_power running).2 in
  getitem live_block_low_power "a_act_power" = Ok (VInt 1)
  ∧ getitem live_block_low_power "b_act_power" = Ok (VInt 2)
  ∧ getitem live_block_low_power "c_act_power" = Ok (VInt 3)
  ∧ ThreePhaseMeter.phase1position running = 2
  ∧ three_published running "/Ac/Power" = Some (VInt 690)
  ∧ three_published self' "/Ac/Power" = Some (VInt 690).
Proof. vm_compute. repeat split. Qed.

(** The leftover [NotifyStatus] part of [SingleMeter.update] is not
    guarded: on a channel with a service, a notification whose [em:0]
    block lacks a field raises KeyError. *)
Lemma single_update_notify_raises :
  (SingleMeter.update notify_empty_block (single_registered 1)).1 = Raise KeyError.
Proof. vm_compute. reflexivity. Qed.

(** ** A phase change on a running single-phase channel *)

Section phase_change.
Context `{PyFloat}.

Lemma add_items_cons p it its svc :
  add_items ((p, it) :: its) svc = add_items its (add_item p it svc).
Proof. reflexivity. Qed.










End phase_change.

(** Before any phase change a live block tagged [em:0] is published
    under the channel's phase; the same block under the router's tag
    [em1:0] selects no block. *)
Example single_live_block_published :
  single_published
    (SingleMeter.update (single_live_block "em:0") (single_registered 1)).2
    "/Ac/L1/Voltage" = Some (VInt 230)
  ∧ single_published
      (SingleMeter.update (single_live_block "em1:0") (single_registered 1)).2
      "/Ac/L1/Voltage" = Some VNone.
Proof. vm_compute. split; reflexivity. Qed.


(** ** Starting channels *)

Section wp_rules.
Context {S : Type}.

Lemma wp_ret {A} (a : A) (Q : res A → S → Prop) s :
  Q (Ok a) s → wp (ret a) Q s.
Proof. done. Qed.

Lemma wp_raise {A} e (Q : res A → S → Prop) s :
  Q (Raise e) s → wp (raise e) Q s.
Proof. done. Qed.

Lemma wp_lift {A} (r : res A) (Q : res A → S → Prop) s :
  Q r s → wp (lift r) Q s.
Proof. done. Qed.

Lemma wp_get (Q : res S → S → Prop) s : Q (Ok s) s → wp get Q s.
Proof. done. Qed.

Lemma wp_put s' (Q : res unit → S → Prop) s : Q (Ok tt) s' → wp (put s') Q s.
Proof. done. Qed.

Lemma wp_modify f (Q : res unit → S → Prop) s :
  Q (Ok tt) (f s) → wp (modify f) Q s.
Proof. done. Qed.

Lemma wp_bind {A B} (m : M S A) (k : A → M S B) (Q : res B → S → Prop) s :
  wp m (λ r s', match r with
                | Ok a => wp (k a) Q s'
                | Raise e => Q (Raise e) s'
                end) s →
  wp (bind m k) Q s.
Proof. unfold wp, bind. by destruct (m s) as [[a | e] s']. Qed.

Lemma wp_try_KeyError {A B} (body : M S A) (handler : M S B) (cont : A → M S B)
    (Q : res B → S → Prop) s :
  wp body (λ r s', match r with
                   | Ok a => wp (cont a) Q s'
                   | Raise KeyError => wp handler Q s'
                   | Raise e => Q (Raise e) s'
                   end) s →
  wp (try_KeyError body handler cont) Q s.
Proof. unfold wp, try_KeyError. by destruct (body s) as [[a | []] s']. Qed.

Lemma wp_try_any {A B} (body : M S A) (handler : M S B) (cont : A → M S B)
    (Q : res B → S → Prop) s :
  wp body (λ r s', match r with
                   | Ok a => wp (cont a) Q s'
                   | Raise _ => wp handler Q s'
                   end) s →
  wp (try_any body handler cont) Q s.
Proof. unfold wp, try_any. by destruct (body s) as [[a | e] s']. Qed.

Lemma wp_zoom {T A} (proj : S → T) (upd : T → S → S) (m : M T A)
    (Q : res A → S → Prop) s :
  wp m (λ r t', Q r (upd t' s)) (proj s) → wp (zoom proj upd m) Q s.
Proof. unfold wp, zoom. by destruct (m (proj s)). Qed.

End wp_rules.

(** One step of a [wp] goal. *)
Ltac wp_step :=
  lazymatch goal with
  | |- wp (bind _ _) _ _ => apply wp_bind
  | |- wp (ret _) _ _ => apply wp_ret
  | |- wp (raise _) _ _ => apply wp_raise
  | |- wp (unbound_name _) _ _ => apply wp_raise
  | |- wp (lift _) _ _ => apply wp_lift
  | |- wp get _ _ => apply wp_get
  | |- wp (put _) _ _ => apply wp_put
  | |- wp (modify _) _ _ => apply wp_modify
  | |- wp (try_KeyError _ _ _) _ _ => apply wp_try_KeyError
  | |- wp (try_any _ _ _) _ _ => apply wp_try_any
  | |- wp (zoom _ _ _) _ _ => apply wp_zoom
  | |- wp (SingleMeter.on_self _) _ _ => apply wp_zoom
  | |- wp (ThreePhaseMeter.on_self _) _ _ => apply wp_zoom
  | |- wp (PhysicalMeter.on_self _) _ _ => apply wp_zoom
  | |- wp (if ?b then _ else _) _ _ => destruct b eqn:?
  | |- wp (match ?x with _ => _ end) _ _ => destruct x eqn:?
  | |- match ?x with _ => _ end => destruct x eqn:?
  end.

Ltac wp_simpl :=
  cbv beta iota zeta delta
    [fst snd settings_service
     SingleMeter.set_monitor SingleMeter.set_service SingleMeter.set_phaseposition
     SingleMeter.set_destroyed
     SingleMeter.monitor SingleMeter.service SingleMeter.destroyed
     SingleMeter.bus_type SingleMeter.position SingleMeter.meterid
     SingleMeter.phaseposition
     ThreePhaseMeter.set_monitor ThreePhaseMeter.set_service
     ThreePhaseMeter.set_phase1position ThreePhaseMeter.set_destroyed
     ThreePhaseMeter.monitor ThreePhaseMeter.service ThreePhaseMeter.destroyed
     ThreePhaseMeter.bus_type ThreePhaseMeter.position
     ThreePhaseMeter.phase1position].

Section channel_start.
Context `{PyFloat}.

(** [SingleMeter.start] never returns True — the only path to
    [return True] goes through the unbound name — and whatever its
    outcome it leaves the flag, the service and the index of the channel
    as they were. *)
Lemma single_start_outcome host port data e m :
  wp (SingleMeter.start host port data)
     (λ r s', r ≠ Ok true
              ∧ SingleMeter.destroyed s'.2 = SingleMeter.destroyed m
              ∧ SingleMeter.service s'.2 = SingleMeter.service m
              ∧ SingleMeter.meterid s'.2 = SingleMeter.meterid m)
     (e, m).
Proof.
  destruct m as [bt mon svc pos d mid ph].
  unfold SingleMeter.start, SingleMeter.wait_for_settings.
  repeat (wp_step; wp_simpl); done.
Qed.

(** [ThreePhaseMeter.start] leaves the flag as it was; it returns True
    with a service published, and False with the service untouched. *)
Lemma three_start_outcome host port data e m :
  wp (ThreePhaseMeter.start host port data)
     (λ r s', ThreePhaseMeter.destroyed s'.2 = ThreePhaseMeter.destroyed m
              ∧ (r = Ok true → is_Some (ThreePhaseMeter.service s'.2))
              ∧ (r = Ok false →
                 ThreePhaseMeter.service s'.2 = ThreePhaseMeter.service m))
     (e, m).
Proof.
  destruct m as [bt mon svc pos d ph].
  unfold ThreePhaseMeter.start, ThreePhaseMeter.wait_for_settings.
  repeat (wp_step; wp_simpl); try done; by eauto.
Qed.

End channel_start.

(** ** Classification: [PhysicalMeter.start] *)

Section classification.
Context `{PyFloat}.

Import PhysicalMeter.

Lemma wp_at_meter {A} (meter : Z) (m : M (Env * channel) A)
    (Q : res A → Env * PhysicalMeter.t → Prop) e self c :
  dict_lookup meter (localmeters self) = Some c →
  wp m (λ r s', Q r (s'.1, set_localmeters
                             (dict_store meter s'.2 (localmeters self)) self))
     (e, c) →
  wp (at_meter meter m) Q (e, self).
Proof.
  intros Hc. unfold wp, at_meter. rewrite Hc.
  by destruct (m (e, c)) as [r [e' c']].
Qed.

Lemma wp_channel_start_single host port data
    (Q : res bool → Env * channel → Prop) e m :
  wp (SingleMeter.start host port data) (λ r s', Q r (s'.1, Single s'.2)) (e, m) →
  wp (channel_start host port data) Q (e, Single m).
Proof.
  unfold wp, channel_start.
  by destruct (SingleMeter.start host port data (e, m)) as [r [e' m']].
Qed.

Lemma wp_channel_start_three host port data
    (Q : res bool → Env * channel → Prop) e m :
  wp (ThreePhaseMeter.start host port data) (λ r s', Q r (s'.1, Three s'.2)) (e, m) →
  wp (channel_start host port data) Q (e, Three m).
Proof.
  unfold wp, channel_start.
  by destruct (ThreePhaseMeter.start host port data (e, m)) as [r [e' m']].
Qed.

Lemma wp_mono {S A} (m : M S A) (Q Q' : res A → S → Prop) s :
  wp m Q s → (∀ r s', Q r s' → Q' r s') → wp m Q' s.
Proof. unfold wp. auto. Qed.

Ltac group_simpl :=
  cbv beta iota zeta delta
    [fst snd negb PhysicalMeter.set_destroyed PhysicalMeter.set_localmeters
     PhysicalMeter.set_localmeterskeys PhysicalMeter.destroyed
     PhysicalMeter.localmeters PhysicalMeter.localmeterskeys
     PhysicalMeter.bus_type PhysicalMeter.init];
  cbn [PhysicalMeter.dict_store PhysicalMeter.dict_lookup Z.eqb Pos.eqb].

(** The loop over the single-phase channels, entered on a group without
    channels: it ends at channel 0, whose [start] cannot return True. *)
Lemma start_single_loop host port data e bt (n : nat) :
  wp (do r <- for_return (py_range (S n)) (start_single host port data);
      match r with Some v => ret v | None => ret VNone end)
     single_post (e, PhysicalMeter.init bt).
Proof.
  unfold single_post.
  change (py_range (S n)) with (0 :: (Z.of_nat <$> seq 1 n)).
  cbn [for_return]. unfold start_single.
  repeat (wp_step; group_simpl).
  eapply (wp_at_meter 0); [reflexivity |].
  apply wp_channel_start_single.
  eapply wp_mono; [apply single_start_outcome |].
  intros r [e' m'] (Hr & Hd & Hs & Hm). group_simpl. cbn in Hd, Hs, Hm.
  destruct r as [[] | err]; [done | |].
  - repeat (wp_step; group_simpl). cbn.
    split; [by eauto |]. eauto.
  - cbn. split; [by eauto |]. eauto.
Qed.


Lemma start_outcome host port data e bt :
  wp (PhysicalMeter.start host port data)
     (λ r s', match classify data with
              | Ok Rejected => none_post e bt r s'
              | Ok (SingleLoop _) => single_post r s'
              | Ok ThreeOne => three_post r s'
              | Raise err => s' = (e, PhysicalMeter.init bt) ∧ r = Raise err
              end)
     (e, PhysicalMeter.init bt).
Proof.
  unfold PhysicalMeter.start, classify.
  apply wp_try_KeyError, wp_bind, wp_lift.
  destruct (result_field data "model") as [model | []]; try done.
  apply wp_bind, wp_lift.
  destruct (result_field data "app") as [app | []]; try done.
  apply wp_ret, wp_bind, wp_try_any, wp_lift.
  assert (∀ Q : res pyval → Env * PhysicalMeter.t → Prop,
            (∀ nm, Q (Ok nm) (e, PhysicalMeter.init bt)) →
            match result_field data "name" with
            | Ok a => wp (ret a) Q (e, PhysicalMeter.init bt)
            | Raise _ => wp (ret VNone) Q (e, PhysicalMeter.init bt)
            end) as Hname by (intros Q HQ; destruct (result_field data "name"); apply HQ).
  apply Hname. intros nm. clear Hname.
  destruct (eq_str model "SPEM-002CEBEU50" && eq_str app "ProEM").
  { apply (start_single_loop host port data e bt 1). }
  destruct (eq_str model "SPEM-003CEBEU" && eq_str app "Pro3EM"); [| done].
  apply wp_try_KeyError, wp_lift.
  destruct (result_field data "profile") as [profile | []]; try done.
  destruct (eq_str profile "monophase").
  { apply (start_single_loop host port data e bt 2). }
  unfold three_post.
  repeat (wp_step; group_simpl).
  eapply (wp_at_meter 0); [reflexivity |].
  apply wp_channel_start_three.
  eapply wp_mono; [apply three_start_outcome |].
  intros r [e' m'] (Hd & Hs1 & Hs2). group_simpl. cbn in Hd, Hs1, Hs2.
  destruct r as [[] | err].
  - repeat (wp_step; group_simpl). cbn. split; [| done].
    exists m'. split; [done |]. split; [done |]. left. auto.
  - repeat (wp_step; group_simpl). cbn. split; [| done].
    exists m'. split; [done |]. split; [done |]. right. left. auto.
  - cbn. split; [| done].
    exists m'. split; [done |]. split; [done |]. right. right. eauto.
Qed.





End classification.

Section classification_claims.
Context `{PyFloat}.
Import PhysicalMeter.

Lemma dict_lookup_singleton {A} (k : Z) (x c : A) :
  dict_lookup k [(0, x)] = Some c → k = 0 ∧ c = x.
Proof.
  cbn. destruct (k =? 0) eqn:Hk; [| done].
  intros [= ->]. split; [lia | done].
Qed.


(** C8 (amended): on a handshake of the three-line device (model
    SPEM-003CEBEU, app Pro3EM), run on a fresh group: without a [profile]
    field [start] returns False and creates no channel; with a [profile]
    other than ["monophase"] it creates exactly one channel, a three-phase
    one at index 0 bound to the keys [em:0] and [emdata:0]; with
    [profile] equal to ["monophase"] every channel it creates is a
    single-phase one that carries its index [i] and is bound to the keys
    [em1:<i>] and [em1data:<i>]. *)
Theorem three_line_classification (e : Env) (bt : BusType)
    (host : string) (port : Z) (data : pyval) :
  result_field data "model" = Ok (VStr "SPEM-003CEBEU") →
  result_field data "app" = Ok (VStr "Pro3EM") →
  let out := PhysicalMeter.start host port data (e, PhysicalMeter.init bt) in
  (result_field data "profile" = Raise KeyError →
     out = (Ok (VBool false), (e, PhysicalMeter.init bt)))
  ∧ (∀ profile,
       result_field data "profile" = Ok profile →
       eq_str profile "monophase" = false →
       (∃ m, localmeters out.2.2 = [(0, Three m)])
       ∧ localmeterskeys out.2.2 = [(0, ["em:0"; "emdata:0"])])
  ∧ (result_field data "profile" = Ok (VStr "monophase") →
       ∀ i c, dict_lookup i (localmeters out.2.2) = Some c →
         (∃ m, c = Single m ∧ SingleMeter.meterid m = i)
         ∧ dict_lookup i (localmeterskeys out.2.2)
           = Some ["em1:" ++ str_int i; "em1data:" ++ str_int i]).
Proof.
  intros Hmodel Happ out. subst out.
  pose proof (start_outcome host port data e bt) as Hout. unfold wp in Hout.
  unfold classify in Hout. rewrite Hmodel, Happ in Hout.
  cbn [eq_str String.eqb Ascii.eqb Bool.eqb andb] in Hout.
  destruct (PhysicalMeter.start host port data (e, PhysicalMeter.init bt))
    as [r [e' g]].
  cbn [fst snd] in *.
  split; [| split].
  - intros Hp. rewrite Hp in Hout. by destruct Hout as [[= -> ->] ->].
  - intros profile Hp Hmono. rewrite Hp, Hmono in Hout.
    unfold three_post in Hout. cbn [fst snd] in Hout.
    destruct Hout as ((m & Hm & _) & Hk & _). eauto.
  - intros Hp. rewrite Hp in Hout. cbn in Hout.
    unfold single_post in Hout. cbn [fst snd] in Hout.
    destruct Hout as ((m & Hm & _ & _ & Hid) & Hk & _).
    rewrite Hm, Hk. intros i c [-> ->]%dict_lookup_singleton.
    split; [by eauto | done].
Qed.

(** The sweep at the head of [PhysicalMeter.update] walks the keys of
    [localmeters]: on a group that holds a channel it raises at the first
    key, before anything is destroyed or routed. *)
Lemma group_update_raises data g k c rest :
  localmeters g = (k, c) :: rest →
  PhysicalMeter.update data g = (Raise AttributeError, g).
Proof.
  intros Hl. unfold PhysicalMeter.update. run_monad. rewrite Hl. reflexivity.
Qed.

Lemma group_destroy_raises g k c rest :
  localmeters g = (k, c) :: rest →
  PhysicalMeter.destroy g = (Raise AttributeError, g).
Proof.
  intros Hl. unfold PhysicalMeter.destroy. run_monad. rewrite Hl. reflexivity.
Qed.

End classification_claims.

(** C1: on the group whose channel 0 is destroyed and whose channel 1 is
    healthy, [PhysicalMeter.update] raises AttributeError at the sweep
    (the loop variable is a key of [localmeters], an int), the group's
    [destroyed] flag stays false and channel 1 stays undestroyed. The
    claim asks for a normal return with the whole group destroyed. *)
Theorem group_update_raises_on_destroyed_channel :
  PhysicalMeter.channel_destroyed
    <$> PhysicalMeter.dict_lookup 0 (PhysicalMeter.localmeters group_with_destroyed_channel)
    = Some true
  ∧ (PhysicalMeter.update notify_channel_1 group_with_destroyed_channel).1
    = Raise AttributeError
  ∧ PhysicalMeter.destroyed
      (PhysicalMeter.update notify_channel_1 group_with_destroyed_channel).2 = false
  ∧ PhysicalMeter.channel_destroyed
      <$> PhysicalMeter.dict_lookup 1
            (PhysicalMeter.localmeters
               (PhysicalMeter.update notify_channel_1 group_with_destroyed_channel).2)
    = Some false.
Proof.
  rewrite (group_update_raises notify_channel_1 group_with_destroyed_channel
             0 (PhysicalMeter.Single destroyed_channel)
             [(1, PhysicalMeter.Single healthy_channel)] eq_refl).
  repeat split.
Qed.

(** C9: on the handshake of the two-channel device with every identity
    field present and localsettings reachable, [PhysicalMeter.start]
    raises NameError out of the [start] of channel 0 and leaves one
    channel in the group. The claim asks for two channels and a boolean
    return. *)
Theorem two_channel_start_raises :
  let out := PhysicalMeter.start "192.168.1.20" 80 Examples.handshake_two
               (Examples.env_up, PhysicalMeter.init SYSTEM) in
  out.1 = Raise NameError
  ∧ length (PhysicalMeter.localmeters out.2.2) = 1%nat.
Proof. vm_compute. split; reflexivity. Qed.


(** The three-line handshake with profile ["triphase"]. *)
Lemma three_line_classification_triphase :
  let out := PhysicalMeter.start "192.168.1.20" 80 Examples.handshake_three
               (Examples.env_up, PhysicalMeter.init SYSTEM) in
  (∃ m, PhysicalMeter.localmeters out.2.2 = [(0, PhysicalMeter.Three m)])
  ∧ PhysicalMeter.localmeterskeys out.2.2 = [(0, ["em:0"; "emdata:0"])].
Proof.
  intros out.
  apply (proj1 (proj2 (three_line_classification Examples.env_up SYSTEM
                         "192.168.1.20" 80 Examples.handshake_three
                         eq_refl eq_refl))
           (VStr "triphase")).
  - reflexivity.
  - reflexivity.
Defined.

(** The three-line handshake with profile ["monophase"]: the loop stops
    at channel 0, whose [start] accepts no model but SPEM-002CEBEU50 and
    returns False. *)
Example monophase_start_stops_at_channel_0 :
  let out := PhysicalMeter.start "192.168.1.20" 80 Examples.handshake_three_mono
               (Examples.env_up, PhysicalMeter.init SYSTEM) in
  out.1 = Ok (VBool false)
  ∧ length (PhysicalMeter.localmeters out.2.2) = 1%nat.
Proof. vm_compute. split; reflexivity. Qed.

(** C8 as stated fails: the three-line handshake without a [profile]
    field is rejected and no channel is created. *)
Lemma three_line_without_profile_rejected :
  let out := PhysicalMeter.start "192.168.1.20" 80 Examples.handshake_three_noprofile
               (Examples.env_up, PhysicalMeter.init SYSTEM) in
  result_field Examples.handshake_three_noprofile "profile" = Raise KeyError
  ∧ out.1 = Ok (VBool false)
  ∧ length (PhysicalMeter.localmeters out.2.2) = 0%nat.
Proof. vm_compute. repeat split. Qed.

(** * Further properties *)

(** One step of a [wp] goal along the path that the hypotheses fix: no
    case analysis. *)
Ltac wp_go :=
  lazymatch goal with
  | |- wp (bind _ _) _ _ => apply wp_bind
  | |- wp (ret _) _ _ => apply wp_ret
  | |- wp (raise _) _ _ => apply wp_raise
  | |- wp (unbound_name _) _ _ => apply wp_raise
  | |- wp (lift _) _ _ => apply wp_lift
  | |- wp get _ _ => apply wp_get
  | |- wp (put _) _ _ => apply wp_put
  | |- wp (modify _) _ _ => apply wp_modify
  | |- wp (try_KeyError _ _ _) _ _ => apply wp_try_KeyError
  | |- wp (zoom _ _ _) _ _ => apply wp_zoom
  | |- wp (SingleMeter.on_self _) _ _ => apply wp_zoom
  | |- wp (ThreePhaseMeter.on_self _) _ _ => apply wp_zoom
  end;
  cbv beta iota;
  cbn [fst snd settings_service
       SingleMeter.set_monitor SingleMeter.set_service SingleMeter.set_phaseposition
       SingleMeter.set_destroyed
       SingleMeter.monitor SingleMeter.service SingleMeter.destroyed
       SingleMeter.bus_type SingleMeter.position SingleMeter.meterid
       SingleMeter.phaseposition
       ThreePhaseMeter.set_monitor ThreePhaseMeter.set_service
       ThreePhaseMeter.set_phase1position ThreePhaseMeter.set_destroyed
       ThreePhaseMeter.monitor ThreePhaseMeter.service ThreePhaseMeter.destroyed
       ThreePhaseMeter.bus_type ThreePhaseMeter.position
       ThreePhaseMeter.phase1position].

(** Membership in a list that is written out. *)
Ltac in_list :=
  solve [repeat first [apply list_elem_of_here | apply list_elem_of_further]].

(** ** Reading the combined role and instance value *)

Section role_instance_format.
Context `{PyFloat}.

Lemma split_on_lacks c s : lacks c s = true → split_on c s = [s].
Proof.
  induction s as [| a s IH]; [done |]. cbn -[Ascii.eqb].
  intros [Ha Hs]%andb_true_iff. apply negb_true_iff in Ha. rewrite Ha.
  by rewrite (IH Hs).
Qed.

Lemma lacks_split_on c s : split_on c s = [s] → lacks c s = true.
Proof.
  induction s as [| a s IH]; [done |]. cbn -[Ascii.eqb].
  destruct (Ascii.eqb a c); [done |].
  destruct (split_on c s) as [| piece pieces] eqn:Hs.
  - intros [= Hnil]. by destruct s.
  - intros [= -> ->]. by rewrite IH.
Qed.

Lemma string_app_cons a (r s : string) : String a r ++ s = String a (r ++ s).
Proof. reflexivity. Qed.

Lemma split_on_field c r rest :
  lacks c r = true → split_on c (r ++ String c rest) = r :: split_on c rest.
Proof.
  induction r as [| a r IH].
  - intros _. change ("" ++ String c rest) with (String c rest).
    cbn -[Ascii.eqb]. by rewrite Ascii.eqb_refl.
  - rewrite string_app_cons. cbn -[Ascii.eqb].
    intros [Ha Hr]%andb_true_iff. apply negb_true_iff in Ha. rewrite Ha.
    by rewrite (IH Hr).
Qed.

Lemma str_int_lacks_colon n : lacks ":" (str_int n) = true.
Proof. apply lacks_split_on, str_int_no_colon. Qed.

Lemma string_app_empty_r (s : string) : s ++ "" = s.
Proof.
  induction s as [| a s IH]; [done |]. by rewrite string_app_cons, IH.
Qed.

(** A field that is followed by nothing, or by further fields. *)
Lemma split_on_first c f tail :
  lacks c f = true →
  tail = "" ∨ (∃ t, tail = String c t) →
  ∃ more, split_on c (f ++ tail) = f :: more.
Proof.
  intros Hf [-> | [t ->]].
  - exists []. by rewrite string_app_empty_r, split_on_lacks.
  - eexists. by apply split_on_field.
Qed.

Lemma role_instance_fields r f tail :
  lacks ":" r = true → lacks ":" f = true →
  tail = "" ∨ (∃ t, tail = String ":" t) →
  role_instance (VStr (r ++ ":" ++ f ++ tail)) =
    match int_str f with
    | Some n => Ok (r, n)
    | None => Raise ValueError
    end.
Proof.
  intros Hr Hf Htail. unfold role_instance.
  change (r ++ ":" ++ f ++ tail) with (r ++ String ":" (f ++ tail)).
  rewrite split_on_field by done.
  destruct (split_on_first ":" f tail Hf Htail) as [more ->]. done.
Qed.

End role_instance_format.

(** X1: [role_instance] reads back what [role_changed] writes: for a
    role [r] without a colon and an int [n], the value [r:str(n)] — alone
    or followed by further colon-separated fields, which are ignored —
    splits into the role [r] and the instance [n]. *)
Theorem role_instance_reads_written_value `{PyFloat} (r tail : string) (n : Z) :
  lacks ":" r = true →
  tail = "" ∨ (∃ t, tail = String ":" t) →
  role_instance (VStr (r ++ ":" ++ str_int n ++ tail)) = Ok (r, n).
Proof.
  intros Hr Htail.
  rewrite role_instance_fields by auto using str_int_lacks_colon.
  by rewrite int_str_str_int.
Qed.

Lemma role_instance_reads_written_value_genset :
  role_instance (VStr "genset:-7:spare") = Ok ("genset", -7).
Proof.
  apply (role_instance_reads_written_value "genset" ":spare" (-7)).
  - reflexivity.
  - right. by exists "spare".
Defined.

(** X2: the values that [role_instance] cannot read. A value that is
    not a string has no [split] (AttributeError); a string without a colon
    has no second field (IndexError); an empty second field is not an int
    (ValueError). *)
Theorem role_instance_malformed `{PyFloat} :
  (∀ v, (∀ s, v ≠ VStr s) → role_instance v = Raise AttributeError)
  ∧ (∀ s, lacks ":" s = true → role_instance (VStr s) = Raise IndexError)
  ∧ (∀ r tail, lacks ":" r = true →
       tail = "" ∨ (∃ t, tail = String ":" t) →
       role_instance (VStr (r ++ ":" ++ tail)) = Raise ValueError).
Proof.
  split; [| split].
  - intros v Hv. destruct v; try done. by destruct (Hv s).
  - intros s Hs. unfold role_instance. by rewrite split_on_lacks.
  - intros r tail Hr Htail.
    apply (role_instance_fields r "" tail Hr eq_refl Htail).
Qed.

Lemma role_instance_malformed_values :
  role_instance VNone = Raise AttributeError
  ∧ role_instance (VStr "grid") = Raise IndexError
  ∧ role_instance (VStr "grid:") = Raise ValueError.
Proof.
  destruct (role_instance_malformed (H:=Float64)) as (Hv & Hs & He).
  split; [| split].
  - by apply Hv.
  - by apply Hs.
  - apply (He "grid" ""); [done | by left].
Defined.

(** ** Starting a three-phase channel *)

Section settings_registration.
Context `{PyFloat}.

Lemma add_setting_store st h sto path :
  (add_setting st (h, sto)).2 !! path =
    match sto !! path with
    | Some v => Some v
    | None => if bool_decide (s_path st = path) then Some (s_default st) else None
    end.
Proof.
  cbn. destruct (decide (s_path st = path)) as [<- | Hne].
  - rewrite bool_decide_eq_true_2 by done.
    destruct (sto !! s_path st) as [v |] eqn:Hv; [by rewrite Hv |].
    by rewrite lookup_insert_eq.
  - rewrite bool_decide_eq_false_2 by done.
    destruct (sto !! s_path st) as [v |] eqn:Hv.
    + by destruct (sto !! path).
    + rewrite lookup_insert_ne by done. by destruct (sto !! path).
Qed.

Lemma add_setting_aliases st h sto :
  (add_setting st (h, sto)).1 = {| aliases := <[s_alias st := s_path st]> (aliases h) |}.
Proof. reflexivity. Qed.

(** A value that localsettings holds is never replaced by a default. *)
Lemma add_settings_keeps sts h sto path v :
  sto !! path = Some v → (add_settings sts (h, sto)).2 !! path = Some v.
Proof.
  revert h sto. induction sts as [| st sts IH]; intros h sto Hv; [done |].
  unfold add_settings. cbn [foldl]. 
  destruct (add_setting st (h, sto)) as [h1 sto1] eqn:Hst.
  apply IH. replace sto1 with (add_setting st (h, sto)).2 by (by rewrite Hst).
  by rewrite add_setting_store, Hv.
Qed.

Lemma add_settings_cons st sts h sto :
  add_settings (st :: sts) (h, sto) =
    add_settings sts ((add_setting st (h, sto)).1, (add_setting st (h, sto)).2).
Proof. unfold add_settings. cbn [foldl]. by destruct (add_setting st (h, sto)). Qed.

Lemma add_settings_nil h sto : add_settings [] (h, sto) = (h, sto).
Proof. reflexivity. Qed.

Lemma add_settings_store sts h sto path :
  (add_settings sts (h, sto)).2 !! path =
    match sto !! path with
    | Some v => Some v
    | None => offered_default path sts
    end.
Proof.
  revert h sto. induction sts as [| st sts IH]; intros h sto.
  - cbn. by destruct (sto !! path).
  - rewrite add_settings_cons, IH, add_setting_store. cbn [offered_default].
    destruct (sto !! path); [done |]. by destruct (bool_decide (s_path st = path)).
Qed.

Lemma add_settings_aliases sts h sto :
  aliases (add_settings sts (h, sto)).1 =
    foldl (λ m st, <[s_alias st := s_path st]> m) (aliases h) sts.
Proof.
  revert h sto. induction sts as [| st sts IH]; intros h sto; [done |].
  by rewrite add_settings_cons, IH.
Qed.

Lemma string_app_assoc (a b c : string) : (a ++ b) ++ c = a ++ b ++ c.
Proof.
  induction a as [| x a IH]; [done |].
  by rewrite !string_app_cons, IH.
Qed.

Lemma suffix_decide (p a b : string) :
  bool_decide (p ++ a = p ++ b) = bool_decide (a = b).
Proof. apply bool_decide_ext. split; [apply (inj _) | by intros ->]. Qed.

Lemma wp_eq {S A} (m : M S A) (s : S) (x : res A * S) :
  wp m (λ r s', (r, s') = x) s → m s = x.
Proof. unfold wp. by destruct (m s). Qed.

(** The settings of a three-phase channel after [add_settings]. *)
Lemma three_settings_store mac sto h :
  let prefix := "/Settings/Devices/shelly_" ++ mac in
  let sto' := (add_settings (three_settings mac) (h, sto)).2 in
  sto' !! (prefix ++ "/ClassAndVrmInstance")
    = Some (stored_or (VStr "grid:40") sto (prefix ++ "/ClassAndVrmInstance"))
  ∧ sto' !! (prefix ++ "/Position")
    = Some (stored_or (VInt 0) sto (prefix ++ "/Position"))
  ∧ sto' !! (prefix ++ "/Phase1Position")
    = Some (stored_or (VInt 1) sto (prefix ++ "/Phase1Position")).
Proof.
  intros prefix sto'. subst sto'. rewrite !add_settings_store.
  unfold three_settings, stored_or. cbn [offered_default s_path s_default].
  fold prefix. rewrite !suffix_decide.
  repeat split.
  - by destruct (sto !! _).
  - by destruct (sto !! _).
  - by destruct (sto !! _).
Qed.

(** What a three-phase channel reads through its aliases after
    [add_settings]. *)
Lemma three_settings_read mac sto h :
  let prefix := "/Settings/Devices/shelly_" ++ mac in
  let hs := add_settings (three_settings mac) (h, sto) in
  alias hs.1 "instance" = Some (prefix ++ "/ClassAndVrmInstance")
  ∧ alias hs.1 "position" = Some (prefix ++ "/Position")
  ∧ alias hs.1 "phase1position" = Some (prefix ++ "/Phase1Position")
  ∧ get_value hs.2 (alias hs.1 "instance")
    = stored_or (VStr "grid:40") sto (prefix ++ "/ClassAndVrmInstance")
  ∧ get_value hs.2 (alias hs.1 "position")
    = stored_or (VInt 0) sto (prefix ++ "/Position")
  ∧ get_value hs.2 (alias hs.1 "phase1position")
    = stored_or (VInt 1) sto (prefix ++ "/Phase1Position").
Proof.
  intros prefix hs.
  destruct (three_settings_store mac sto h) as (Hi & Hpos & Hph).
  fold prefix in Hi, Hpos, Hph. fold hs in Hi, Hpos, Hph.
  assert (alias hs.1 "instance" = Some (prefix ++ "/ClassAndVrmInstance")
          ∧ alias hs.1 "position" = Some (prefix ++ "/Position")
          ∧ alias hs.1 "phase1position" = Some (prefix ++ "/Phase1Position"))
    as (Ha1 & Ha2 & Ha3).
  { unfold alias, hs. rewrite add_settings_aliases.
    unfold three_settings. cbn [foldl s_alias s_path].
    rewrite lookup_insert_ne, lookup_insert_ne, lookup_insert_eq by done.
    rewrite lookup_insert_ne, lookup_insert_eq by done.
    by rewrite lookup_insert_eq. }
  rewrite Ha1, Ha2, Ha3. cbn [get_value]. rewrite Hi, Hpos, Hph. done.
Qed.

End settings_registration.

Section three_phase_start.
Context `{PyFloat}.

Lemma three_start_success e self host port data mac fw role inst p :
  three_line_handshake data mac fw →
  three_stored e mac role inst p →
  ThreePhaseMeter.start host port data (e, self) =
    let prefix := "/Settings/Devices/shelly_" ++ mac in
    let hs := add_settings (three_settings mac) ({| aliases := ∅ |}, store e) in
    let e' := set_store (λ _, hs.2) e in
    (Ok true,
     (e',
      {| ThreePhaseMeter.bus_type := ThreePhaseMeter.bus_type self;
         ThreePhaseMeter.monitor := Some {| settings_service := Some hs.1 |};
         ThreePhaseMeter.service :=
           Some (ThreePhaseMeter.publish e' host port role inst
                   (handshake_name data) fw p
                   (stored_or (VInt 0) (store e) (prefix ++ "/Position"))
                   (Service_create (("com.victronenergy." ++ role ++ ".shelly_") ++ mac)));
         ThreePhaseMeter.position := ThreePhaseMeter.position self;
         ThreePhaseMeter.destroyed := ThreePhaseMeter.destroyed self;
         ThreePhaseMeter.phase1position := p |})).
Proof.
  intros (Hmac & Hfw & Hmodel & Happ) (Hup & Hri & Hp).
  cbv zeta in Hri, Hp. cbv zeta.
  set (prefix := "/Settings/Devices/shelly_" ++ mac) in *.
  destruct self as [bt mon svc pos d ph].
  assert (∃ nm, handshake_name data = nm
                ∧ match result_field data "name" with
                  | Ok a => a
                  | Raise _ => VNone
                  end = nm) as (nm & -> & Hname) by (eexists; split; reflexivity).
  match goal with |- _ = ?x => set (X := x) end.
  apply wp_eq.
  unfold ThreePhaseMeter.start, ThreePhaseMeter.wait_for_settings.
  repeat wp_go. rewrite Hmac. repeat wp_go. rewrite Hfw. repeat wp_go. rewrite Hmodel.
  repeat wp_go. rewrite Happ. repeat wp_go. apply wp_try_any. repeat wp_go.
  cbn [eq_str String.eqb Ascii.eqb Bool.eqb andb].
  destruct (three_settings_read mac (store e) {| aliases := ∅ |})
    as (_ & _ & _ & Hv1 & Hv2 & Hv3). fold prefix in Hv1, Hv2, Hv3.
  destruct (result_field data "name") as [a | err]; subst nm.
  - repeat wp_go. rewrite Hup. repeat wp_go. cbn [str_add default]. repeat wp_go.
    change (add_settings _ ?x) with (add_settings (three_settings mac) x).
    rewrite (surjective_pairing (add_settings (three_settings mac) _)).
    repeat wp_go. rewrite Hv1, Hri. repeat wp_go. rewrite Hv3, Hp. repeat wp_go.
    rewrite Hv2. reflexivity.
  - repeat wp_go. rewrite Hup. repeat wp_go. cbn [str_add default]. repeat wp_go.
    change (add_settings _ ?x) with (add_settings (three_settings mac) x).
    rewrite (surjective_pairing (add_settings (three_settings mac) _)).
    repeat wp_go. rewrite Hv1, Hri. repeat wp_go. rewrite Hv3, Hp. repeat wp_go.
    rewrite Hv2. reflexivity.
Qed.

Lemma lookup_add_items (k : string) its svc :
  objects (add_items its svc) !! k =
    match last_item k its with
    | Some it => Some it
    | None => objects svc !! k
    end.
Proof.
  revert svc. induction its as [| [k' it] its IH]; intros svc; [done |].
  rewrite add_items_cons, IH. cbn [last_item].
  destruct (last_item k its); [done |]. cbn.
  destruct (String.eqb_spec k k') as [-> | Hne].
  - by rewrite lookup_insert_eq.
  - by rewrite lookup_insert_ne.
Qed.

Lemma last_item_app k its1 its2 :
  last_item k (its1 ++ its2) =
    match last_item k its2 with
    | Some it => Some it
    | None => last_item k its1
    end.
Proof.
  induction its1 as [| [k' it] its1 IH]; cbn.
  - by destruct (last_item k its2).
  - rewrite IH. by destruct (last_item k its2).
Qed.

Lemma add_items_name its svc : name (add_items its svc) = name svc.
Proof.
  revert svc. induction its as [| [k it] its IH]; intros svc; [done |].
  by rewrite add_items_cons, IH.
Qed.

(** The points that [start] publishes for the identity of the channel. *)
Lemma three_publish_identity e host port role inst nm fw p pos n :
  let svc := ThreePhaseMeter.publish e host port role inst nm fw p pos (Service_create n) in
  name svc = n
  ∧ published svc "/Mgmt/ProcessName" = Some (VStr (MAIN_FILE e))
  ∧ published svc "/Mgmt/ProcessVersion" = Some (VStr (VERSION e))
  ∧ published svc "/Mgmt/Connection"
    = Some (VStr ("WebSocket " ++ host ++ ":" ++ str_int port))
  ∧ published svc "/DeviceInstance" = Some (VInt inst)
  ∧ published svc "/ProductId" = Some (VInt 0xB034)
  ∧ published svc "/ProductName" = Some (VStr "Shelly energy meter")
  ∧ published svc "/FirmwareVersion" = Some fw
  ∧ published svc "/Connected" = Some (VInt 1)
  ∧ published svc "/RefreshTime" = Some (VInt 100)
  ∧ published svc "/AllowedRoles" = Some (VList (VStr <$> allowed_roles))
  ∧ published svc "/Role" = Some (VStr role)
  ∧ published svc "/Phase" = Some (VInt p).
Proof.
  intros svc. subst svc. unfold published, ThreePhaseMeter.publish.
  split.
  { by rewrite add_items_name. }
  rewrite !lookup_add_items. unfold identity_items.
  destruct nm; destruct (String.eqb role "pvinverter"); vm_compute; done.
Qed.

Lemma three_publish_optional e host port role inst nm fw p pos n :
  let svc := ThreePhaseMeter.publish e host port role inst nm fw p pos (Service_create n) in
  published svc "/CustomName" = non_null nm
  ∧ published svc "/Position" = if String.eqb role "pvinverter" then Some pos else None.
Proof.
  intros svc. subst svc. unfold published, ThreePhaseMeter.publish.
  rewrite !lookup_add_items. unfold identity_items.
  destruct nm; destruct (String.eqb role "pvinverter"); vm_compute; done.
Qed.

Lemma three_publish_measurements e host port role inst nm fw p pos n q :
  q ∈ three_measurement_paths →
  published (ThreePhaseMeter.publish e host port role inst nm fw p pos (Service_create n)) q
    = Some VNone.
Proof.
  intros Hq. unfold published, ThreePhaseMeter.publish.
  rewrite lookup_add_items, last_item_app.
  unfold three_measurement_paths in Hq.
  set (its := (totals_items ++ line_items "/Ac/L1" ++ line_items "/Ac/L2"
               ++ line_items "/Ac/L3")%list) in *.
  assert (∃ it, last_item q its = Some it ∧ value it = VNone) as (it & -> & Hit).
  { vm_compute in Hq. set_unfold. destruct_or!; subst q; try done; vm_compute; eauto. }
  by rewrite <- Hit.
Qed.

End three_phase_start.

Section three_phase_start_state.
Context `{PyFloat}.

(** The channel and the settings store after a successful [start]. *)
Lemma three_start_state e self host port data mac fw role inst p :
  three_line_handshake data mac fw →
  three_stored e mac role inst p →
  let prefix := "/Settings/Devices/shelly_" ++ mac in
  let out := ThreePhaseMeter.start host port data (e, self) in
  let hs := add_settings (three_settings mac) ({| aliases := ∅ |}, store e) in
  out.1 = Ok true
  ∧ out.2.1 = set_store (λ _, hs.2) e
  ∧ ThreePhaseMeter.monitor out.2.2 = Some {| settings_service := Some hs.1 |}
  ∧ ThreePhaseMeter.service out.2.2 =
      Some (ThreePhaseMeter.publish out.2.1 host port role inst
              (handshake_name data) fw p
              (stored_or (VInt 0) (store e) (prefix ++ "/Position"))
              (Service_create (("com.victronenergy." ++ role ++ ".shelly_") ++ mac)))
  ∧ ThreePhaseMeter.destroyed out.2.2 = ThreePhaseMeter.destroyed self
  ∧ ThreePhaseMeter.phase1position out.2.2 = p.
Proof.
  intros Hd He prefix out hs. subst out.
  rewrite (three_start_success e self host port data mac fw role inst p Hd He).
  cbv zeta. cbn [fst snd ThreePhaseMeter.monitor ThreePhaseMeter.service
                 ThreePhaseMeter.destroyed ThreePhaseMeter.phase1position].
  repeat split.
Qed.

End three_phase_start_state.

(** X3: a three-phase channel started on a handshake of the three-line
    device, with localsettings reachable and the stored settings (or the
    defaults) reading as role [role], device instance [inst] and phase-1
    position [p]: [start] returns True; the service is published under
    the bus name [com.victronenergy.<role>.shelly_<mac>]; its identity
    points carry the device instance, the role, the phase-1 position, the
    connection and the firmware id; the channel takes [p] as its phase
    assignment and keeps its [destroyed] flag. *)
Theorem three_phase_start_publishes_identity `{PyFloat} (e : Env)
    (self : ThreePhaseMeter.t) (host : string) (port : Z) (data : pyval)
    (mac : string) (fw : pyval) (role : string) (inst p : Z) :
  three_line_handshake data mac fw →
  three_stored e mac role inst p →
  let out := ThreePhaseMeter.start host port data (e, self) in
  out.1 = Ok true
  ∧ name <$> ThreePhaseMeter.service out.2.2
    = Some ("com.victronenergy." ++ role ++ ".shelly_" ++ mac)
  ∧ three_published out.2.2 "/DeviceInstance" = Some (VInt inst)
  ∧ three_published out.2.2 "/Role" = Some (VStr role)
  ∧ three_published out.2.2 "/Phase" = Some (VInt p)
  ∧ three_published out.2.2 "/Mgmt/Connection"
    = Some (VStr ("WebSocket " ++ host ++ ":" ++ str_int port))
  ∧ three_published out.2.2 "/FirmwareVersion" = Some fw
  ∧ three_published out.2.2 "/ProductId" = Some (VInt 0xB034)
  ∧ three_published out.2.2 "/Connected" = Some (VInt 1)
  ∧ ThreePhaseMeter.phase1position out.2.2 = p
  ∧ ThreePhaseMeter.destroyed out.2.2 = ThreePhaseMeter.destroyed self.
Proof.
  intros Hd He out.
  destruct (three_start_state e self host port data mac fw role inst p Hd He)
    as (Hr & _ & _ & Hsvc & Hdes & Hph).
  fold out in Hr, Hsvc, Hdes, Hph.
  unfold three_published. rewrite Hsvc. cbn [fmap option_fmap option_map mbind option_bind].
  match goal with
  | |- context [ThreePhaseMeter.publish ?e' ?h ?po ?r ?i ?nm ?f ?ph ?pos (Service_create ?n)] =>
      destruct (three_publish_identity e' h po r i nm f ph pos n)
        as (Hn & _ & _ & Hc & Hi & Hpid & _ & Hfw & Hcon & _ & _ & Hrole & Hphase)
  end.
  rewrite Hn, Hc, Hi, Hpid, Hfw, Hcon, Hrole, Hphase.
  change ("com.victronenergy." ++ role ++ ".shelly_" ++ mac)
    with ("com.victronenergy." ++ (role ++ ".shelly_" ++ mac)).
  change ("com.victronenergy." ++ role ++ ".shelly_")
    with ("com.victronenergy." ++ (role ++ ".shelly_")).
  rewrite !string_app_assoc.
  repeat split; done.
Qed.

(** The three-line device whose settings say PV inverter, instance 31,
    phase-1 position 2. *)
Lemma three_phase_start_publishes_identity_pv :
  let out := ThreePhaseMeter.start "192.168.1.20" 80 handshake_three
               (env_pv, ThreePhaseMeter.init SYSTEM) in
  out.1 = Ok true
  ∧ name <$> ThreePhaseMeter.service out.2.2
    = Some "com.victronenergy.pvinverter.shelly_A8032AB6C1D4"
  ∧ three_published out.2.2 "/DeviceInstance" = Some (VInt 31)
  ∧ three_published out.2.2 "/Role" = Some (VStr "pvinverter")
  ∧ three_published out.2.2 "/Phase" = Some (VInt 2)
  ∧ three_published out.2.2 "/Mgmt/Connection" = Some (VStr "WebSocket 192.168.1.20:80")
  ∧ three_published out.2.2 "/FirmwareVersion" = Some (VStr "20240625-122905")
  ∧ three_published out.2.2 "/ProductId" = Some (VInt 0xB034)
  ∧ three_published out.2.2 "/Connected" = Some (VInt 1)
  ∧ ThreePhaseMeter.phase1position out.2.2 = 2
  ∧ ThreePhaseMeter.destroyed out.2.2 = false.
Proof.
  apply (three_phase_start_publishes_identity env_pv (ThreePhaseMeter.init SYSTEM)
           "192.168.1.20" 80 handshake_three "A8032AB6C1D4"
           (VStr "20240625-122905") "pvinverter" 31 2).
  - repeat split.
  - vm_compute. repeat split.
Defined.

(** X4: the two optional points of a started three-phase channel.
    [/CustomName] is published exactly when the handshake carries a name
    that is not null, with that name; [/Position] exactly when the role
    is pvinverter, with the stored position (0 when localsettings held
    none). *)
Theorem three_phase_start_optional_points `{PyFloat} (e : Env)
    (self : ThreePhaseMeter.t) (host : string) (port : Z) (data : pyval)
    (mac : string) (fw : pyval) (role : string) (inst p : Z) :
  three_line_handshake data mac fw →
  three_stored e mac role inst p →
  let out := ThreePhaseMeter.start host port data (e, self) in
  three_published out.2.2 "/CustomName" = non_null (handshake_name data)
  ∧ three_published out.2.2 "/Position"
    = if String.eqb role "pvinverter"
      then Some (stored_or (VInt 0) (store e)
                   (("/Settings/Devices/shelly_" ++ mac) ++ "/Position"))
      else None.
Proof.
  intros Hd He out.
  destruct (three_start_state e self host port data mac fw role inst p Hd He)
    as (_ & _ & _ & Hsvc & _).
  fold out in Hsvc.
  unfold three_published. rewrite Hsvc. cbn [mbind option_bind].
  apply three_publish_optional.
Qed.

Lemma three_phase_start_optional_points_named_pv :
  let out := ThreePhaseMeter.start "192.168.1.20" 80 handshake_three_named
               (env_pv, ThreePhaseMeter.init SYSTEM) in
  three_published out.2.2 "/CustomName" = Some (VStr "Garage")
  ∧ three_published out.2.2 "/Position" = Some (VInt 1).
Proof.
  apply (three_phase_start_optional_points env_pv (ThreePhaseMeter.init SYSTEM)
           "192.168.1.20" 80 handshake_three_named "A8032AB6C1D4"
           (VStr "20240625-122905") "pvinverter" 31 2).
  - repeat split.
  - vm_compute. repeat split.
Defined.

(** X5: after a successful [start] every measurement point of the
    three-phase channel — the two energy totals, the total power and the
    five points of each of L1, L2, L3 — is published and holds None until
    a telemetry frame arrives. *)
Theorem three_phase_start_measurements_unset `{PyFloat} (e : Env)
    (self : ThreePhaseMeter.t) (host : string) (port : Z) (data : pyval)
    (mac : string) (fw : pyval) (role : string) (inst p : Z) (q : string) :
  three_line_handshake data mac fw →
  three_stored e mac role inst p →
  q ∈ three_measurement_paths →
  three_published (ThreePhaseMeter.start host port data (e, self)).2.2 q = Some VNone.
Proof.
  intros Hd He Hq.
  destruct (three_start_state e self host port data mac fw role inst p Hd He)
    as (_ & _ & _ & Hsvc & _).
  unfold three_published. rewrite Hsvc. cbn [mbind option_bind].
  by apply three_publish_measurements.
Qed.

Lemma three_phase_start_measurements_unset_l2_current :
  three_published
    (ThreePhaseMeter.start "192.168.1.20" 80 handshake_three
       (env_up, ThreePhaseMeter.init SYSTEM)).2.2 "/Ac/L2/Current" = Some VNone.
Proof.
  apply (three_phase_start_measurements_unset env_up (ThreePhaseMeter.init SYSTEM)
           "192.168.1.20" 80 handshake_three "A8032AB6C1D4"
           (VStr "20240625-122905") "grid" 40 1).
  - repeat split.
  - vm_compute. repeat split.
  - vm_compute. set_solver.
Defined.

(** X6: the first start of a device that localsettings does not know.
    When localsettings is reachable and holds nothing under the three
    settings paths of the device, [start] returns True, localsettings
    then holds the defaults ["grid:40"], position 0 and phase-1 position
    1, and the channel is published as a grid meter with device instance
    40 whose line L1 shows phase a. *)
Theorem three_phase_first_start_uses_defaults `{PyFloat} (e : Env)
    (self : ThreePhaseMeter.t) (host : string) (port : Z) (data : pyval)
    (mac : string) (fw : pyval) :
  three_line_handshake data mac fw →
  settings_up e = true →
  let prefix := "/Settings/Devices/shelly_" ++ mac in
  store e !! (prefix ++ "/ClassAndVrmInstance") = None →
  store e !! (prefix ++ "/Position") = None →
  store e !! (prefix ++ "/Phase1Position") = None →
  let out := ThreePhaseMeter.start host port data (e, self) in
  out.1 = Ok true
  ∧ store out.2.1 !! (prefix ++ "/ClassAndVrmInstance") = Some (VStr "grid:40")
  ∧ store out.2.1 !! (prefix ++ "/Position") = Some (VInt 0)
  ∧ store out.2.1 !! (prefix ++ "/Phase1Position") = Some (VInt 1)
  ∧ name <$> ThreePhaseMeter.service out.2.2
    = Some (("com.victronenergy.grid.shelly_") ++ mac)
  ∧ three_published out.2.2 "/DeviceInstance" = Some (VInt 40)
  ∧ three_published out.2.2 "/Position" = None
  ∧ ThreePhaseMeter.phase1position out.2.2 = 1.
Proof.
  intros Hd Hup prefix H1 H2 H3 out.
  assert (three_stored e mac "grid" 40 1) as He.
  { unfold three_stored, stored_or. fold prefix. by rewrite H1, H3. }
  destruct (three_start_state e self host port data mac fw "grid" 40 1 Hd He)
    as (Hr & He' & _ & Hsvc & _ & Hph).
  fold out in Hr, He', Hsvc, Hph.
  destruct (three_settings_store mac (store e) {| aliases := ∅ |}) as (Hs1 & Hs2 & Hs3).
  fold prefix in Hs1, Hs2, Hs3. unfold stored_or in Hs1, Hs2, Hs3.
  rewrite H1 in Hs1. rewrite H2 in Hs2. rewrite H3 in Hs3.
  unfold three_published. rewrite Hsvc. cbn [fmap option_fmap option_map mbind option_bind].
  match goal with
  | |- context [ThreePhaseMeter.publish ?e' ?h ?po ?r ?i ?nm ?f ?ph ?pos (Service_create ?n)] =>
      destruct (three_publish_identity e' h po r i nm f ph pos n)
        as (Hn & _ & _ & _ & Hi & _);
      destruct (three_publish_optional e' h po r i nm f ph pos n) as (_ & Hpos)
  end.
  rewrite Hn, Hi, Hpos, He'. cbn [store set_store].
  repeat split; done.
Qed.

Lemma three_phase_first_start_uses_defaults_fresh :
  let prefix := "/Settings/Devices/shelly_A8032AB6C1D4" in
  let out := ThreePhaseMeter.start "192.168.1.20" 80 handshake_three
               (env_up, ThreePhaseMeter.init SYSTEM) in
  out.1 = Ok true
  ∧ store out.2.1 !! (prefix ++ "/ClassAndVrmInstance") = Some (VStr "grid:40")
  ∧ store out.2.1 !! (prefix ++ "/Position") = Some (VInt 0)
  ∧ store out.2.1 !! (prefix ++ "/Phase1Position") = Some (VInt 1)
  ∧ name <$> ThreePhaseMeter.service out.2.2
    = Some "com.victronenergy.grid.shelly_A8032AB6C1D4"
  ∧ three_published out.2.2 "/DeviceInstance" = Some (VInt 40)
  ∧ three_published out.2.2 "/Position" = None
  ∧ ThreePhaseMeter.phase1position out.2.2 = 1.
Proof.
  apply (three_phase_first_start_uses_defaults env_up (ThreePhaseMeter.init SYSTEM)
           "192.168.1.20" 80 handshake_three "A8032AB6C1D4" (VStr "20240625-122905")).
  - repeat split.
  - reflexivity.
  - reflexivity.
  - reflexivity.
  - reflexivity.
Defined.

Section start_invariants.
Context `{PyFloat}.

Lemma add_settings_keeps_eq sts h sto h' sto' path v :
  add_settings sts (h, sto) = (h', sto') →
  sto !! path = Some v → sto' !! path = Some v.
Proof.
  intros Heq Hv. replace sto' with (add_settings sts (h, sto)).2 by (by rewrite Heq).
  by apply add_settings_keeps.
Qed.

Lemma three_start_keeps_store host port data e m path v :
  store e !! path = Some v →
  wp (ThreePhaseMeter.start host port data)
     (λ r s', store s'.1 !! path = Some v) (e, m).
Proof.
  intros Hv. destruct m as [bt mon svc pos d ph].
  unfold ThreePhaseMeter.start, ThreePhaseMeter.wait_for_settings.
  repeat (wp_step; wp_simpl); try done;
    cbn [store set_store]; by eapply add_settings_keeps_eq.
Qed.

Lemma single_start_keeps_store host port data e m path v :
  store e !! path = Some v →
  wp (SingleMeter.start host port data)
     (λ r s', store s'.1 !! path = Some v) (e, m).
Proof.
  intros Hv. destruct m as [bt mon svc pos d mid ph].
  unfold SingleMeter.start, SingleMeter.wait_for_settings.
  repeat (wp_step; wp_simpl); try done;
    cbn [store set_store]; by eapply add_settings_keeps_eq.
Qed.

Lemma three_start_false host port data e m :
  wp (ThreePhaseMeter.start host port data)
     (λ r s', r = Ok false →
              s'.1 = e
              ∧ ThreePhaseMeter.service s'.2 = ThreePhaseMeter.service m
              ∧ ThreePhaseMeter.destroyed s'.2 = ThreePhaseMeter.destroyed m
              ∧ ThreePhaseMeter.phase1position s'.2 = ThreePhaseMeter.phase1position m)
     (e, m).
Proof.
  destruct m as [bt mon svc pos d ph].
  unfold ThreePhaseMeter.start, ThreePhaseMeter.wait_for_settings.
  repeat (wp_step; wp_simpl); done.
Qed.

Lemma single_start_false host port data e m :
  wp (SingleMeter.start host port data)
     (λ r s', r = Ok false →
              s'.1 = e
              ∧ SingleMeter.service s'.2 = SingleMeter.service m
              ∧ SingleMeter.destroyed s'.2 = SingleMeter.destroyed m
              ∧ SingleMeter.phaseposition s'.2 = SingleMeter.phaseposition m)
     (e, m).
Proof.
  destruct m as [bt mon svc pos d mid ph].
  unfold SingleMeter.start, SingleMeter.wait_for_settings.
  repeat (wp_step; wp_simpl); done.
Qed.

End start_invariants.

(** X7: [start] never replaces a value that localsettings already
    holds. Whatever the handshake and however [start] ends — True, False
    or an exception — every path that had a value before the call has the
    same value after it. This holds for both channel classes. *)
Theorem start_keeps_stored_settings `{PyFloat} (host : string) (port : Z)
    (data : pyval) (e : Env) (s1 : SingleMeter.t) (s3 : ThreePhaseMeter.t)
    (path : string) (v : pyval) :
  store e !! path = Some v →
  store (SingleMeter.start host port data (e, s1)).2.1 !! path = Some v
  ∧ store (ThreePhaseMeter.start host port data (e, s3)).2.1 !! path = Some v.
Proof.
  intros Hv. split.
  - apply (single_start_keeps_store host port data e s1 path v Hv).
  - apply (three_start_keeps_store host port data e s3 path v Hv).
Qed.

(** The stored role of the PV inverter survives the start of both a
    single-phase and a three-phase channel. *)
Lemma start_keeps_stored_settings_pv_role :
  let path := "/Settings/Devices/shelly_A8032AB6C1D4/ClassAndVrmInstance" in
  store (SingleMeter.start "192.168.1.20" 80 handshake_two
           (env_pv, SingleMeter.init SYSTEM 0)).2.1 !! path
    = Some (VStr "pvinverter:31")
  ∧ store (ThreePhaseMeter.start "192.168.1.20" 80 handshake_three
             (env_pv, ThreePhaseMeter.init SYSTEM)).2.1 !! path
    = Some (VStr "pvinverter:31").
Proof.
  intros path. split.
  - exact (proj1 (start_keeps_stored_settings "192.168.1.20" 80 handshake_two env_pv
                    (SingleMeter.init SYSTEM 0) (ThreePhaseMeter.init SYSTEM)
                    path (VStr "pvinverter:31") eq_refl)).
  - exact (proj2 (start_keeps_stored_settings "192.168.1.20" 80 handshake_three env_pv
                    (SingleMeter.init SYSTEM 0) (ThreePhaseMeter.init SYSTEM)
                    path (VStr "pvinverter:31") eq_refl)).
Defined.

(** X8: a [start] that returns False has published nothing and written
    nothing: localsettings and the process constants are as before, and
    the channel has the service, the [destroyed] flag and the phase
    assignment it had. This holds for both channel classes. *)
Theorem start_returning_false_leaves_no_trace `{PyFloat} (host : string) (port : Z)
    (data : pyval) (e : Env) (s1 : SingleMeter.t) (s3 : ThreePhaseMeter.t) :
  let out1 := SingleMeter.start host port data (e, s1) in
  let out3 := ThreePhaseMeter.start host port data (e, s3) in
  (out1.1 = Ok false →
     out1.2.1 = e
     ∧ SingleMeter.service out1.2.2 = SingleMeter.service s1
     ∧ SingleMeter.destroyed out1.2.2 = SingleMeter.destroyed s1
     ∧ SingleMeter.phaseposition out1.2.2 = SingleMeter.phaseposition s1)
  ∧ (out3.1 = Ok false →
       out3.2.1 = e
       ∧ ThreePhaseMeter.service out3.2.2 = ThreePhaseMeter.service s3
       ∧ ThreePhaseMeter.destroyed out3.2.2 = ThreePhaseMeter.destroyed s3
       ∧ ThreePhaseMeter.phase1position out3.2.2 = ThreePhaseMeter.phase1position s3).
Proof.
  intros out1 out3. split.
  - apply (single_start_false host port data e s1).
  - apply (three_start_false host port data e s3).
Qed.

(** The handshake of the three-line device offered to a single-phase
    channel, and localsettings out of reach for a three-phase channel:
    both starts return False. *)
Lemma start_returning_false_leaves_no_trace_examples :
  let out1 := SingleMeter.start "192.168.1.20" 80 handshake_three
                (env_pv, SingleMeter.init SYSTEM 0) in
  let out3 := ThreePhaseMeter.start "192.168.1.20" 80 handshake_three
                (env_down, ThreePhaseMeter.init SYSTEM) in
  (out1.1 = Ok false
   ∧ out1.2.1 = env_pv
   ∧ SingleMeter.service out1.2.2 = None
   ∧ SingleMeter.destroyed out1.2.2 = false
   ∧ SingleMeter.phaseposition out1.2.2 = 1)
  ∧ (out3.1 = Ok false
     ∧ out3.2.1 = env_down
     ∧ ThreePhaseMeter.service out3.2.2 = None
     ∧ ThreePhaseMeter.destroyed out3.2.2 = false
     ∧ ThreePhaseMeter.phase1position out3.2.2 = 1).
Proof.
  assert ((SingleMeter.start "192.168.1.20" 80 handshake_three
             (env_pv, SingleMeter.init SYSTEM 0)).1 = Ok false) as H1
    by (vm_compute; reflexivity).
  assert ((ThreePhaseMeter.start "192.168.1.20" 80 handshake_three
             (env_down, ThreePhaseMeter.init SYSTEM)).1 = Ok false) as H3
    by (vm_compute; reflexivity).
  split.
  - split; [exact H1 |].
    exact (proj1 (start_returning_false_leaves_no_trace "192.168.1.20" 80
                    handshake_three env_pv (SingleMeter.init SYSTEM 0)
                    (ThreePhaseMeter.init SYSTEM)) H1).
  - split; [exact H3 |].
    exact (proj2 (start_returning_false_leaves_no_trace "192.168.1.20" 80
                    handshake_three env_down (SingleMeter.init SYSTEM 0)
                    (ThreePhaseMeter.init SYSTEM)) H3).
Defined.

Section restart.
Context `{PyFloat}.

Lemma suffix_ne (p a b : string) : a ≠ b → p ++ a ≠ p ++ b.
Proof. intros Hne Heq. by apply Hne, (inj (String.app p)). Qed.

(** A started three-phase channel, as the callbacks find it: the monitor
    knows the handle with the three aliases, and localsettings holds a
    value under each of the three paths. *)
Lemma three_started_settings e self host port data mac fw role inst p :
  three_line_handshake data mac fw →
  three_stored e mac role inst p →
  let prefix := "/Settings/Devices/shelly_" ++ mac in
  let out := ThreePhaseMeter.start host port data (e, self) in
  ∃ h,
    knows_settings (ThreePhaseMeter.monitor out.2.2) h
    ∧ alias h "instance" = Some (prefix ++ "/ClassAndVrmInstance")
    ∧ alias h "position" = Some (prefix ++ "/Position")
    ∧ alias h "phase1position" = Some (prefix ++ "/Phase1Position")
    ∧ settings_up out.2.1 = true
    ∧ store out.2.1 !! (prefix ++ "/ClassAndVrmInstance")
      = Some (stored_or (VStr "grid:40") (store e) (prefix ++ "/ClassAndVrmInstance"))
    ∧ store out.2.1 !! (prefix ++ "/Position")
      = Some (stored_or (VInt 0) (store e) (prefix ++ "/Position"))
    ∧ store out.2.1 !! (prefix ++ "/Phase1Position")
      = Some (stored_or (VInt 1) (store e) (prefix ++ "/Phase1Position")).
Proof.
  intros Hd He prefix out.
  destruct (three_start_state e self host port data mac fw role inst p Hd He)
    as (_ & He' & Hmon & _).
  fold out in He', Hmon.
  destruct (three_settings_read mac (store e) {| aliases := ∅ |})
    as (Ha1 & Ha2 & Ha3 & _).
  destruct (three_settings_store mac (store e) {| aliases := ∅ |}) as (Hs1 & Hs2 & Hs3).
  eexists. split; [exact Hmon |].
  rewrite He'. cbn [store set_store settings_up].
  destruct He as (Hup & _). done.
Qed.

(** The settings of the device after a write to one of its three
    paths. *)
Lemma three_stored_after_write e mac role' inst' p' path v :
  let prefix := "/Settings/Devices/shelly_" ++ mac in
  settings_up e = true →
  role_instance (stored_or (VStr "grid:40") (<[path := v]> (store e))
                   (prefix ++ "/ClassAndVrmInstance")) = Ok (role', inst') →
  as_int (stored_or (VInt 1) (<[path := v]> (store e))
            (prefix ++ "/Phase1Position")) = Ok p' →
  three_stored (set_store (store_set (Some path) v) e) mac role' inst' p'.
Proof. intros prefix Hup Hri Hp. by repeat split. Qed.

End restart.

(** X9: a role change takes effect at the restart. On a started
    three-phase channel an accepted [role_changed] to the role [r] leaves
    the channel destroyed and without service; a fresh channel started on
    the same handshake afterwards is published under the bus name of the
    new role, with the role [r], the same device instance and the same
    phase-1 position. *)
Theorem three_phase_restart_after_role_change `{PyFloat} (e : Env) (bt : BusType)
    (host : string) (port : Z) (data : pyval) (mac : string) (fw : pyval)
    (role : string) (inst p : Z) (r : string) :
  three_line_handshake data mac fw →
  three_stored e mac role inst p →
  r ∈ allowed_roles →
  let started := ThreePhaseMeter.start host port data (e, ThreePhaseMeter.init bt) in
  let changed := ThreePhaseMeter.role_changed (VStr r) started.2 in
  let restarted :=
    ThreePhaseMeter.start host port data (changed.2.1, ThreePhaseMeter.init bt) in
  changed.1 = Ok true
  ∧ ThreePhaseMeter.destroyed changed.2.2 = true
  ∧ ThreePhaseMeter.service changed.2.2 = None
  ∧ restarted.1 = Ok true
  ∧ name <$> ThreePhaseMeter.service restarted.2.2
    = Some ("com.victronenergy." ++ r ++ ".shelly_" ++ mac)
  ∧ three_published restarted.2.2 "/Role" = Some (VStr r)
  ∧ three_published restarted.2.2 "/DeviceInstance" = Some (VInt inst)
  ∧ ThreePhaseMeter.phase1position restarted.2.2 = p.
Proof.
  intros Hd He Hr started changed restarted.
  destruct (three_started_settings e (ThreePhaseMeter.init bt) host port data mac fw
              role inst p Hd He) as (h & Hk & Ha1 & _ & _ & Hup & Hs1 & _ & Hs3).
  fold started in Hk, Hup, Hs1, Hs3.
  set (prefix := "/Settings/Devices/shelly_" ++ mac) in *.
  destruct He as (_ & Hri & Hp). fold prefix in Hri, Hp.
  assert (changed =
    (Ok true,
     (set_store (store_set (Some (prefix ++ "/ClassAndVrmInstance"))
                   (VStr (r ++ ":" ++ str_int inst))) started.2.1,
      ThreePhaseMeter.set_destroyed true
        (ThreePhaseMeter.set_service None started.2.2)))) as Hch.
  { subst changed. rewrite (surjective_pairing started.2), <- Ha1.
    apply (three_role_accepted r _ _ h role inst Hr Hk).
    rewrite Ha1. cbn [get_value]. by rewrite Hs1. }
  assert (three_stored changed.2.1 mac r inst p) as He2.
  { rewrite Hch. cbn [fst snd].
    apply three_stored_after_write; [done | |]; fold prefix; unfold stored_or.
    - rewrite lookup_insert_eq. cbn [default]. by apply role_instance_written.
    - rewrite lookup_insert_ne by (by apply suffix_ne). by rewrite Hs3. }
  destruct (three_start_state changed.2.1 (ThreePhaseMeter.init bt) host port data
              mac fw r inst p Hd He2) as (Hr2 & _ & _ & Hsvc & _ & Hph).
  fold restarted in Hr2, Hsvc, Hph.
  rewrite Hch at 1 2 3. cbn [fst snd ThreePhaseMeter.destroyed ThreePhaseMeter.service
    ThreePhaseMeter.set_destroyed ThreePhaseMeter.set_service].
  unfold three_published. rewrite Hsvc.
  cbn [fmap option_fmap option_map mbind option_bind].
  match goal with
  | |- context [ThreePhaseMeter.publish ?e' ?h ?po ?r ?i ?nm ?f ?ph ?pos (Service_create ?n)] =>
      destruct (three_publish_identity e' h po r i nm f ph pos n)
        as (Hn & _ & _ & _ & Hi & _ & _ & _ & _ & _ & _ & Hrole & _)
  end.
  rewrite Hn, Hi, Hrole.
  change ("com.victronenergy." ++ r ++ ".shelly_" ++ mac)
    with ("com.victronenergy." ++ (r ++ ".shelly_" ++ mac)).
  change ("com.victronenergy." ++ r ++ ".shelly_")
    with ("com.victronenergy." ++ (r ++ ".shelly_")).
  rewrite !string_app_assoc.
  repeat split; done.
Qed.

(** The grid meter of the first start, turned into a generator meter. *)
Lemma three_phase_restart_after_role_change_genset :
  let started := ThreePhaseMeter.start "192.168.1.20" 80 handshake_three
                   (env_up, ThreePhaseMeter.init SYSTEM) in
  let changed := ThreePhaseMeter.role_changed (VStr "genset") started.2 in
  let restarted :=
    ThreePhaseMeter.start "192.168.1.20" 80 handshake_three
      (changed.2.1, ThreePhaseMeter.init SYSTEM) in
  changed.1 = Ok true
  ∧ ThreePhaseMeter.destroyed changed.2.2 = true
  ∧ ThreePhaseMeter.service changed.2.2 = None
  ∧ restarted.1 = Ok true
  ∧ name <$> ThreePhaseMeter.service restarted.2.2
    = Some "com.victronenergy.genset.shelly_A8032AB6C1D4"
  ∧ three_published restarted.2.2 "/Role" = Some (VStr "genset")
  ∧ three_published restarted.2.2 "/DeviceInstance" = Some (VInt 40)
  ∧ ThreePhaseMeter.phase1position restarted.2.2 = 1.
Proof.
  apply (three_phase_restart_after_role_change env_up SYSTEM "192.168.1.20" 80
           handshake_three "A8032AB6C1D4" (VStr "20240625-122905") "grid" 40 1 "genset").
  - repeat split.
  - vm_compute. repeat split.
  - unfold allowed_roles. set_solver.
Defined.

(** X10: accepted writes to the phase and to the position persist
    across a restart. On a started three-phase channel, after
    [phase_changed q] with [q] in 1..3 and [position_changed v] with [v]
    in 0..2, a fresh channel started on the same handshake takes [q] as
    its phase-1 position and publishes it under [/Phase]; it keeps the
    role and the device instance, and when the role is pvinverter it
    publishes [v] under [/Position]. *)
Theorem three_phase_restart_keeps_written_settings `{PyFloat} (e : Env) (bt : BusType)
    (host : string) (port : Z) (data : pyval) (mac : string) (fw : pyval)
    (role : string) (inst p q v : Z) :
  three_line_handshake data mac fw →
  three_stored e mac role inst p →
  1 ≤ q ≤ 3 →
  0 ≤ v ≤ 2 →
  let started := ThreePhaseMeter.start host port data (e, ThreePhaseMeter.init bt) in
  let phased := ThreePhaseMeter.phase_changed q started.2 in
  let placed := ThreePhaseMeter.position_changed v phased.2 in
  let restarted :=
    ThreePhaseMeter.start host port data (placed.2.1, ThreePhaseMeter.init bt) in
  phased.1 = Ok true
  ∧ placed.1 = Ok true
  ∧ restarted.1 = Ok true
  ∧ ThreePhaseMeter.phase1position restarted.2.2 = q
  ∧ three_published restarted.2.2 "/Phase" = Some (VInt q)
  ∧ three_published restarted.2.2 "/Role" = Some (VStr role)
  ∧ three_published restarted.2.2 "/DeviceInstance" = Some (VInt inst)
  ∧ three_published restarted.2.2 "/Position"
    = if String.eqb role "pvinverter" then Some (VInt v) else None.
Proof.
  intros Hd He Hq Hv started phased placed restarted.
  destruct (three_started_settings e (ThreePhaseMeter.init bt) host port data mac fw
              role inst p Hd He) as (h & Hk & _ & Ha2 & Ha3 & Hup & Hs1 & _ & _).
  fold started in Hk, Hup, Hs1.
  set (prefix := "/Settings/Devices/shelly_" ++ mac) in *.
  destruct He as (_ & Hri & _). fold prefix in Hri.
  assert (phased =
    (Ok true,
     (set_store (store_set (Some (prefix ++ "/Phase1Position")) (VInt q)) started.2.1,
      ThreePhaseMeter.set_phase1position q started.2.2))) as Hph.
  { subst phased. rewrite (surjective_pairing started.2) at 1.
    rewrite (three_phase_changed q _ _ _ Hk). cbn [settings_service].
    by rewrite bool_decide_eq_true_2, Ha3 by done. }
  assert (placed =
    (Ok true,
     (set_store (store_set (Some (prefix ++ "/Position")) (VInt v)) phased.2.1,
      phased.2.2))) as Hpl.
  { subst placed. rewrite (surjective_pairing phased.2) at 1.
    rewrite (three_position_changed v _ _ {| settings_service := Some h |}).
    - cbn [settings_service]. by rewrite bool_decide_eq_true_2, Ha2 by done.
    - rewrite Hph. exact Hk. }
  assert (three_stored placed.2.1 mac role inst q) as He2.
  { rewrite Hpl. cbn [fst snd].
    apply three_stored_after_write; fold prefix; unfold stored_or.
    - rewrite Hph. exact Hup.
    - rewrite lookup_insert_ne by (by apply suffix_ne).
      rewrite Hph. cbn [fst snd store set_store store_set].
      rewrite lookup_insert_ne by (by apply suffix_ne). by rewrite Hs1.
    - rewrite lookup_insert_ne by (by apply suffix_ne).
      rewrite Hph. cbn [fst snd store set_store store_set].
      by rewrite lookup_insert_eq. }
  destruct (three_start_state placed.2.1 (ThreePhaseMeter.init bt) host port data
              mac fw role inst q Hd He2) as (Hr2 & _ & _ & Hsvc & _ & Hphase).
  fold restarted in Hr2, Hsvc, Hphase.
  rewrite Hph at 1. rewrite Hpl at 1. cbn [fst].
  unfold three_published. rewrite Hsvc. cbn [mbind option_bind].
  match goal with
  | |- context [ThreePhaseMeter.publish ?e' ?h ?po ?r ?i ?nm ?f ?ph ?pos (Service_create ?n)] =>
      destruct (three_publish_identity e' h po r i nm f ph pos n)
        as (_ & _ & _ & _ & Hi & _ & _ & _ & _ & _ & _ & Hrole & Hphs);
      destruct (three_publish_optional e' h po r i nm f ph pos n) as (_ & Hpos)
  end.
  rewrite Hi, Hrole, Hphs, Hpos.
  fold prefix. unfold stored_or. rewrite Hpl. cbn [fst snd store set_store store_set].
  rewrite lookup_insert_eq.
  repeat split; done.
Qed.

(** The PV inverter moved to phase-1 position 3 and to position 2. *)
Lemma three_phase_restart_keeps_written_settings_pv :
  let started := ThreePhaseMeter.start "192.168.1.20" 80 handshake_three
                   (env_pv, ThreePhaseMeter.init SYSTEM) in
  let phased := ThreePhaseMeter.phase_changed 3 started.2 in
  let placed := ThreePhaseMeter.position_changed 2 phased.2 in
  let restarted :=
    ThreePhaseMeter.start "192.168.1.20" 80 handshake_three
      (placed.2.1, ThreePhaseMeter.init SYSTEM) in
  phased.1 = Ok true
  ∧ placed.1 = Ok true
  ∧ restarted.1 = Ok true
  ∧ ThreePhaseMeter.phase1position restarted.2.2 = 3
  ∧ three_published restarted.2.2 "/Phase" = Some (VInt 3)
  ∧ three_published restarted.2.2 "/Role" = Some (VStr "pvinverter")
  ∧ three_published restarted.2.2 "/DeviceInstance" = Some (VInt 31)
  ∧ three_published restarted.2.2 "/Position" = Some (VInt 2).
Proof.
  apply (three_phase_restart_keeps_written_settings env_pv SYSTEM "192.168.1.20" 80
           handshake_three "A8032AB6C1D4" (VStr "20240625-122905") "pvinverter" 31 2 3 2).
  - repeat split.
  - vm_compute. repeat split.
  - lia.
  - lia.
Defined.

(** X11: a change of the stored role and instance made elsewhere ends
    the channel. On a started three-phase channel, [settings_changed]
    called with the monitor's settings handle destroys the channel and
    takes its service off the bus when the changed paths include the
    [ClassAndVrmInstance] path of the device; for any other set of
    changed paths — the position and the phase-1 position of the device
    included — it leaves the channel as it is, with the phase assignment
    it had. *)
Theorem settings_change_ends_channel_on_instance_path `{PyFloat} (e : Env)
    (self : ThreePhaseMeter.t) (host : string) (port : Z) (data : pyval)
    (mac : string) (fw : pyval) (role : string) (inst p : Z)
    (h : SettingsService) (values : list string) :
  three_line_handshake data mac fw →
  three_stored e mac role inst p →
  let started := (ThreePhaseMeter.start host port data (e, self)).2.2 in
  knows_settings (ThreePhaseMeter.monitor started) h →
  let path := ("/Settings/Devices/shelly_" ++ mac) ++ "/ClassAndVrmInstance" in
  let out := ThreePhaseMeter.settings_changed h values started in
  out.1 = Ok tt
  ∧ (path ∈ values →
       ThreePhaseMeter.destroyed out.2 = true ∧ ThreePhaseMeter.service out.2 = None)
  ∧ (path ∉ values → out.2 = started).
Proof.
  intros Hd He started Hk path out.
  destruct (three_started_settings e self host port data mac fw role inst p Hd He)
    as (h' & Hk' & Ha1 & _).
  fold started in Hk'. unfold knows_settings in Hk, Hk'.
  rewrite Hk in Hk'. injection Hk' as <-.
  subst out. unfold ThreePhaseMeter.settings_changed. rewrite Ha1. fold path.
  destruct (decide (path ∈ values)) as [Hin | Hnot].
  - rewrite bool_decide_eq_true_2 by done. by repeat split.
  - rewrite bool_decide_eq_false_2 by done. by repeat split.
Qed.

Lemma settings_change_ends_channel_on_instance_path_examples :
  let started := (ThreePhaseMeter.start "192.168.1.20" 80 handshake_three
                    (env_up, ThreePhaseMeter.init SYSTEM)).2.2 in
  let prefix := "/Settings/Devices/shelly_A8032AB6C1D4" in
  ThreePhaseMeter.destroyed
    (ThreePhaseMeter.settings_changed three_paths
       [prefix ++ "/ClassAndVrmInstance"] started).2 = true
  ∧ (ThreePhaseMeter.settings_changed three_paths
       [prefix ++ "/Phase1Position"; prefix ++ "/Position"] started).2 = started.
Proof.
  assert (three_line_handshake handshake_three "A8032AB6C1D4" (VStr "20240625-122905"))
    as Hd by repeat split.
  assert (three_stored env_up "A8032AB6C1D4" "grid" 40 1) as He
    by (vm_compute; repeat split).
  assert (knows_settings
            (ThreePhaseMeter.monitor
               (ThreePhaseMeter.start "192.168.1.20" 80 handshake_three
                  (env_up, ThreePhaseMeter.init SYSTEM)).2.2) three_paths) as Hk
    by (vm_compute; reflexivity).
  intros started prefix. split.
  - refine (proj1 (proj1 (proj2 (settings_change_ends_channel_on_instance_path env_up
             (ThreePhaseMeter.init SYSTEM) "192.168.1.20" 80 handshake_three
             "A8032AB6C1D4" (VStr "20240625-122905") "grid" 40 1 three_paths
             [prefix ++ "/ClassAndVrmInstance"] Hd He Hk)) _)).
    set_solver.
  - refine (proj2 (proj2 (settings_change_ends_channel_on_instance_path env_up
             (ThreePhaseMeter.init SYSTEM) "192.168.1.20" 80 handshake_three
             "A8032AB6C1D4" (VStr "20240625-122905") "grid" 40 1 three_paths
             [prefix ++ "/Phase1Position"; prefix ++ "/Position"] Hd He Hk)) _).
    set_solver.
Defined.

(** ** Starting a single-phase channel *)

Section single_phase_start.
Context `{PyFloat}.

Lemma single_settings_store mac mid sto h :
  let prefix := ("/Settings/Devices/shelly_" ++ mac) ++ "_" ++ str_int mid in
  let sto' := (add_settings (single_settings mac mid) (h, sto)).2 in
  sto' !! (prefix ++ "/ClassAndVrmInstance")
    = Some (stored_or (VStr "grid:40") sto (prefix ++ "/ClassAndVrmInstance"))
  ∧ sto' !! (prefix ++ "/Position")
    = Some (stored_or (VInt 0) sto (prefix ++ "/Position"))
  ∧ sto' !! (prefix ++ "/Phase")
    = Some (stored_or (VInt 1) sto (prefix ++ "/Phase")).
Proof.
  intros prefix sto'. subst sto'. rewrite !add_settings_store.
  unfold single_settings, stored_or. cbn [offered_default s_path s_default].
  fold prefix. rewrite !suffix_decide.
  repeat split.
  - by destruct (sto !! _).
  - by destruct (sto !! _).
  - by destruct (sto !! _).
Qed.

Lemma single_settings_read mac mid sto h :
  let prefix := ("/Settings/Devices/shelly_" ++ mac) ++ "_" ++ str_int mid in
  let hs := add_settings (single_settings mac mid) (h, sto) in
  alias hs.1 "instance" = Some (prefix ++ "/ClassAndVrmInstance")
  ∧ alias hs.1 "position" = Some (prefix ++ "/Position")
  ∧ alias hs.1 "phaseposition" = Some (prefix ++ "/Phase")
  ∧ get_value hs.2 (alias hs.1 "instance")
    = stored_or (VStr "grid:40") sto (prefix ++ "/ClassAndVrmInstance")
  ∧ get_value hs.2 (alias hs.1 "phaseposition")
    = stored_or (VInt 1) sto (prefix ++ "/Phase").
Proof.
  intros prefix hs.
  destruct (single_settings_store mac mid sto h) as (Hi & Hpos & Hph).
  fold prefix in Hi, Hpos, Hph. fold hs in Hi, Hpos, Hph.
  assert (alias hs.1 "instance" = Some (prefix ++ "/ClassAndVrmInstance")
          ∧ alias hs.1 "position" = Some (prefix ++ "/Position")
          ∧ alias hs.1 "phaseposition" = Some (prefix ++ "/Phase"))
    as (Ha1 & Ha2 & Ha3).
  { unfold alias, hs. rewrite add_settings_aliases.
    unfold single_settings. cbn [foldl s_alias s_path].
    rewrite lookup_insert_ne, lookup_insert_ne, lookup_insert_eq by done.
    rewrite lookup_insert_ne, lookup_insert_eq by done.
    by rewrite lookup_insert_eq. }
  rewrite Ha1, Ha2, Ha3. cbn [get_value]. rewrite Hi, Hph. done.
Qed.

(** Building the custom name changes nothing, whatever comes of it. *)
Lemma wp_single_name data mid (Q : res pyval → Env * SingleMeter.t → Prop) s :
  (∀ nm, Q (Ok nm) s) →
  wp (try_any
        (do n <- lift (result_field data "name");
         do n1 <- lift (py_add n (VStr "_"));
         lift (py_add n1 (VStr (str_int mid))))
        (ret VNone) ret) Q s.
Proof.
  intros HQ. unfold wp, try_any, bind, lift, ret.
  destruct (result_field data "name") as [n |]; [| apply HQ].
  destruct (py_add n (VStr "_")) as [n1 |]; [| apply HQ].
  destruct (py_add n1 _); apply HQ.
Qed.

(** [SingleMeter.start] on the handshake of the two-channel device: the
    settings are registered and read, then the unbound name ends it. *)
Lemma single_start_run e self host port data mac role inst p :
  two_channel_handshake data mac →
  single_stored e mac (SingleMeter.meterid self) role inst p →
  SingleMeter.start host port data (e, self) =
    let hs := add_settings (single_settings mac (SingleMeter.meterid self))
                ({| aliases := ∅ |}, store e) in
    (Raise NameError,
     (set_store (λ _, hs.2) e,
      {| SingleMeter.bus_type := SingleMeter.bus_type self;
         SingleMeter.monitor := Some {| settings_service := Some hs.1 |};
         SingleMeter.service := SingleMeter.service self;
         SingleMeter.position := SingleMeter.position self;
         SingleMeter.destroyed := SingleMeter.destroyed self;
         SingleMeter.meterid := SingleMeter.meterid self;
         SingleMeter.phaseposition := p |})).
Proof.
  intros (Hmac & [fw Hfw] & Hmodel & Happ) (Hup & Hri & Hp).
  cbv zeta in Hri, Hp. cbv zeta.
  destruct self as [bt mon svc pos d mid ph].
  cbn [SingleMeter.meterid] in *.
  set (prefix := ("/Settings/Devices/shelly_" ++ mac) ++ "_" ++ str_int mid) in *.
  match goal with |- _ = ?x => set (X := x) end.
  apply wp_eq.
  unfold SingleMeter.start, SingleMeter.wait_for_settings.
  repeat wp_go. rewrite Hmac. repeat wp_go. rewrite Hfw. repeat wp_go. rewrite Hmodel.
  repeat wp_go. rewrite Happ. repeat wp_go.
  apply wp_single_name. intros nm.
  cbn [eq_str String.eqb Ascii.eqb Bool.eqb andb negb].
  destruct (single_settings_read mac mid (store e) {| aliases := ∅ |})
    as (_ & _ & _ & Hv1 & Hv3). fold prefix in Hv1, Hv3.
  repeat wp_go. rewrite Hup. repeat wp_go. cbn [str_add default]. repeat wp_go.
  change (add_settings _ ?x) with (add_settings (single_settings mac mid) x).
  rewrite (surjective_pairing (add_settings (single_settings mac mid) _)).
  repeat wp_go. rewrite Hv1, Hri. repeat wp_go. rewrite Hv3, Hp. repeat wp_go.
  reflexivity.
Qed.

End single_phase_start.

(** X12: what [SingleMeter.start] has done when it stops. On a
    handshake of the two-channel device, with localsettings reachable and
    the stored settings of the channel (or the defaults) reading as a
    role, a device instance and the phase [p], [start] raises NameError;
    by then localsettings holds a value under each of the three settings
    paths of the channel (the value it had, or else the default), the
    monitor knows the three aliases, and the channel has taken [p] as its
    phase; no service is published and the [destroyed] flag is
    untouched. *)
Theorem single_phase_start_registers_then_raises `{PyFloat} (e : Env)
    (self : SingleMeter.t) (host : string) (port : Z) (data : pyval)
    (mac role : string) (inst p : Z) :
  two_channel_handshake data mac →
  single_stored e mac (SingleMeter.meterid self) role inst p →
  let prefix :=
    ("/Settings/Devices/shelly_" ++ mac) ++ "_" ++ str_int (SingleMeter.meterid self) in
  let out := SingleMeter.start host port data (e, self) in
  out.1 = Raise NameError
  ∧ store out.2.1 !! (prefix ++ "/ClassAndVrmInstance")
    = Some (stored_or (VStr "grid:40") (store e) (prefix ++ "/ClassAndVrmInstance"))
  ∧ store out.2.1 !! (prefix ++ "/Position")
    = Some (stored_or (VInt 0) (store e) (prefix ++ "/Position"))
  ∧ store out.2.1 !! (prefix ++ "/Phase")
    = Some (stored_or (VInt 1) (store e) (prefix ++ "/Phase"))
  ∧ (∃ h, knows_settings (SingleMeter.monitor out.2.2) h
          ∧ alias h "instance" = Some (prefix ++ "/ClassAndVrmInstance")
          ∧ alias h "position" = Some (prefix ++ "/Position")
          ∧ alias h "phaseposition" = Some (prefix ++ "/Phase"))
  ∧ SingleMeter.phaseposition out.2.2 = p
  ∧ SingleMeter.service out.2.2 = SingleMeter.service self
  ∧ SingleMeter.destroyed out.2.2 = SingleMeter.destroyed self.
Proof.
  intros Hd He prefix out. subst out.
  rewrite (single_start_run e self host port data mac role inst p Hd He).
  cbv zeta. cbn [fst snd store set_store SingleMeter.monitor SingleMeter.service
                 SingleMeter.destroyed SingleMeter.phaseposition].
  destruct (single_settings_store mac (SingleMeter.meterid self) (store e)
              {| aliases := ∅ |}) as (Hs1 & Hs2 & Hs3).
  destruct (single_settings_read mac (SingleMeter.meterid self) (store e)
              {| aliases := ∅ |}) as (Ha1 & Ha2 & Ha3 & _).
  split; [done |]. split; [exact Hs1 |]. split; [exact Hs2 |]. split; [exact Hs3 |].
  split; [| done].
  eexists. split; [reflexivity |]. done.
Qed.

(** Channel 0 of the two-channel device, with nothing stored yet. *)
Lemma single_phase_start_registers_then_raises_channel_0 :
  let prefix := "/Settings/Devices/shelly_A8032AB6C1D4_0" in
  let out := SingleMeter.start "192.168.1.20" 80 handshake_two
               (env_up, SingleMeter.init SYSTEM 0) in
  out.1 = Raise NameError
  ∧ store out.2.1 !! (prefix ++ "/ClassAndVrmInstance")
    = Some (stored_or (VStr "grid:40") (store env_up) (prefix ++ "/ClassAndVrmInstance"))
  ∧ store out.2.1 !! (prefix ++ "/Position")
    = Some (stored_or (VInt 0) (store env_up) (prefix ++ "/Position"))
  ∧ store out.2.1 !! (prefix ++ "/Phase")
    = Some (stored_or (VInt 1) (store env_up) (prefix ++ "/Phase"))
  ∧ (∃ h, knows_settings (SingleMeter.monitor out.2.2) h
          ∧ alias h "instance" = Some (prefix ++ "/ClassAndVrmInstance")
          ∧ alias h "position" = Some (prefix ++ "/Position")
          ∧ alias h "phaseposition" = Some (prefix ++ "/Phase"))
  ∧ SingleMeter.phaseposition out.2.2 = 1
  ∧ SingleMeter.service out.2.2 = None
  ∧ SingleMeter.destroyed out.2.2 = false.
Proof.
  apply (single_phase_start_registers_then_raises env_up (SingleMeter.init SYSTEM 0)
           "192.168.1.20" 80 handshake_two "A8032AB6C1D4" "grid" 40 1).
  - split; [reflexivity |]. split; [by eexists |]. split; reflexivity.
  - vm_compute. repeat split.
Defined.

(** ** Complete telemetry blocks *)

Section complete_blocks.
Context `{PyFloat}.

(** A block whose assignments all succeed, on distinct points: each point
    ends with the value assigned to it. *)
Lemma assign_all_complete ws svc q r :
  NoDup ws.*1 →
  Forall (λ w, is_Some (objects svc !! w.1) ∧ ∃ x, w.2 = Ok x) ws →
  (q, r) ∈ ws →
  published (assign_all ws svc).2 q = read r.
Proof.
  revert svc. induction ws as [| [k e] ws IH]; intros svc Hnd Hall Hin.
  - by apply elem_of_nil in Hin.
  - apply NoDup_cons in Hnd as [Hk Hnd]. apply Forall_cons in Hall as [[Hreg [x Hx]] Hall].
    cbn [fst snd] in *. subst e.
    rewrite assign_all_cons. cbn [fst snd].
    destruct (assign_ok k x svc Hreg) as [Hr Hp].
    pose proof (assign_registered k (Ok x) svc) as Hsame.
    destruct (assign k (Ok x) svc) as [[[] | err] svc'] eqn:Has; [| done].
    cbn [fst snd] in *.
    apply elem_of_cons in Hin as [[= -> ->] | Hin].
    + rewrite assign_all_frame by done. exact Hp.
    + apply IH; [done | | done].
      eapply Forall_impl; [exact Hall |]. intros w [Hw Hv]. split; [| done].
      by apply Hsame.
Qed.

(** The last assignment of a block leaves the other points alone. *)
Lemma assign_all_snoc_frame ws w svc q :
  q ≠ w.1 →
  published (assign_all (ws ++ [w]) svc).2 q = published (assign_all ws svc).2 q.
Proof.
  intros Hq. rewrite assign_all_app.
  destruct (assign_all ws svc) as [[[] | err] svc']; [| done]. cbn [snd].
  rewrite assign_all_cons.
  pose proof (assign_frame w.1 w.2 svc' q Hq) as Hf.
  destruct (assign w.1 w.2 svc') as [[[] | err] svc'']; done.
Qed.

End complete_blocks.

(** The live block on a service that has its points, line by line. *)
Lemma live_writes_published `{PyFloat} (p : Z) (svc : Service) (data : pyval)
    (l1 l2 l3 : string) :
  1 ≤ p ≤ 3 →
  rotation p = Ok [l1; l2; l3] →
  (∀ q, q ∈ live_paths → is_Some (objects svc !! q)) →
  (∀ f, f ∈ live_fields → ∃ x, getitem data f = Ok x) →
  let svc' := (assign_all (ThreePhaseMeter.live_writes p data) svc).2 in
  published svc' "/Ac/L1/Voltage" = read (getitem data (l1 ++ "_voltage"))
  ∧ published svc' "/Ac/L2/Voltage" = read (getitem data (l2 ++ "_voltage"))
  ∧ published svc' "/Ac/L3/Voltage" = read (getitem data (l3 ++ "_voltage"))
  ∧ published svc' "/Ac/L1/Current" = read (getitem data (l1 ++ "_current"))
  ∧ published svc' "/Ac/L2/Current" = read (getitem data (l2 ++ "_current"))
  ∧ published svc' "/Ac/L3/Current" = read (getitem data (l3 ++ "_current"))
  ∧ published svc' "/Ac/L1/Power" = read (getitem data (l1 ++ "_act_power"))
  ∧ published svc' "/Ac/L2/Power" = read (getitem data (l2 ++ "_act_power"))
  ∧ published svc' "/Ac/L3/Power" = read (getitem data (l3 ++ "_act_power")).
Proof.
  intros Hp Hrot Hreg Hfields svc'. subst svc'.
  rewrite (live_writes_by_rotation p data l1 l2 l3 Hrot).
  match goal with
  | |- context [assign_all (?w1 :: ?w2 :: ?w3 :: ?w4 :: ?w5 :: ?w6 :: ?w7 :: ?w8 :: ?w9 :: [?w10])] =>
      set (ws := w1 :: w2 :: w3 :: w4 :: w5 :: w6 :: w7 :: w8 :: [w9]);
      change (w1 :: w2 :: w3 :: w4 :: w5 :: w6 :: w7 :: w8 :: w9 :: [w10])
        with (ws ++ [w10])%list
  end.
  assert (NoDup ws.*1) as Hnd
    by (apply NoDup_ListNoDup; repeat constructor; cbn; intuition discriminate).
  assert (Forall (λ w, is_Some (objects svc !! w.1) ∧ ∃ x, w.2 = Ok x) ws) as Hall.
  { destruct (rotation_values p l1 l2 l3 Hp Hrot)
      as [(-> & -> & ->) | [(-> & -> & ->) | (-> & -> & ->)]];
      subst ws; repeat constructor; cbn [fst snd]; cbv [String.append];
      first [ apply Hreg; unfold live_paths; in_list
            | apply Hfields; unfold live_fields; in_list ]. }
  rewrite !assign_all_snoc_frame by done.
  repeat split; (apply assign_all_complete; [done | done | subst ws; in_list]).
Qed.

(** What a channel publishes after a frame tagged [em:...]. *)
Lemma three_update_live `{PyFloat} (self : ThreePhaseMeter.t) (svc : Service)
    (data : pyval) (tag q : string) :
  ThreePhaseMeter.service self = Some svc →
  getitem data "helpertag" = Ok (VStr tag) →
  String.prefix "em:" tag = true →
  three_published (ThreePhaseMeter.update data self).2 q =
    published
      (assign_all
         (ThreePhaseMeter.live_writes (ThreePhaseMeter.phase1position self) data) svc).2 q.
Proof.
  intros Hsvc Htag Hlive.
  rewrite three_update_block. cbn [snd].
  rewrite (three_block_live self data tag Htag Hlive).
  by rewrite three_published_run, Hsvc.
Qed.

(** X13: a complete live block is published line by line as the rotation
    says. For a three-phase channel with phase-1 position [p] in 1..3,
    where [rotation p] gives the phase letters [l1], [l2], [l3], whose
    service has the points of the live block: after [update] on a frame
    tagged [em:...] that carries all nine fields, the voltage, current
    and power of line L1 are the fields of phase [l1], those of L2 the
    fields of [l2], those of L3 the fields of [l3]. *)
Theorem live_block_follows_rotation `{PyFloat} (p : Z) (self : ThreePhaseMeter.t)
    (svc : Service) (data : pyval) (tag l1 l2 l3 : string) :
  1 ≤ p ≤ 3 →
  ThreePhaseMeter.phase1position self = p →
  rotation p = Ok [l1; l2; l3] →
  ThreePhaseMeter.service self = Some svc →
  (∀ q, q ∈ live_paths → is_Some (objects svc !! q)) →
  getitem data "helpertag" = Ok (VStr tag) →
  String.prefix "em:" tag = true →
  (∀ f, f ∈ live_fields → ∃ x, getitem data f = Ok x) →
  let self' := (ThreePhaseMeter.update data self).2 in
  three_published self' "/Ac/L1/Voltage" = read (getitem data (l1 ++ "_voltage"))
  ∧ three_published self' "/Ac/L2/Voltage" = read (getitem data (l2 ++ "_voltage"))
  ∧ three_published self' "/Ac/L3/Voltage" = read (getitem data (l3 ++ "_voltage"))
  ∧ three_published self' "/Ac/L1/Current" = read (getitem data (l1 ++ "_current"))
  ∧ three_published self' "/Ac/L2/Current" = read (getitem data (l2 ++ "_current"))
  ∧ three_published self' "/Ac/L3/Current" = read (getitem data (l3 ++ "_current"))
  ∧ three_published self' "/Ac/L1/Power" = read (getitem data (l1 ++ "_act_power"))
  ∧ three_published self' "/Ac/L2/Power" = read (getitem data (l2 ++ "_act_power"))
  ∧ three_published self' "/Ac/L3/Power" = read (getitem data (l3 ++ "_act_power")).
Proof.
  intros Hp Hself Hrot Hsvc Hreg Htag Hlive Hfields self'. subst self'.
  rewrite !(three_update_live self svc data tag _ Hsvc Htag Hlive), Hself.
  by apply live_writes_published.
Qed.

(** Scenario C on phase-1 position 2: L1 shows phase b, L2 phase c, L3
    phase a. *)
Lemma live_block_follows_rotation_position_2 :
  let self' := (ThreePhaseMeter.update live_block (three_registered 2)).2 in
  three_published self' "/Ac/L1/Voltage" = read (getitem live_block "b_voltage")
  ∧ three_published self' "/Ac/L2/Voltage" = read (getitem live_block "c_voltage")
  ∧ three_published self' "/Ac/L3/Voltage" = read (getitem live_block "a_voltage")
  ∧ three_published self' "/Ac/L1/Current" = read (getitem live_block "b_current")
  ∧ three_published self' "/Ac/L2/Current" = read (getitem live_block "c_current")
  ∧ three_published self' "/Ac/L3/Current" = read (getitem live_block "a_current")
  ∧ three_published self' "/Ac/L1/Power" = read (getitem live_block "b_act_power")
  ∧ three_published self' "/Ac/L2/Power" = read (getitem live_block "c_act_power")
  ∧ three_published self' "/Ac/L3/Power" = read (getitem live_block "a_act_power").
Proof.
  apply (live_block_follows_rotation 2 (three_registered 2) (three_service 2)
           live_block "em:0" "b" "c" "a").
  - lia.
  - reflexivity.
  - reflexivity.
  - reflexivity.
  - apply three_service_live_paths.
  - reflexivity.
  - reflexivity.
  - apply live_block_fields.
Defined.

(** X14: a complete history block is published with the same rotation
    as the live block. Under the conditions of the live block, for a
    frame tagged [emdata:...] whose eight energy counters are present and
    convert to kWh ([kwh], which is [round(x / 1000, 1)], has a value on
    each): after [update] the two totals hold the converted [total_act]
    and [total_act_ret], unrotated, and the forward and reverse energy of
    line L1 hold the converted counters of phase [l1], those of L2 the
    converted counters of [l2], those of L3 those of [l3]. *)
Theorem history_block_follows_rotation `{PyFloat} (p : Z) (self : ThreePhaseMeter.t)
    (svc : Service) (data : pyval) (tag l1 l2 l3 : string) :
  1 ≤ p ≤ 3 →
  ThreePhaseMeter.phase1position self = p →
  rotation p = Ok [l1; l2; l3] →
  ThreePhaseMeter.service self = Some svc →
  (∀ q, q ∈ history_paths → is_Some (objects svc !! q)) →
  getitem data "helpertag" = Ok (VStr tag) →
  String.prefix "emdata:" tag = true →
  (∀ f, f ∈ history_fields → ∃ x v, getitem data f = Ok x ∧ kwh x = Ok v) →
  let self' := (ThreePhaseMeter.update data self).2 in
  let energy f := read (res_bind (getitem data f) kwh) in
  three_published self' "/Ac/Energy/Forward" = energy "total_act"
  ∧ three_published self' "/Ac/Energy/Reverse" = energy "total_act_ret"
  ∧ three_published self' "/Ac/L1/Energy/Forward" = energy (l1 ++ "_total_act_energy")
  ∧ three_published self' "/Ac/L1/Energy/Reverse" = energy (l1 ++ "_total_act_ret_energy")
  ∧ three_published self' "/Ac/L2/Energy/Forward" = energy (l2 ++ "_total_act_energy")
  ∧ three_published self' "/Ac/L2/Energy/Reverse" = energy (l2 ++ "_total_act_ret_energy")
  ∧ three_published self' "/Ac/L3/Energy/Forward" = energy (l3 ++ "_total_act_energy")
  ∧ three_published self' "/Ac/L3/Energy/Reverse" = energy (l3 ++ "_total_act_ret_energy").
Proof.
  intros Hp Hself Hrot Hsvc Hreg Htag Hhist Hfields self' energy. subst self' energy.
  rewrite three_update_block. cbn [snd].
  rewrite (three_block_history self data tag Htag Hhist), Hself.
  rewrite (history_writes_by_rotation p data l1 l2 l3 Hrot).
  match goal with
  | |- context [three_run ?l] => set (ws := l)
  end.
  assert (NoDup ws.*1) as Hnd
    by (apply NoDup_ListNoDup; repeat constructor; cbn; intuition discriminate).
  assert (∀ f, f ∈ history_fields → ∃ v, res_bind (getitem data f) kwh = Ok v) as Hkwh.
  { intros f Hf. destruct (Hfields f Hf) as (x & v & -> & Hv). eauto. }
  assert (Forall (λ w, is_Some (objects svc !! w.1) ∧ ∃ x, w.2 = Ok x) ws) as Hall.
  { destruct (rotation_values p l1 l2 l3 Hp Hrot)
      as [(-> & -> & ->) | [(-> & -> & ->) | (-> & -> & ->)]];
      subst ws; repeat constructor; cbn [fst snd]; cbv [String.append];
      first [ apply Hreg; unfold history_paths; in_list
            | apply Hkwh; unfold history_fields; in_list ]. }
  rewrite !three_published_run, Hsvc. cbn [mbind option_bind].
  repeat split; (apply assign_all_complete; [done | done | subst ws; in_list]).
Qed.

Lemma three_service_history_paths p q :
  q ∈ history_paths → is_Some (objects (three_service p) !! q).
Proof.
  unfold history_paths. intros Hq.
  repeat (apply elem_of_cons in Hq as [-> | Hq]; [by eexists |]).
  by apply elem_of_nil in Hq.
Qed.

Lemma history_block_fields f :
  f ∈ history_fields → ∃ x v, getitem history_block f = Ok x ∧ kwh x = Ok v.
Proof.
  unfold history_fields. intros Hf.
  repeat (apply elem_of_cons in Hf as [-> | Hf];
          [eexists; eexists; split; [reflexivity |];
           cbn [kwh idiv1000 Float64]; rewrite idiv64_unseal; reflexivity |]).
  by apply elem_of_nil in Hf.
Qed.

(** A history block on phase-1 position 3, on binary64 floats: L1 shows
    the counters of phase c (3456789 and 1050 Wh: 3456.8 and 1.1 kWh), L2
    those of phase a (1234567 and 50 Wh: 1234.6 and 0.1 kWh), L3 those of
    phase b (2345678 and 150 Wh: 2345.7 and 0.1 kWh); the totals 7037034
    and 1250 Wh show as 7037.0 and 1.2 kWh. *)
Lemma history_block_follows_rotation_position_3 :
  let self' := (ThreePhaseMeter.update history_block (three_registered 3)).2 in
  three_published self' "/Ac/Energy/Forward" = Some (binary64 7737263324659712 (-40))
  ∧ three_published self' "/Ac/Energy/Reverse" = Some (binary64 5404319552844595 (-52))
  ∧ three_published self' "/Ac/L1/Energy/Forward" = Some (binary64 7601583589792154 (-41))
  ∧ three_published self' "/Ac/L1/Energy/Reverse" = Some (binary64 4953959590107546 (-52))
  ∧ three_published self' "/Ac/L2/Energy/Forward" = Some (binary64 5429828222608998 (-42))
  ∧ three_published self' "/Ac/L2/Energy/Reverse" = Some (binary64 7205759403792794 (-56))
  ∧ three_published self' "/Ac/L3/Energy/Forward" = Some (binary64 5158248850548326 (-41))
  ∧ three_published self' "/Ac/L3/Energy/Reverse" = Some (binary64 7205759403792794 (-56)).
Proof.
  intros self'.
  pose proof (history_block_follows_rotation 3 (three_registered 3) (three_service 3)
                history_block "emdata:0" "c" "a" "b"
                ltac:(lia) eq_refl eq_refl eq_refl
                (three_service_history_paths 3) eq_refl eq_refl history_block_fields) as Hpub.
  cbv zeta in Hpub. fold self' in Hpub.
  destruct Hpub as (H1 & H2 & H3 & H4 & H5 & H6 & H7 & H8).
  rewrite H1, H2, H3, H4, H5, H6, H7, H8.
  clear.
  repeat apply conj;
    (eapply published_kwh; [reflexivity | vm_compute; reflexivity ..]).
Defined.

(** ** Repeated and foreign frames *)

Section repeated_frames.
Context `{PyFloat}.

Lemma last_done_ext reg reg' q ws :
  (∀ k, reg k = reg' k) → last_done reg q ws = last_done reg' q ws.
Proof.
  intros Hreg. induction ws as [| [k [v | e]] ws IH]; cbn; [done | | done].
  by rewrite Hreg, IH.
Qed.

Lemma registered_assign_all ws svc k :
  registered (assign_all ws svc).2 k = registered svc k.
Proof. unfold registered. apply bool_decide_ext, assign_all_registered. Qed.

Lemma registered_assign path expr svc k :
  registered (assign path expr svc).2 k = registered svc k.
Proof. unfold registered. apply bool_decide_ext, assign_registered. Qed.

(** Each point after a block: the value assigned last, on the item that
    was there. *)
Lemma assign_all_objects ws svc q :
  objects (assign_all ws svc).2 !! q =
    match last_done (registered svc) q ws with
    | Some v => with_value v <$> objects svc !! q
    | None => objects svc !! q
    end.
Proof.
  revert svc. induction ws as [| [k [v | e]] ws IH]; intros svc; [done | | done].
  rewrite assign_all_cons. cbn [fst snd last_done].
  unfold registered at 1.
  destruct (objects svc !! k) as [it |] eqn:Hk.
  - rewrite bool_decide_eq_true_2 by eauto.
    assert (assign k (Ok v) svc =
              (Ok tt, {| name := name svc;
                         objects := <[k := with_value v it]> (objects svc) |})) as Has.
    { unfold assign. run_monad. unfold set_value. by rewrite Hk. }
    assert (∀ k', registered (assign k (Ok v) svc).2 k' = registered svc k') as Hreg
      by (intros k'; apply registered_assign).
    rewrite Has in Hreg |- *. cbn [fst snd] in Hreg |- *.
    rewrite IH, (last_done_ext _ (registered svc)) by exact Hreg.
    cbn [objects].
    destruct (last_done (registered svc) q ws) as [x |].
    + destruct (decide (q = k)) as [-> | Hne].
      * rewrite lookup_insert_eq, Hk. done.
      * by rewrite lookup_insert_ne.
    + destruct (String.eqb_spec q k) as [-> | Hne].
      * rewrite lookup_insert_eq, Hk. done.
      * by rewrite lookup_insert_ne.
  - rewrite bool_decide_eq_false_2 by (intros [? ?]; done).
    unfold assign. run_monad. unfold set_value. by rewrite Hk.
Qed.

Lemma service_eq (s1 s2 : Service) :
  name s1 = name s2 → objects s1 = objects s2 → s1 = s2.
Proof. destruct s1, s2. cbn. by intros -> ->. Qed.

(** Running a block a second time changes nothing. *)
Lemma assign_all_twice ws svc :
  (assign_all ws (assign_all ws svc).2).2 = (assign_all ws svc).2.
Proof.
  apply service_eq; [by rewrite !assign_all_name |].
  apply map_eq. intros q. rewrite assign_all_objects.
  rewrite (last_done_ext _ (registered svc))
    by (intros k; apply registered_assign_all).
  rewrite assign_all_objects.
  destruct (last_done (registered svc) q ws) as [v |]; [| done].
  by destruct (objects svc !! q).
Qed.

Lemma three_run_twice ws self : three_run ws (three_run ws self) = three_run ws self.
Proof.
  rewrite !three_run_eq. destruct self as [bt mon [svc |] pos d ph]; cbn; [| done].
  by rewrite assign_all_twice.
Qed.

Lemma single_run_twice ws self : single_run ws (single_run ws self) = single_run ws self.
Proof.
  rewrite !single_run_eq. destruct self as [bt mon [svc |] pos d mid ph]; cbn; [| done].
  by rewrite assign_all_twice.
Qed.

Lemma three_run_phase ws self :
  ThreePhaseMeter.phase1position (three_run ws self) = ThreePhaseMeter.phase1position self.
Proof. rewrite three_run_eq. by destruct (ThreePhaseMeter.service self). Qed.

Lemma single_run_phase ws self :
  SingleMeter.phaseposition (single_run ws self) = SingleMeter.phaseposition self.
Proof. rewrite single_run_eq. by destruct (SingleMeter.service self). Qed.

Lemma keyed_frame_run ws self data :
  keyed_frame self data → keyed_frame (single_run ws self) data.
Proof.
  intros [Hnone | Hm]; [left | by right].
  by rewrite single_run_service, Hnone.
Qed.

End repeated_frames.

(** X15: [update] is idempotent. A frame delivered a second time leaves
    the channel exactly as the first delivery left it, whatever the frame
    and whatever the state of the channel — for a three-phase channel on
    every frame, for a single-phase channel on every keyed frame (one
    that is not a [NotifyStatus] notification, or any frame when the
    channel has no service). *)
Theorem update_is_idempotent `{PyFloat} (data : pyval)
    (s3 : ThreePhaseMeter.t) (s1 : SingleMeter.t) :
  ThreePhaseMeter.update data (ThreePhaseMeter.update data s3).2
    = ThreePhaseMeter.update data s3
  ∧ (keyed_frame s1 data →
     SingleMeter.update data (SingleMeter.update data s1).2
       = SingleMeter.update data s1).
Proof.
  split.
  - rewrite !three_update_block. cbn [snd]. f_equal.
    unfold three_block at 1. rewrite three_run_phase. fold (three_block s3 data).
    apply three_run_twice.
  - intros Hk.
    rewrite (single_update_block data s1 Hk). cbn [snd].
    rewrite single_update_block by (by apply keyed_frame_run). f_equal.
    unfold single_block at 1. rewrite single_run_phase. fold (single_block s1 data).
    apply single_run_twice.
Qed.

(** Scenario C delivered twice. *)
Lemma update_is_idempotent_scenario :
  ThreePhaseMeter.update live_block
      (ThreePhaseMeter.update live_block (three_registered 2)).2
    = ThreePhaseMeter.update live_block (three_registered 2)
  ∧ SingleMeter.update (single_live_block "em:0")
        (SingleMeter.update (single_live_block "em:0") (single_registered 1)).2
      = SingleMeter.update (single_live_block "em:0") (single_registered 1).
Proof.
  split.
  - exact (proj1 (update_is_idempotent live_block (three_registered 2)
                    (single_registered 1))).
  - refine (proj2 (update_is_idempotent (single_live_block "em:0") (three_registered 2)
                     (single_registered 1)) _).
    right. exists VNone. split; reflexivity.
Defined.

Section foreign_points.
Context `{PyFloat}.

(** A point outside [/Ac/] is named by none of the blocks. *)
Ltac not_named Hq :=
  let Hin := fresh "Hin" in
  intros Hin;
  repeat (apply elem_of_cons in Hin as [-> | Hin];
          [cbv [String.append] in Hq; cbn in Hq; discriminate Hq |]);
  by apply elem_of_nil in Hin.

Lemma three_block_measurements self data q :
  String.prefix "/Ac/" q = false → q ∉ (three_block self data).*1.
Proof.
  intros Hq. unfold three_block, select_block.
  destruct (getitem data "helpertag") as [tag |]; [| by apply not_elem_of_nil].
  destruct (startswith tag "em:") as [[] |]; [| | by apply not_elem_of_nil].
  - cbn. not_named Hq.
  - destruct (startswith tag "emdata:") as [[] |]; [| by apply not_elem_of_nil ..].
    cbn. not_named Hq.
Qed.

Lemma single_block_measurements self data q :
  String.prefix "/Ac/" q = false → q ∉ (single_block self data).*1.
Proof.
  intros Hq. unfold single_block, select_block.
  destruct (getitem data "helpertag") as [tag |]; [| by apply not_elem_of_nil].
  destruct (startswith tag "em:") as [[] |]; [| | by apply not_elem_of_nil].
  - cbn. not_named Hq.
  - destruct (startswith tag "emdata:") as [[] |]; [| by apply not_elem_of_nil ..].
    cbn. not_named Hq.
Qed.

Lemma notify_blocks_measurements d q :
  String.prefix "/Ac/" q = false →
  (q ∉ (SingleMeter.notify_live_writes d).*1)
  ∧ (q ∉ (SingleMeter.notify_history_writes d).*1).
Proof. intros Hq. split; cbn; not_named Hq. Qed.

Lemma wp_with_service_single (body : M Service unit)
    (Q : res unit → SingleMeter.t → Prop) self :
  match SingleMeter.service self with
  | None => Q (Raise AttributeError) self
  | Some svc => Q (body svc).1 (SingleMeter.set_service (Some (body svc).2) self)
  end →
  wp (SingleMeter.with_service body) Q self.
Proof.
  unfold wp, SingleMeter.with_service.
  destruct (SingleMeter.service self) as [svc |]; [| done].
  by destruct (body svc).
Qed.

(** The leftover [NotifyStatus] part of [SingleMeter.update], however it
    ends, leaves the points outside [/Ac/] alone. *)
Lemma single_update_notify_frame data self q :
  String.prefix "/Ac/" q = false →
  single_published (SingleMeter.update_notify data self).2 q = single_published self q.
Proof.
  intros Hq.
  assert (∀ ws s, q ∉ ws.*1 →
            wp (SingleMeter.with_service (assign_all ws))
               (λ _ s', single_published s' q = single_published s q) s) as Hws.
  { intros ws s Hws. apply wp_with_service_single. unfold single_published.
    destruct (SingleMeter.service s) as [svc |]; [| done]. cbn.
    by apply assign_all_frame. }
  change (wp (SingleMeter.update_notify data)
            (λ _ s', single_published s' q = single_published self q) self).
  unfold SingleMeter.update_notify.
  apply wp_bind, wp_get. destruct (SingleMeter.service self) as [svc |] eqn:Hsvc;
    [| by apply wp_ret].
  apply wp_bind, wp_lift. destruct (dict_get data "method") as [m |]; [| done].
  destruct (eq_str m "NotifyStatus"); [| by apply wp_ret].
  apply wp_bind, wp_try_KeyError, wp_bind, wp_lift.
  assert (∀ s, single_published s q = single_published self q →
            wp (try_KeyError
                  (do p <- lift (getitem data "params"); lift (getitem p "emdata:0"))
                  (ret tt)
                  (λ d, SingleMeter.with_service
                          (assign_all (SingleMeter.notify_history_writes d))))
               (λ _ s', single_published s' q = single_published self q) s) as Hsecond.
  { intros s Hs. apply wp_try_KeyError, wp_bind, wp_lift.
    destruct (getitem data "params") as [p | []]; try done.
    apply wp_lift. destruct (getitem p "emdata:0") as [d | []]; try done.
    rewrite <- Hs. apply Hws, notify_blocks_measurements, Hq. }
  destruct (getitem data "params") as [p | []]; try done; try (by apply Hsecond).
  apply wp_lift. destruct (getitem p "em:0") as [d | []]; try done;
    try (by apply Hsecond).
  eapply wp_mono; [apply (Hws _ self), notify_blocks_measurements, Hq |].
  intros [[] | err] s' Hs'; [by apply Hsecond | done].
Qed.

End foreign_points.

(** X16: [update] writes measurement points only. Whatever the frame
    and however [update] ends, every point whose path does not start with
    [/Ac/] — the identity of the device, the role, the phase, the
    position — has the value it had before; this holds for both channel
    classes. *)
Theorem update_writes_measurements_only `{PyFloat} (data : pyval)
    (s3 : ThreePhaseMeter.t) (s1 : SingleMeter.t) (q : string) :
  String.prefix "/Ac/" q = false →
  three_published (ThreePhaseMeter.update data s3).2 q = three_published s3 q
  ∧ single_published (SingleMeter.update data s1).2 q = single_published s1 q.
Proof.
  intros Hq. split.
  - rewrite three_update_block. cbn [snd]. rewrite three_published_run.
    unfold three_published. destruct (ThreePhaseMeter.service s3) as [svc |]; [| done].
    cbn. by apply assign_all_frame, three_block_measurements.
  - unfold SingleMeter.update, bind. rewrite single_update_keyed.
    transitivity (single_published (single_run (single_block s1 data) s1) q).
    + pose proof (single_update_notify_frame data
                    (single_run (single_block s1 data) s1) q Hq) as Hn.
      by destruct (SingleMeter.update_notify data _) as [[[] | err] s'].
    + rewrite single_published_run. unfold single_published.
      destruct (SingleMeter.service s1) as [svc |]; [| done].
      cbn. by apply assign_all_frame, single_block_measurements.
Qed.

(** The role of the three-phase channel under Scenario C, and the device
    instance of the single-phase channel under a notification whose
    leftover block raises. *)
Lemma update_writes_measurements_only_role :
  three_published (ThreePhaseMeter.update live_block (three_registered 2)).2 "/Role"
    = three_published (three_registered 2) "/Role"
  ∧ single_published
      (SingleMeter.update notify_empty_block (single_registered 1)).2 "/Role"
    = single_published (single_registered 1) "/Role".
Proof.
  split.
  - exact (proj1 (update_writes_measurements_only live_block (three_registered 2)
                    (single_registered 1) "/Role" eq_refl)).
  - exact (proj2 (update_writes_measurements_only notify_empty_block (three_registered 2)
                    (single_registered 1) "/Role" eq_refl)).
Defined.

(** X17: a destroyed channel ignores every frame. After [destroy] the
    channel has no service and its [destroyed] flag is set; [update] then
    returns normally on every frame and changes nothing, and a second
    [destroy] changes nothing either. This holds for both channel
    classes. *)
Theorem destroyed_channel_ignores_frames `{PyFloat} (data : pyval)
    (s1 : SingleMeter.t) (s3 : ThreePhaseMeter.t) :
  let d1 := (SingleMeter.destroy s1).2 in
  let d3 := (ThreePhaseMeter.destroy s3).2 in
  SingleMeter.destroyed d1 = true ∧ SingleMeter.service d1 = None
  ∧ ThreePhaseMeter.destroyed d3 = true ∧ ThreePhaseMeter.service d3 = None
  ∧ SingleMeter.update data d1 = (Ok tt, d1)
  ∧ ThreePhaseMeter.update data d3 = (Ok tt, d3)
  ∧ SingleMeter.destroy d1 = (Ok tt, d1)
  ∧ ThreePhaseMeter.destroy d3 = (Ok tt, d3).
Proof.
  intros d1 d3.
  split; [done |]. split; [done |]. split; [done |]. split; [done |].
  split; [| split; [| done]].
  - rewrite single_update_block by (by left).
    by rewrite single_run_service_None.
  - rewrite three_update_block. by rewrite three_run_eq.
Qed.

(** X18: a live block reaches the points of a single-phase channel. For
    a channel whose service has the three live points of its phase line
    and the total power: after [update] on a frame tagged [em:...] that
    is not a [NotifyStatus] notification and carries [voltage], [current]
    and [act_power], [update] returns normally, the voltage, the current
    and the power of the channel's line hold the three fields, and the
    total power [/Ac/Power] holds [act_power] as well. *)
Theorem single_phase_live_block_published `{PyFloat} (self : SingleMeter.t)
    (svc : Service) (data : pyval) (tag : string) (m v c w : pyval) :
  SingleMeter.service self = Some svc →
  let prefix := "/Ac/L" ++ str_int (SingleMeter.phaseposition self) in
  (∀ q, q ∈ [prefix ++ "/Voltage"; prefix ++ "/Current"; prefix ++ "/Power"; "/Ac/Power"] →
        is_Some (objects svc !! q)) →
  getitem data "helpertag" = Ok (VStr tag) →
  String.prefix "em:" tag = true →
  dict_get data "method" = Ok m →
  eq_str m "NotifyStatus" = false →
  getitem data "voltage" = Ok v →
  getitem data "current" = Ok c →
  getitem data "act_power" = Ok w →
  let out := SingleMeter.update data self in
  out.1 = Ok tt
  ∧ single_published out.2 (prefix ++ "/Voltage") = Some v
  ∧ single_published out.2 (prefix ++ "/Current") = Some c
  ∧ single_published out.2 (prefix ++ "/Power") = Some w
  ∧ single_published out.2 "/Ac/Power" = Some w.
Proof.
  intros Hsvc prefix Hreg Htag Hlive Hm Hns Hv Hc Hw out. subst out.
  rewrite single_update_block by (right; eauto). cbn [fst snd].
  split; [done |].
  unfold single_block, select_block. rewrite Htag. cbn [startswith]. rewrite Hlive.
  fold prefix. unfold SingleMeter.live_writes. rewrite Hv, Hc, Hw.
  match goal with |- context [single_run ?l] => set (ws := l) end.
  assert (NoDup ws.*1) as Hnd.
  { cbn. apply NoDup_ListNoDup. repeat constructor; cbn.
    - intros [Heq | [Heq | [Heq | []]]].
      + by apply (inj (String.app prefix)) in Heq.
      + by apply (inj (String.app prefix)) in Heq.
      + subst prefix. cbv [String.append] in Heq. discriminate Heq.
    - intros [Heq | [Heq | []]].
      + by apply (inj (String.app prefix)) in Heq.
      + subst prefix. cbv [String.append] in Heq. discriminate Heq.
    - intros [Heq | []].
      subst prefix. cbv [String.append] in Heq. discriminate Heq.
    - intros []. }
  assert (Forall (λ w, is_Some (objects svc !! w.1) ∧ ∃ x, w.2 = Ok x) ws) as Hall.
  { subst ws. repeat constructor; cbn [fst snd]; first [apply Hreg; in_list | eauto]. }
  rewrite !single_published_run, Hsvc. cbn [mbind option_bind].
  repeat split;
    (match goal with |- _ = Some ?x => change (Some x) with (read (Ok x)) end;
     apply assign_all_complete; [done | done | subst ws; in_list]).
Qed.

(** A live block of channel 0 on phase 1. *)
Lemma single_phase_live_block_published_phase_1 :
  let out := SingleMeter.update (single_live_block "em:0") (single_registered 1) in
  out.1 = Ok tt
  ∧ single_published out.2 "/Ac/L1/Voltage" = Some (VInt 230)
  ∧ single_published out.2 "/Ac/L1/Current" = Some (VInt 1)
  ∧ single_published out.2 "/Ac/L1/Power" = Some (VInt 230)
  ∧ single_published out.2 "/Ac/Power" = Some (VInt 230).
Proof.
  refine (single_phase_live_block_published (single_registered 1) _
            (single_live_block "em:0") "em:0" VNone (VInt 230) (VInt 1) (VInt 230)
            eq_refl _ eq_refl eq_refl eq_refl eq_refl eq_refl eq_refl eq_refl).
  intros q Hq.
  repeat (apply elem_of_cons in Hq as [-> | Hq]; [by eexists |]).
  by apply elem_of_nil in Hq.
Defined.

(** X19: on a three-phase channel a phase write takes effect at the
    next frame. After a successful [start], an accepted [phase_changed q]
    with [q] in 1..3, where [rotation q] gives the phase letters [l1],
    [l2], [l3]: [update] on a frame tagged [em:...] that carries all nine
    fields publishes the fields of phase [l1] on line L1, those of [l2]
    on L2 and those of [l3] on L3. *)
Theorem three_phase_write_rotates_next_block `{PyFloat} (e : Env)
    (self : ThreePhaseMeter.t) (host : string) (port : Z) (hs : pyval)
    (mac : string) (fw : pyval) (role : string) (inst p q : Z)
    (data : pyval) (tag l1 l2 l3 : string) :
  three_line_handshake hs mac fw →
  three_stored e mac role inst p →
  1 ≤ q ≤ 3 →
  rotation q = Ok [l1; l2; l3] →
  getitem data "helpertag" = Ok (VStr tag) →
  String.prefix "em:" tag = true →
  (∀ f, f ∈ live_fields → ∃ x, getitem data f = Ok x) →
  let started := ThreePhaseMeter.start host port hs (e, self) in
  let phased := ThreePhaseMeter.phase_changed q started.2 in
  let self' := (ThreePhaseMeter.update data phased.2.2).2 in
  started.1 = Ok true
  ∧ phased.1 = Ok true
  ∧ three_published self' "/Ac/L1/Voltage" = read (getitem data (l1 ++ "_voltage"))
  ∧ three_published self' "/Ac/L2/Voltage" = read (getitem data (l2 ++ "_voltage"))
  ∧ three_published self' "/Ac/L3/Voltage" = read (getitem data (l3 ++ "_voltage"))
  ∧ three_published self' "/Ac/L1/Current" = read (getitem data (l1 ++ "_current"))
  ∧ three_published self' "/Ac/L2/Current" = read (getitem data (l2 ++ "_current"))
  ∧ three_published self' "/Ac/L3/Current" = read (getitem data (l3 ++ "_current"))
  ∧ three_published self' "/Ac/L1/Power" = read (getitem data (l1 ++ "_act_power"))
  ∧ three_published self' "/Ac/L2/Power" = read (getitem data (l2 ++ "_act_power"))
  ∧ three_published self' "/Ac/L3/Power" = read (getitem data (l3 ++ "_act_power")).
Proof.
  intros Hd He Hq Hrot Htag Hlive Hfields started phased self'.
  destruct (three_start_state e self host port hs mac fw role inst p Hd He)
    as (Hr & _ & Hmon & Hsvc & _).
  fold started in Hr, Hmon, Hsvc.
  assert (phased.1 = Ok true
          ∧ phased.2.2 = ThreePhaseMeter.set_phase1position q started.2.2) as [Hok Hph].
  { subst phased. rewrite (surjective_pairing started.2) at 1 2.
    rewrite (three_phase_changed q _ _ _ Hmon). cbn [settings_service].
    by rewrite bool_decide_eq_true_2 by done. }
  split; [exact Hr |]. split; [exact Hok |].
  subst self'. rewrite Hph.
  rewrite !(three_update_live (ThreePhaseMeter.set_phase1position q started.2.2)
              _ data tag _ Hsvc Htag Hlive).
  cbn [ThreePhaseMeter.phase1position ThreePhaseMeter.set_phase1position].
  apply live_writes_published; [done | done | | done].
  intros k Hk. apply published_is_Some.
  rewrite three_publish_measurements; [done |].
  unfold live_paths in Hk. unfold three_measurement_paths.
  repeat (apply elem_of_cons in Hk as [-> | Hk]; [vm_compute; in_list |]).
  by apply elem_of_nil in Hk.
Qed.

(** Scenario C right after the start of a grid meter that is then moved
    to phase-1 position 3. *)
Lemma three_phase_write_rotates_next_block_position_3 :
  let started := ThreePhaseMeter.start "192.168.1.20" 80 handshake_three
                   (env_up, ThreePhaseMeter.init SYSTEM) in
  let phased := ThreePhaseMeter.phase_changed 3 started.2 in
  let self' := (ThreePhaseMeter.update live_block phased.2.2).2 in
  started.1 = Ok true
  ∧ phased.1 = Ok true
  ∧ three_published self' "/Ac/L1/Voltage" = read (getitem live_block "c_voltage")
  ∧ three_published self' "/Ac/L2/Voltage" = read (getitem live_block "a_voltage")
  ∧ three_published self' "/Ac/L3/Voltage" = read (getitem live_block "b_voltage")
  ∧ three_published self' "/Ac/L1/Current" = read (getitem live_block "c_current")
  ∧ three_published self' "/Ac/L2/Current" = read (getitem live_block "a_current")
  ∧ three_published self' "/Ac/L3/Current" = read (getitem live_block "b_current")
  ∧ three_published self' "/Ac/L1/Power" = read (getitem live_block "c_act_power")
  ∧ three_published self' "/Ac/L2/Power" = read (getitem live_block "a_act_power")
  ∧ three_published self' "/Ac/L3/Power" = read (getitem live_block "b_act_power").
Proof.
  apply (three_phase_write_rotates_next_block env_up (ThreePhaseMeter.init SYSTEM)
           "192.168.1.20" 80 handshake_three "A8032AB6C1D4" (VStr "20240625-122905")
           "grid" 40 1 3 live_block "em:0" "c" "a" "b").
  - repeat split.
  - vm_compute. repeat split.
  - lia.
  - reflexivity.
  - reflexivity.
  - reflexivity.
  - apply live_block_fields.
Defined.

(** ** The device group *)

Section group.
Context `{PyFloat}.
Import PhysicalMeter.

Lemma group_update_empty data g :
  localmeters g = [] → PhysicalMeter.update data g = (Ok tt, g).
Proof.
  intros Hl. unfold PhysicalMeter.update. run_monad. rewrite Hl. cbn [dict_keys fmap list_fmap for_each].
  run_monad.
  destruct (dict_get data "method") as [m |]; [| done].
  destruct (eq_str m "NotifyStatus"); [| done].
  destruct (getitem data "params") as [d | []]; try done.
  by rewrite Hl.
Qed.

Lemma group_destroy_empty g :
  localmeters g = [] → PhysicalMeter.destroy g = (Ok tt, set_destroyed true g).
Proof.
  intros Hl. unfold PhysicalMeter.destroy. run_monad. by rewrite Hl.
Qed.

End group.

(** X20: what the sweeps over [localmeters] do. On a group that holds
    at least one channel, [update] and [destroy] both raise
    AttributeError at the first key and leave the group, its [destroyed]
    flag and every channel as they were, whatever the frame; no frame is
    ever forwarded to a channel. On a group without channels [update]
    returns normally and changes nothing, and [destroy] sets the
    [destroyed] flag. *)
Theorem group_sweeps `{PyFloat} (data : pyval) (g : PhysicalMeter.t) :
  (PhysicalMeter.localmeters g ≠ [] →
     PhysicalMeter.update data g = (Raise AttributeError, g)
     ∧ PhysicalMeter.destroy g = (Raise AttributeError, g))
  ∧ (PhysicalMeter.localmeters g = [] →
       PhysicalMeter.update data g = (Ok tt, g)
       ∧ PhysicalMeter.destroy g = (Ok tt, PhysicalMeter.set_destroyed true g)).
Proof.
  split.
  - intros Hne. destruct (PhysicalMeter.localmeters g) as [| [k c] rest] eqn:Hl; [done |].
    split.
    + by apply (group_update_raises data g k c rest).
    + by apply (group_destroy_raises g k c rest).
  - intros Hl. split.
    + by apply group_update_empty.
    + by apply group_destroy_empty.
Qed.

(** The group of the two-channel device with both channels healthy, and
    the group before [start]. *)
Lemma group_sweeps_examples :
  let g := PhysicalMeter.set_localmeters
             [ (0, PhysicalMeter.Single (single_registered 1));
               (1, PhysicalMeter.Single healthy_channel) ]
             group_with_destroyed_channel in
  (PhysicalMeter.update notify_channel_1 g = (Raise AttributeError, g)
   ∧ PhysicalMeter.destroy g = (Raise AttributeError, g))
  ∧ (PhysicalMeter.update notify_channel_1 (PhysicalMeter.init SYSTEM)
       = (Ok tt, PhysicalMeter.init SYSTEM)
     ∧ PhysicalMeter.destroy (PhysicalMeter.init SYSTEM)
       = (Ok tt, PhysicalMeter.set_destroyed true (PhysicalMeter.init SYSTEM))).
Proof.
  intros g. split.
  - refine (proj1 (group_sweeps notify_channel_1 g) _). done.
  - exact (proj2 (group_sweeps notify_channel_1 (PhysicalMeter.init SYSTEM)) eq_refl).
Defined.

(** X21: [PhysicalMeter.start] never returns True. Run on a fresh
    group, it raises, or returns False, or falls off its end and returns
    None; it returns None only when it has created one three-phase
    channel, at index 0, whose service is published. *)
Theorem group_start_never_returns_true `{PyFloat} (e : Env) (bt : BusType)
    (host : string) (port : Z) (data : pyval) :
  let out := PhysicalMeter.start host port data (e, PhysicalMeter.init bt) in
  (∃ err, out.1 = Raise err)
  ∨ out.1 = Ok (VBool false)
  ∨ (out.1 = Ok VNone
     ∧ ∃ m, PhysicalMeter.localmeters out.2.2 = [(0, PhysicalMeter.Three m)]
            ∧ is_Some (ThreePhaseMeter.service m)).
Proof.
  intros out. subst out.
  pose proof (start_outcome host port data e bt) as Hout. unfold wp in Hout.
  destruct (PhysicalMeter.start host port data (e, PhysicalMeter.init bt))
    as [r [e' g]].
  cbn [fst snd] in *.
  destruct (classify data) as [[| n |] | err];
    unfold none_post, single_post, three_post in Hout; cbn [fst snd] in Hout.
  - destruct Hout as [_ ->]. auto.
  - destruct Hout as (_ & _ & _ & [-> | [err ->]]); eauto.
  - destruct Hout as ((m & Hm & _ & [[-> Hs] | [[-> _] | [err ->]]]) & _); eauto 10.
  - destruct Hout as [_ ->]. eauto.
Qed.

(** X22: the loop over single-phase channels never gets past channel 0.
    On every handshake that selects it — the two-channel device, or the
    three-line device with profile ["monophase"] — [PhysicalMeter.start],
    run on a fresh group, creates the single-phase channel 0 bound to
    [em1:0] and [em1data:0] and no other channel; that channel has no
    service and is not destroyed, and [start] returns False or raises. *)
Theorem single_phase_loop_stops_at_channel_0 `{PyFloat} (e : Env) (bt : BusType)
    (host : string) (port : Z) (data : pyval) :
  (result_field data "model" = Ok (VStr "SPEM-002CEBEU50")
   ∧ result_field data "app" = Ok (VStr "ProEM"))
  ∨ (result_field data "model" = Ok (VStr "SPEM-003CEBEU")
     ∧ result_field data "app" = Ok (VStr "Pro3EM")
     ∧ result_field data "profile" = Ok (VStr "monophase")) →
  let out := PhysicalMeter.start host port data (e, PhysicalMeter.init bt) in
  (∃ m, PhysicalMeter.localmeters out.2.2 = [(0, PhysicalMeter.Single m)]
        ∧ SingleMeter.meterid m = 0
        ∧ SingleMeter.service m = None
        ∧ SingleMeter.destroyed m = false)
  ∧ PhysicalMeter.localmeterskeys out.2.2 = [(0, ["em1:0"; "em1data:0"])]
  ∧ PhysicalMeter.destroyed out.2.2 = false
  ∧ (out.1 = Ok (VBool false) ∨ ∃ err, out.1 = Raise err).
Proof.
  intros Hd out. subst out.
  pose proof (start_outcome host port data e bt) as Hout. unfold wp in Hout.
  assert (∃ n, classify data = Ok (SingleLoop n)) as [n Hc].
  { unfold classify. destruct Hd as [[-> ->] | (-> & -> & ->)]; cbn; eauto. }
  rewrite Hc in Hout. unfold single_post in Hout.
  destruct Hout as ((m & Hm & Hd' & Hs & Hid) & Hk & Hg & Hr).
  eauto 10.
Qed.

Lemma single_phase_loop_stops_at_channel_0_two_channel :
  let out := PhysicalMeter.start "192.168.1.20" 80 handshake_two
               (env_up, PhysicalMeter.init SYSTEM) in
  (∃ m, PhysicalMeter.localmeters out.2.2 = [(0, PhysicalMeter.Single m)]
        ∧ SingleMeter.meterid m = 0
        ∧ SingleMeter.service m = None
        ∧ SingleMeter.destroyed m = false)
  ∧ PhysicalMeter.localmeterskeys out.2.2 = [(0, ["em1:0"; "em1data:0"])]
  ∧ PhysicalMeter.destroyed out.2.2 = false
  ∧ (out.1 = Ok (VBool false) ∨ ∃ err, out.1 = Raise err).
Proof.
  apply (single_phase_loop_stops_at_channel_0 env_up SYSTEM "192.168.1.20" 80
           handshake_two).
  left. split; reflexivity.
Defined.

(** ** The module-level helpers *)

Lemma str_int_inj (i j : Z) : str_int i = str_int j → i = j.
Proof.
  intros Heq. apply (f_equal int_str) in Heq.
  rewrite !int_str_str_int in Heq. by injection Heq.
Qed.

(** X23: the aliases that [alias_instance], [alias_position] and
    [alias_phase] build never collide: each is injective in the channel
    index, and no alias of one kind equals an alias of another kind. *)
Theorem channel_aliases_are_distinct (i j : Z) :
  (alias_instance i = alias_instance j → i = j)
  ∧ (alias_position i = alias_position j → i = j)
  ∧ (alias_phase i = alias_phase j → i = j)
  ∧ alias_instance i ≠ alias_position j
  ∧ alias_instance i ≠ alias_phase j
  ∧ alias_position i ≠ alias_phase j.
Proof.
  unfold alias_instance, alias_position, alias_phase.
  repeat split.
  - intros Heq%(inj (String.app _)). by apply str_int_inj.
  - intros Heq%(inj (String.app _)). by apply str_int_inj.
  - intros Heq%(inj (String.app _)). by apply str_int_inj.
  - cbv [String.append]. discriminate.
  - cbv [String.append]. discriminate.
  - cbv [String.append]. discriminate.
Qed.

Lemma channel_aliases_are_distinct_0_1 :
  alias_instance 0 ≠ alias_instance 1
  ∧ alias_instance 1 ≠ alias_position 1.
Proof.
  destruct (channel_aliases_are_distinct 0 1) as (Hi & _).
  destruct (channel_aliases_are_distinct 1 1) as (_ & _ & _ & Hp & _).
  split; [| exact Hp].
  intros Heq. by apply Hi in Heq.
Defined.

Lemma hex_digits_upper d : hex_digits (hex_upper d) = Some d.
Proof. induction d; cbn; rewrite ?IHd; done. Qed.

(** X24: the text of a product id. For an int [n] that is not negative
    [unit_productid] gives ["0x"] followed by upper-case hexadecimal
    digits that denote [n]; for a negative [n] it gives ["0x-"] followed
    by the digits of [-n]; the product id that both channel classes
    publish, 0xB034, reads ["0xB034"]. A float or a string is a
    ValueError, None a TypeError. *)
Theorem unit_productid_text `{PyFloat} :
  (∀ n, 0 ≤ n →
     ∃ digits, Formatters.unit_productid (VInt n) = Ok ("0x" ++ digits)
               ∧ hex_value digits = Some n)
  ∧ (∀ n, n < 0 →
       ∃ digits, Formatters.unit_productid (VInt n) = Ok ("0x-" ++ digits)
                 ∧ hex_value digits = Some (- n))
  ∧ Formatters.unit_productid (VInt 0xB034) = Ok "0xB034"
  ∧ (∀ f, Formatters.unit_productid (VFloat f) = Raise ValueError)
  ∧ (∀ s, Formatters.unit_productid (VStr s) = Raise ValueError)
  ∧ Formatters.unit_productid VNone = Raise TypeError.
Proof.
  split; [| split; [| repeat split]].
  - intros n Hn. unfold Formatters.unit_productid, format_X.
    pose proof (HexadecimalZ.of_to n) as Hto.
    destruct (Z.to_hex_int n) as [d | d] eqn:Hd.
    + exists (hex_upper d). split; [done |].
      unfold hex_value. rewrite hex_digits_upper. cbn. by rewrite <- Hto.
    + destruct n; first [done | lia].
  - intros n Hn. unfold Formatters.unit_productid, format_X.
    pose proof (HexadecimalZ.of_to n) as Hto.
    destruct (Z.to_hex_int n) as [d | d] eqn:Hd.
    + destruct n; first [done | lia].
    + exists (hex_upper d). split; [done |].
      unfold hex_value. rewrite hex_digits_upper. cbn [fmap option_fmap option_map].
      f_equal. cbn [Z.of_hex_int] in Hto. lia.
Qed.

Lemma unit_productid_text_examples :
  (∃ digits, Formatters.unit_productid (VInt 255) = Ok ("0x" ++ digits)
             ∧ hex_value digits = Some 255)
  ∧ (∃ digits, Formatters.unit_productid (VInt (-255)) = Ok ("0x-" ++ digits)
               ∧ hex_value digits = Some (- -255)).
Proof.
  destruct (unit_productid_text (H:=Float64)) as (Hpos & Hneg & _).
  split.
  - apply Hpos. lia.
  - apply Hneg. lia.
Defined.

(** ** Failed role writes and foreign devices *)

Section failed_role_write.
Context `{PyFloat}.

Lemma single_role_read_fails r e self h err :
  r ∈ allowed_roles →
  knows_settings (SingleMeter.monitor self) h →
  role_instance (get_value (store e) (alias h "instance")) = Raise err →
  SingleMeter.role_changed (VStr r) (e, self) = (Raise err, (e, self)).
Proof.
  intros Hr Hm Hri. unfold SingleMeter.role_changed.
  assert (in_strs (VStr r) allowed_roles = true) as ->
    by (apply in_strs_true; eauto).
  run_monad. rewrite Hm. cbv [settings_service]. by rewrite Hri.
Qed.

Lemma three_role_read_fails r e self h err :
  r ∈ allowed_roles →
  knows_settings (ThreePhaseMeter.monitor self) h →
  role_instance (get_value (store e) (alias h "instance")) = Raise err →
  ThreePhaseMeter.role_changed (VStr r) (e, self) = (Raise err, (e, self)).
Proof.
  intros Hr Hm Hri. unfold ThreePhaseMeter.role_changed.
  assert (in_strs (VStr r) allowed_roles = true) as ->
    by (apply in_strs_true; eauto).
  run_monad. rewrite Hm. cbv [settings_service]. by rewrite Hri.
Qed.

End failed_role_write.

(** X25: a role write that cannot read the stored value changes
    nothing. When [role_changed] is called with one of the four roles on
    a channel whose monitor knows the settings service, and the value
    stored under the instance alias does not read as role and instance
    ([role_instance] raises), [role_changed] raises that same exception
    and neither the settings store nor the channel has changed: nothing
    is written and the channel is not destroyed. This holds for both
    channel classes. *)
Theorem role_write_with_unreadable_setting_changes_nothing `{PyFloat} (r : string)
    (e : Env) (s1 : SingleMeter.t) (s3 : ThreePhaseMeter.t)
    (h1 h3 : SettingsService) (err1 err3 : exn) :
  r ∈ allowed_roles →
  knows_settings (SingleMeter.monitor s1) h1 →
  knows_settings (ThreePhaseMeter.monitor s3) h3 →
  role_instance (get_value (store e) (alias h1 "instance")) = Raise err1 →
  role_instance (get_value (store e) (alias h3 "instance")) = Raise err3 →
  SingleMeter.role_changed (VStr r) (e, s1) = (Raise err1, (e, s1))
  ∧ ThreePhaseMeter.role_changed (VStr r) (e, s3) = (Raise err3, (e, s3)).
Proof.
  intros Hr Hm1 Hm3 Hri1 Hri3. split.
  - by apply (single_role_read_fails r e s1 h1).
  - by apply (three_role_read_fails r e s3 h3).
Qed.

(** A stored role without instance on the single-phase channel, and a
    three-phase channel whose handle has no instance alias. *)
Lemma role_write_with_unreadable_setting_changes_nothing_examples :
  let s3 := ThreePhaseMeter.set_monitor
              (Some {| settings_service := Some {| aliases := ∅ |} |})
              (ThreePhaseMeter.init SYSTEM) in
  SingleMeter.role_changed (VStr "genset") (env_malformed_role, single_registered 1)
    = (Raise IndexError, (env_malformed_role, single_registered 1))
  ∧ ThreePhaseMeter.role_changed (VStr "genset") (env_malformed_role, s3)
    = (Raise AttributeError, (env_malformed_role, s3)).
Proof.
  intros s3.
  refine (role_write_with_unreadable_setting_changes_nothing "genset"
            env_malformed_role (single_registered 1) s3 single_paths
            {| aliases := ∅ |} IndexError AttributeError _ eq_refl eq_refl _ _).
  - unfold allowed_roles. in_list.
  - vm_compute. reflexivity.
  - reflexivity.
Defined.

(** X26: a device that the driver does not serve is turned away before
    anything is created. When the handshake has no [result], or its
    result lacks [model] or [app], or model and app name neither the
    two-channel nor the three-line device, [PhysicalMeter.start] returns
    False and the group is as before: no channel, no telemetry key,
    localsettings untouched. *)
Theorem group_start_rejects_unknown_device `{PyFloat} (e : Env) (g : PhysicalMeter.t)
    (host : string) (port : Z) (data : pyval) :
  result_field data "model" = Raise KeyError
  ∨ (∃ model, result_field data "model" = Ok model
              ∧ result_field data "app" = Raise KeyError)
  ∨ (∃ model app,
       result_field data "model" = Ok model
       ∧ result_field data "app" = Ok app
       ∧ (eq_str model "SPEM-002CEBEU50" && eq_str app "ProEM") = false
       ∧ (eq_str model "SPEM-003CEBEU" && eq_str app "Pro3EM") = false) →
  PhysicalMeter.start host port data (e, g) = (Ok (VBool false), (e, g)).
Proof.
  intros Hd. unfold PhysicalMeter.start. cbv [bind ret raise lift try_KeyError try_any].
  destruct Hd as [-> | [(model & -> & ->) | (model & app & -> & -> & H2 & H3)]];
    [done | done |].
  rewrite H2, H3. by destruct (result_field data "name").
Qed.

Lemma group_start_rejects_unknown_device_examples :
  PhysicalMeter.start "192.168.1.20" 80 handshake_foreign
      (env_up, PhysicalMeter.init SYSTEM)
    = (Ok (VBool false), (env_up, PhysicalMeter.init SYSTEM))
  ∧ PhysicalMeter.start "192.168.1.20" 80 handshake_error
        (env_up, PhysicalMeter.init SYSTEM)
      = (Ok (VBool false), (env_up, PhysicalMeter.init SYSTEM)).
Proof.
  split.
  - apply (group_start_rejects_unknown_device env_up (PhysicalMeter.init SYSTEM)
             "192.168.1.20" 80 handshake_foreign).
    right. right. exists (VStr "SNSW-001X16EU"), (VStr "Plus1"). repeat split.
  - apply (group_start_rejects_unknown_device env_up (PhysicalMeter.init SYSTEM)
             "192.168.1.20" 80 handshake_error).
    left. reflexivity.
Defined.
